(** * neat-python: configuration loading and the aggregation function registry

    A shallow embedding of [neat/config.py] and [neat/aggregations.py].

    Python strings are modelled by [string] (a sequence of characters, the
    character type being [ascii]); [dict]s whose iteration order shows in the
    output are association lists in insertion order; [warnings.warn] and
    [f.write] are recorded in an effect trace; exceptions are values of
    [exn]. *)

From Stdlib Require Import String Ascii List ZArith Bool Arith Lia.
From Stdlib Require Import Permutation Sorted DecimalString.
Import ListNotations.
Open Scope list_scope.
Open Scope string_scope.

(** ** Python built-ins on strings and lists *)

Module Py.

(** [c.lower()] on one character: only the letters A-Z change. *)
Definition lower_ascii (c : ascii) : ascii :=
  let n := nat_of_ascii c in
  if (65 <=? n)%nat && (n <=? 90)%nat then ascii_of_nat (n + 32) else c.

(** [s.lower()] *)
Fixpoint lower (s : string) : string :=
  match s with
  | EmptyString => EmptyString
  | String c r => String (lower_ascii c) (lower r)
  end.

(** [s.split(sep)] for a one-character separator: every occurrence of the
    separator cuts, so consecutive separators give empty pieces and the
    empty string gives one empty piece. *)
Fixpoint split (sep : ascii) (s : string) : list string :=
  match s with
  | EmptyString => [EmptyString]
  | String c r =>
      if Ascii.eqb c sep then EmptyString :: split sep r
      else match split sep r with
           | h :: t => String c h :: t
           | [] => [String c EmptyString]
           end
  end.

(** [c in s] for a character *)
Fixpoint contains (c : ascii) (s : string) : bool :=
  match s with
  | EmptyString => false
  | String a r => Ascii.eqb a c || contains c r
  end.

(** [sep.join(l)] *)
Definition join (sep : string) (l : list string) : string := String.concat sep l.

Fixpoint spaces (n : nat) : string :=
  match n with
  | O => EmptyString
  | S k => String " " (spaces k)
  end.

(** [s.ljust(width)]: the string first, then the padding. *)
Definition ljust (s : string) (width : nat) : string :=
  s ++ spaces (width - String.length s).

(** [s.rjust(width)]: the padding first, then the string. *)
Definition rjust (s : string) (width : nat) : string :=
  spaces (width - String.length s) ++ s.

(** [max(l)] over numbers; [None] stands for the [ValueError] raised on an
    empty sequence. *)
Definition max (l : list nat) : option nat :=
  match l with
  | [] => None
  | x :: r => Some (fold_left Nat.max r x)
  end.

(** [x in l] for a list of strings *)
Definition mem (x : string) (l : list string) : bool :=
  existsb (String.eqb x) l.

(** Insertion into a sorted list, and [l.sort()] on strings: ascending in
    the lexicographic order of the characters. *)
Fixpoint insert (x : string) (l : list string) : list string :=
  match l with
  | [] => [x]
  | y :: r => if String.leb x y then x :: l else y :: insert x r
  end.

Fixpoint sort (l : list string) : list string :=
  match l with
  | [] => []
  | x :: r => insert x (sort r)
  end.

(** [str(n)] for an integer *)
Definition str_int (n : Z) : string := NilZero.string_of_int (Z.to_int n).

(** [str(b)] for a boolean *)
Definition str_bool (b : bool) : string := if b then "True" else "False".

(** Dictionaries in insertion order. *)
Section Dict.
Context {V : Type}.

(** [d.get(k)] *)
Fixpoint get (d : list (string * V)) (k : string) : option V :=
  match d with
  | [] => None
  | (k', v) :: r => if String.eqb k k' then Some v else get r k
  end.

(** [d[k] = v]: an existing key keeps its place, a new key goes last. *)
Fixpoint set (d : list (string * V)) (k : string) (v : V) : list (string * V) :=
  match d with
  | [] => [(k, v)]
  | (k', v') :: r => if String.eqb k k' then (k', v) :: r else (k', v') :: set r k v
  end.

(** [dict(items)] *)
Definition dict (items : list (string * V)) : list (string * V) :=
  fold_left (fun d kv => set d (fst kv) (snd kv)) items [].

(** [iterkeys(d)] *)
Definition keys (d : list (string * V)) : list string := map fst d.
End Dict.

End Py.

(** ** Values, exceptions and effects *)

(** The line feed. *)
Definition nl : string := String "010" "".

(** The built-ins whose results depend on floating point or on the details
    of Python's number and string literals: they are taken as given. *)
Class Builtins := {
  float : Type;
  (** [float(s)] on a string; [None] stands for [ValueError] *)
  float_of_str : string -> option float;
  (** [float(n)] on an integer; [None] stands for [OverflowError] *)
  float_of_int : Z -> option float;
  (** [int(x)] on a float; [None] stands for the error on inf and nan *)
  int_of_float : float -> option Z;
  (** [int(s)] on a string; [None] stands for [ValueError] *)
  int_of_str : string -> option Z;
  (** [str(x)] on a float, which is also its [repr] *)
  str_of_float : float -> string;
  (** [repr(s)] on a string *)
  repr_str : string -> string
}.

(** The exceptions of [configparser], all subclasses of its [Error]. *)
Inductive cp_error :=
| NoSectionError (section : string)
| NoOptionError (option section : string)
| InterpolationError (option section msg : string)
| ParsingError (msg : string).

Inductive exn :=
| RuntimeError (msg : string)
| UnknownConfigItemError (msg : string)
| Exception_ (msg : string)
| AssertionError
| ValueError (msg : string)
| TypeError
| AttributeError (attr : string)
| KeyError (key : string)
| OverflowError
| Error (e : cp_error)
| IOError (msg : string)
| Raised (type msg : string).  (* anything else a collaborator raises *)

Inductive result (A : Type) :=
| Ok (a : A)
| Raise (e : exn).
Arguments Ok {A} a.
Arguments Raise {A} e.

(** What a call leaves behind: the warnings it issued and the text it
    wrote to the open file, in order. *)
Inductive effect :=
| Warned (category message : string)
| Wrote (text : string).

Definition DeprecationWarning : string := "DeprecationWarning".

Fixpoint warnings_of (t : list effect) : list (string * string) :=
  match t with
  | [] => []
  | Warned c m :: r => (c, m) :: warnings_of r
  | Wrote _ :: r => warnings_of r
  end.

Fixpoint written (t : list effect) : string :=
  match t with
  | [] => ""
  | Warned _ _ :: r => written r
  | Wrote s :: r => s ++ written r
  end.

Section Monad.
(** [Ext] is the state of the objects outside this module (component
    types, the multi-parameter function set). *)
Context {Ext : Type}.

Definition M (A : Type) : Type := Ext -> result A * Ext * list effect.

Definition ret {A} (a : A) : M A := fun s => (Ok a, s, []).

Definition raise {A} (e : exn) : M A := fun s => (Raise e, s, []).

Definition bind {A B} (m : M A) (k : A -> M B) : M B :=
  fun s =>
    match m s with
    | (Ok a, s1, t1) =>
        match k a s1 with
        | (r, s2, t2) => (r, s2, (t1 ++ t2)%list)
        end
    | (Raise e, s1, t1) => (Raise e, s1, t1)
    end.

(** [warnings.warn(message, category)] *)
Definition warn (message category : string) : M unit :=
  fun s => (Ok tt, s, [Warned category message]).

(** [f.write(text)] *)
Definition write (text : string) : M unit :=
  fun s => (Ok tt, s, [Wrote text]).

(** a pure computation that may raise *)
Definition lift {A} (r : result A) : M A := fun s => (r, s, []).

(** [assert b] *)
Definition assert_ (b : bool) : M unit :=
  if b then ret tt else raise AssertionError.

(** [try: m except classes: h] *)
Definition try_except {A} (m : M A) (caught : exn -> bool) (h : M A) : M A :=
  fun s =>
    match m s with
    | (Raise e, s1, t1) =>
        if caught e
        then match h s1 with (r, s2, t2) => (r, s2, (t1 ++ t2)%list) end
        else (Raise e, s1, t1)
    | ok => ok
    end.

End Monad.

Declare Scope monad_scope.
Delimit Scope monad_scope with monad.
Notation "x <- m ;; k" := (bind m (fun x => k))
  (at level 61, m at next level, right associativity) : monad_scope.
Notation "m ;; k" := (bind m (fun _ => k))
  (at level 61, right associativity) : monad_scope.
Open Scope monad_scope.

(** [for x in l: body(x)] *)
Fixpoint for_each {Ext A : Type} (l : list A) (body : A -> M (Ext := Ext) unit) : M unit :=
  match l with
  | [] => ret tt
  | x :: r => body x ;; for_each r body
  end.

(** ** neat/config.py *)

Module config.

Section Config.
Context {B : Builtins} {Ext : Type}.

(** The type objects a parameter is declared with: [str], [int], [bool],
    [float], [list], or any other type object (given by its [repr]), of
    which no configuration value is an instance. *)
Inductive pytype :=
| str_
| int_
| bool_
| float_
| list_
| other_type (repr : string).

Definition pytype_eqb (a b : pytype) : bool :=
  match a, b with
  | str_, str_ | int_, int_ | bool_, bool_ | float_, float_ | list_, list_ => true
  | other_type x, other_type y => String.eqb x y
  | _, _ => false
  end.

(** The values a parameter takes:
    [Union[str, List[str], bool, int, float]]. *)
Inductive value :=
| VStr (s : string)
| VInt (n : Z)
| VBool (b : bool)
| VFloat (x : float)
| VList (l : list string).

(** [isinstance(v, t)]; [bool] is a subclass of [int]. *)
Definition isinstance (v : value) (t : pytype) : bool :=
  match v, t with
  | VStr _, str_ => true
  | VInt _, int_ => true
  | VBool _, int_ => true
  | VBool _, bool_ => true
  | VFloat _, float_ => true
  | VList _, list_ => true
  | _, _ => false
  end.

(** [repr(v)] *)
Definition repr (v : value) : string :=
  match v with
  | VStr s => repr_str s
  | VInt n => Py.str_int n
  | VBool b => Py.str_bool b
  | VFloat x => str_of_float x
  | VList l => "[" ++ Py.join ", " (map repr_str l) ++ "]"
  end.

(** [str(v)] *)
Definition str (v : value) : string :=
  match v with
  | VStr s => s
  | _ => repr v
  end.

(** [repr(t)] of a type object, as Python 3 prints it *)
Definition repr_type (t : pytype) : string :=
  match t with
  | str_ => "<class 'str'>"
  | int_ => "<class 'int'>"
  | bool_ => "<class 'bool'>"
  | float_ => "<class 'float'>"
  | list_ => "<class 'list'>"
  | other_type r => r
  end.

(** [int(v)] *)
Definition int (v : value) : result Z :=
  match v with
  | VStr s =>
      match int_of_str s with
      | Some n => Ok n
      | None => Raise (ValueError ("invalid literal for int() with base 10: " ++ repr_str s))
      end
  | VInt n => Ok n
  | VBool b => Ok (if b then 1 else 0)%Z
  | VFloat x =>
      match int_of_float x with
      | Some n => Ok n
      | None => Raise OverflowError
      end
  | VList _ => Raise TypeError
  end.

(** [float(v)] *)
Definition to_float (v : value) : result float :=
  match v with
  | VStr s =>
      match float_of_str s with
      | Some x => Ok x
      | None => Raise (ValueError ("could not convert string to float: " ++ repr_str s))
      end
  | VInt n =>
      match float_of_int n with
      | Some x => Ok x
      | None => Raise OverflowError
      end
  | VBool b =>
      match float_of_int (if b then 1 else 0)%Z with
      | Some x => Ok x
      | None => Raise OverflowError
      end
  | VFloat x => Ok x
  | VList _ => Raise TypeError
  end.

(** [class ConfigParameter]; [default = None] means that the parameter has
    no default. *)
Record ConfigParameter := {
  name : string;
  value_type : pytype;
  default : option value
}.

(** The body of the [try] block of [interpret]: [Ok (Some v)] when a branch
    returns [v], [Ok None] when no branch applies and control leaves the
    block, [Raise e] when a branch raises. *)
Definition interpret_try (p : ConfigParameter) (v : value) : result (option value) :=
  match value_type p with
  | str_ => Ok (Some (VStr (str v)))
  | int_ =>
      match int v with
      | Ok n => Ok (Some (VInt n))
      | Raise e => Raise e
      end
  | bool_ =>
      match v with
      | VStr s =>
          if String.eqb (Py.lower s) "true" then Ok (Some (VBool true))
          else if String.eqb (Py.lower s) "false" then Ok (Some (VBool false))
          else Raise (RuntimeError (name p ++ " must be True or False"))
      | _ => Raise (AttributeError "lower")
      end
  | float_ =>
      match to_float v with
      | Ok x => Ok (Some (VFloat x))
      | Raise e => Raise e
      end
  | list_ =>
      match v with
      | VStr s => Ok (Some (VList (Py.split " " s)))
      | _ => Raise (AttributeError "split")
      end
  | other_type _ => Ok None
  end.

(** The [try] statement with its [except Exception] handler, and the
    [raise] that follows it. *)
Definition interpret_value (p : ConfigParameter) (v : value) : M (Ext := Ext) value :=
  match interpret_try p v with
  | Ok (Some r) => ret r
  | Raise _ =>
      raise (RuntimeError ("Error interpreting config item '" ++ name p
                           ++ "' with value " ++ repr v
                           ++ " and type " ++ repr_type (value_type p)))
  | Ok None =>
      raise (RuntimeError ("Unexpected configuration type: " ++ repr_type (value_type p)))
  end.

(** [ConfigParameter.interpret] *)
Definition interpret (p : ConfigParameter) (config_dict : list (string * string)) : M (Ext := Ext) value :=
  match Py.get config_dict (name p) with
  | None =>
      match default p with
      | None => raise (RuntimeError ("Missing configuration item: " ++ name p))
      | Some d =>
          warn ("Using default " ++ repr d ++ " for '" ++ name p ++ "'") DeprecationWarning ;;
          if negb (pytype_eqb str_ (value_type p)) && isinstance d (value_type p)
          then ret d
          else interpret_value p d
      end
  | Some raw => interpret_value p (VStr raw)
  end.

(** [cast(Iterable, value)] of [neat/mypy_util.py], [Iterable] being [list]
    here: the value itself, after [assert isinstance(value, list)]. *)
Definition cast_list (v : value) : result value :=
  if isinstance v list_ then Ok v else Raise AssertionError.

(** [ConfigParameter.format] *)
Definition format (p : ConfigParameter) (v : value) : result string :=
  if pytype_eqb list_ (value_type p)
  then match cast_list v with
       | Ok (VList l) => Ok (Py.join " " l)
       | Ok _ => Raise TypeError
       | Raise e => Raise e
       end
  else Ok (str v).

(** [getattr(config, name)] on the attributes of a configuration object *)
Definition getattr (config : list (string * value)) (attr : string) : result value :=
  match Py.get config attr with
  | Some v => Ok v
  | None => Raise (AttributeError attr)
  end.

(** [params_dict[name]] *)
Definition getitem {V} (d : list (string * V)) (key : string) : result V :=
  match Py.get d key with
  | Some v => Ok v
  | None => Raise (KeyError key)
  end.

(** [write_pretty_params(f, config, params)]; [config] is given by its
    attributes, and the writes to [f] are the [Wrote] effects. *)
Definition write_pretty_params (config : list (string * value)) (params : list ConfigParameter)
  : M (Ext := Ext) unit :=
  let param_names := map name params in
  match Py.max (map String.length param_names) with
  | None => raise (ValueError "max() arg is an empty sequence")
  | Some longest_name =>
      let param_names := Py.sort param_names in
      let params_dict := Py.dict (map (fun p => (name p, p)) params) in
      for_each param_names (fun nm =>
        p <- lift (getitem params_dict nm) ;;
        v <- lift (getattr config (name p)) ;;
        s <- lift (format p v) ;;
        write (Py.ljust (name p) longest_name ++ " = " ++ s ++ nl))
  end.

(** The check for unknown items shared, up to the wording, by
    [DefaultClassConfig.__init__] and [Config.__init__]; [what] is the text
    between "Unknown" and "configuration". *)
Definition unknown_items (param_dict : list (string * string)) (param_list_names : list string)
  : list string :=
  filter (fun x => negb (Py.mem x param_list_names)) (Py.keys param_dict).

Definition check_unknown (what : string) (unknown_list : list string) : M (Ext := Ext) unit :=
  match unknown_list with
  | [] => ret tt
  | x :: r =>
      if (1 <? List.length unknown_list)%nat
      then raise (UnknownConfigItemError
                    ("Unknown " ++ what ++ "configuration items:" ++ nl
                     ++ Py.join (nl ++ String "009" "") unknown_list))
      else raise (UnknownConfigItemError ("Unknown " ++ what ++ "configuration item " ++ x))
  end.

(** What the attribute [_params] of a [DefaultClassConfig] holds: the
    schema that [__init__] stores in it first or, once the loop has called
    [setattr] for a descriptor that is itself named [_params], the value of
    that descriptor. *)
Inductive params_attribute :=
| Schema (param_list : list ConfigParameter)
| Overwritten (v : value).

#[warning="-uniform-inheritance"]
Coercion Schema : list >-> params_attribute.

(** [class DefaultClassConfig]: its attribute [_params], and the
    attributes that [setattr] has set on it (among them [_params], when a
    descriptor has that name). *)
Record DefaultClassConfig := {
  _params : params_attribute;
  attributes : list (string * value)
}.

(** [setattr(self, attr, v)] on an instance of a plain class, [v] being a
    configuration value: [object] keeps [__class__], [__dict__] and
    [__weakref__] for itself and refuses such a value for them; under any
    other name the value is stored, in place of the one that was there. *)
Definition setattr (attrs : list (string * value)) (attr : string) (v : value)
  : result (list (string * value)) :=
  if String.eqb attr "__class__" || String.eqb attr "__dict__" then Raise TypeError
  else if String.eqb attr "__weakref__" then Raise (AttributeError attr)
  else Ok (Py.set attrs attr v).

(** The loop of [DefaultClassConfig.__init__]: the attributes set and the
    names collected so far are threaded through. *)
Fixpoint interpret_all (param_dict : list (string * string)) (param_list : list ConfigParameter)
  (attrs : list (string * value)) (param_list_names : list string)
  : M (Ext := Ext) (list (string * value) * list string) :=
  match param_list with
  | [] => ret (attrs, param_list_names)
  | p :: r =>
      v <- interpret p param_dict ;;
      attrs <- lift (setattr attrs (name p) v) ;;
      interpret_all param_dict r attrs (param_list_names ++ [name p])%list
  end.

(** [self._params] once the loop is over: what the loop has set under
    that name, and the schema when it has set nothing there. *)
Definition params_after (param_list : list ConfigParameter) (attrs : list (string * value))
  : params_attribute :=
  match Py.get attrs "_params" with
  | Some v => Overwritten v
  | None => Schema param_list
  end.

(** [DefaultClassConfig.__init__] *)
Definition DefaultClassConfig_init (param_dict : list (string * string))
  (param_list : list ConfigParameter) : M (Ext := Ext) DefaultClassConfig :=
  r <- interpret_all param_dict param_list [] [] ;;
  check_unknown "" (unknown_items param_dict (snd r)) ;;
  ret {| _params := params_after param_list (fst r); attributes := fst r |}.

(** [write_pretty_params(f, config, params)] when [params] is a
    configuration value and no schema: the comprehension over [params]
    fails on a value that cannot be iterated, and on the first element of
    one that can (a character or a string has no attribute [name]); over
    an empty string or list it gives no name, and [max] fails. *)
Definition write_pretty_params_of_value (params : value) : M (Ext := Ext) unit :=
  match params with
  | VStr EmptyString | VList [] => raise (ValueError "max() arg is an empty sequence")
  | VStr _ | VList _ => raise (AttributeError "name")
  | VInt _ | VBool _ | VFloat _ => raise TypeError
  end.

(** [DefaultClassConfig.write_config] *)
Definition DefaultClassConfig_write_config (config : DefaultClassConfig) : M (Ext := Ext) unit :=
  match _params config with
  | Schema param_list => write_pretty_params (attributes config) param_list
  | Overwritten v => write_pretty_params_of_value v
  end.

(** *** The reader: [configparser.ConfigParser]

    The state of a [ConfigParser()] after [read_file]: the [DEFAULT]
    section, the other sections in file order (option names as
    [optionxform] stores them), and the interpolation of a raw value
    ([BasicInterpolation.before_get]), which rejects some values. *)
Record ConfigParser := {
  _defaults : list (string * string);
  _sections : list (string * list (string * string));
  before_get : string -> string -> string -> result string
}.

Definition default_section : string := "DEFAULT".

(** [parser.has_section(section)] *)
Definition has_section (parser : ConfigParser) (section : string) : bool :=
  match Py.get (_sections parser) section with
  | Some _ => true
  | None => false
  end.

(** The options of a section, or [NoSectionError]. *)
Definition section_dict (parser : ConfigParser) (section : string)
  : result (list (string * string)) :=
  match Py.get (_sections parser) section with
  | Some d => Ok d
  | None =>
      if String.eqb section default_section then Ok []
      else Raise (Error (NoSectionError section))
  end.

(** [parser.get(section, option)]: the section's own options come before
    the defaults. *)
Definition get (parser : ConfigParser) (section option : string) : result string :=
  match section_dict parser section with
  | Raise e => Raise e
  | Ok d =>
      let option := Py.lower option in
      match Py.get d option with
      | Some raw => before_get parser section option raw
      | None =>
          match Py.get (_defaults parser) option with
          | Some raw => before_get parser section option raw
          | None => Raise (Error (NoOptionError option section))
          end
      end
  end.

(** [parser.getint(section, option)] *)
Definition getint (parser : ConfigParser) (section option : string) : result Z :=
  match get parser section option with
  | Ok s => int (VStr s)
  | Raise e => Raise e
  end.

(** [parser.getfloat(section, option)] *)
Definition getfloat (parser : ConfigParser) (section option : string) : result float :=
  match get parser section option with
  | Ok s => to_float (VStr s)
  | Raise e => Raise e
  end.

(** [parser.getboolean(section, option)], with [BOOLEAN_STATES] *)
Definition getboolean (parser : ConfigParser) (section option : string) : result bool :=
  match get parser section option with
  | Ok s =>
      let l := Py.lower s in
      if Py.mem l ["1"; "yes"; "true"; "on"] then Ok true
      else if Py.mem l ["0"; "no"; "false"; "off"] then Ok false
      else Raise (ValueError ("Not a boolean: " ++ s))
  | Raise e => Raise e
  end.

(** Interpolation of every value of a list of options, in order. *)
Fixpoint interpolate_all (parser : ConfigParser) (section : string)
  (d : list (string * string)) : result (list (string * string)) :=
  match d with
  | [] => Ok []
  | (option, raw) :: r =>
      match before_get parser section option raw with
      | Raise e => Raise e
      | Ok v =>
          match interpolate_all parser section r with
          | Raise e => Raise e
          | Ok vs => Ok ((option, v) :: vs)
          end
      end
  end.

(** [parser.items(section)]: the defaults updated with the section's own
    options, every value interpolated. *)
Definition items (parser : ConfigParser) (section : string)
  : result (list (string * string)) :=
  match section_dict parser section with
  | Raise e => Raise e
  | Ok d =>
      interpolate_all parser section
        (fold_left (fun acc kv => Py.set acc (fst kv) (snd kv)) d (_defaults parser))
  end.

(** [ConfigParameter.parse] *)
Definition parse (p : ConfigParameter) (section : string) (config_parser : ConfigParser)
  : result value :=
  match value_type p with
  | int_ =>
      match getint config_parser section (name p) with
      | Ok n => Ok (VInt n)
      | Raise e => Raise e
      end
  | bool_ =>
      match getboolean config_parser section (name p) with
      | Ok b => Ok (VBool b)
      | Raise e => Raise e
      end
  | float_ =>
      match getfloat config_parser section (name p) with
      | Ok x => Ok (VFloat x)
      | Raise e => Raise e
      end
  | list_ =>
      match get config_parser section (name p) with
      | Ok v => Ok (VList (Py.split " " v))
      | Raise e => Raise e
      end
  | str_ =>
      match get config_parser section (name p) with
      | Ok v => Ok (VStr v)
      | Raise e => Raise e
      end
  | other_type _ =>
      Raise (RuntimeError ("Unexpected configuration type: " ++ repr_type (value_type p)))
  end.

(** *** The root configuration: [class Config] *)

(** The configuration objects of the component types are opaque here. *)
Context {component : Type}.

(** What [Config] uses of a component type: its [__name__], and the
    attributes [parse_config] and [write_config], each of which the type
    may lack ([None]). *)
Record component_type := {
  __name__ : string;
  parse_config : option (list (string * string) -> M (Ext := Ext) component);
  write_config : option (component -> M (Ext := Ext) unit)
}.

(** [hasattr(t, 'parse_config')] *)
Definition hasattr_parse_config (t : component_type) : bool :=
  match parse_config t with Some _ => true | None => false end.

(** [t.parse_config(d)] *)
Definition call_parse_config (t : component_type) (d : list (string * string))
  : M (Ext := Ext) component :=
  match parse_config t with
  | Some f => f d
  | None => raise (AttributeError "parse_config")
  end.

(** [t.write_config(f, c)] *)
Definition call_write_config (t : component_type) (c : component) : M (Ext := Ext) unit :=
  match write_config t with
  | Some w => w c
  | None => raise (AttributeError "write_config")
  end.

(** What [Config.__init__] sees of the files: [os.path.isfile],
    [os.path.abspath], and the parser state that [open] and [read_file]
    give for a path (or the exception they raise). *)
Record FileSystem := {
  isfile : string -> bool;
  abspath : string -> string;
  read_file : string -> result ConfigParser
}.

(** [Config.__params] *)
Definition Config_params : list ConfigParameter :=
  [ {| name := "pop_size"; value_type := int_; default := None |};
    {| name := "fitness_criterion"; value_type := str_; default := None |};
    {| name := "fitness_threshold"; value_type := float_; default := None |};
    {| name := "reset_on_extinction"; value_type := bool_; default := None |};
    {| name := "no_fitness_termination"; value_type := bool_; default := Some (VBool false) |} ].

Record Config := {
  genome_type : component_type;
  reproduction_type : component_type;
  species_set_type : component_type;
  stagnation_type : component_type;
  (** the attributes set from [Config.__params] *)
  params : list (string * value);
  genome_config : component;
  species_set_config : component;
  stagnation_config : component;
  reproduction_config : component
}.

(** [except (Error, RuntimeError)] *)
Definition Error_or_RuntimeError (e : exn) : bool :=
  match e with
  | Error _ | RuntimeError _ => true
  | _ => false
  end.

(** The body of the loop over [Config.__params]: the value the attribute
    [p.name] ends up with.  ([parse] returns no [None], so the test
    [getattr(self, p.name) is None] never holds.) *)
Definition load_param (p : ConfigParameter) (parameters : ConfigParser) : M (Ext := Ext) value :=
  match default p with
  | None => lift (parse p "NEAT" parameters)
  | Some d =>
      try_except (lift (parse p "NEAT" parameters)) Error_or_RuntimeError
        (warn ("Using default " ++ repr d ++ " for '" ++ name p ++ "'") DeprecationWarning ;;
         ret d)
  end.

(** The loop over [Config.__params]. *)
Fixpoint load_params (parameters : ConfigParser) (param_list : list ConfigParameter)
  (attrs : list (string * value)) (param_list_names : list string)
  : M (Ext := Ext) (list (string * value) * list string) :=
  match param_list with
  | [] => ret (attrs, param_list_names)
  | p :: r =>
      v <- load_param p parameters ;;
      load_params parameters r (Py.set attrs (name p) v) (param_list_names ++ [name p])%list
  end.

(** The section of a component type, handed to its [parse_config]. *)
Definition parse_section (parameters : ConfigParser) (t : component_type)
  : M (Ext := Ext) component :=
  d <- lift (items parameters (__name__ t)) ;;
  call_parse_config t (Py.dict d).

(** [Config.__init__] *)
Definition Config_init (fs : FileSystem)
  (genome_type reproduction_type species_set_type stagnation_type : component_type)
  (filename : string) : M (Ext := Ext) Config :=
  assert_ (hasattr_parse_config genome_type) ;;
  assert_ (hasattr_parse_config reproduction_type) ;;
  assert_ (hasattr_parse_config species_set_type) ;;
  assert_ (hasattr_parse_config stagnation_type) ;;
  if negb (isfile fs filename)
  then raise (Exception_ ("No such config file: " ++ abspath fs filename))
  else
    parameters <- lift (read_file fs filename) ;;
    if negb (has_section parameters "NEAT")
    then raise (RuntimeError "'NEAT' section not found in NEAT configuration file.")
    else
      r <- load_params parameters Config_params [] [] ;;
      neat_items <- lift (items parameters "NEAT") ;;
      check_unknown "(section 'NEAT') " (unknown_items (Py.dict neat_items) (snd r)) ;;
      genome_config <- parse_section parameters genome_type ;;
      species_set_config <- parse_section parameters species_set_type ;;
      stagnation_config <- parse_section parameters stagnation_type ;;
      reproduction_config <- parse_section parameters reproduction_type ;;
      ret {| genome_type := genome_type;
             reproduction_type := reproduction_type;
             species_set_type := species_set_type;
             stagnation_type := stagnation_type;
             params := fst r;
             genome_config := genome_config;
             species_set_config := species_set_config;
             stagnation_config := stagnation_config;
             reproduction_config := reproduction_config |}.

(** The header of a component section. *)
Definition section_header (t : component_type) : string :=
  nl ++ "[" ++ __name__ t ++ "]" ++ nl.

(** [Config.save]: the [Wrote] effects are the writes to the file opened
    at [filename]. *)
Definition save (self : Config) : M (Ext := Ext) unit :=
  write ("# The `NEAT` section specifies parameters particular to the NEAT algorithm" ++ nl) ;;
  write ("# or the experiment itself.  This is the only required section." ++ nl) ;;
  write ("[NEAT]" ++ nl) ;;
  write_pretty_params (params self) Config_params ;;
  write (section_header (genome_type self)) ;;
  call_write_config (genome_type self) (genome_config self) ;;
  write (section_header (species_set_type self)) ;;
  call_write_config (species_set_type self) (species_set_config self) ;;
  write (section_header (stagnation_type self)) ;;
  call_write_config (stagnation_type self) (stagnation_config self) ;;
  write (section_header (reproduction_type self)) ;;
  call_write_config (reproduction_type self) (reproduction_config self).

End Config.
End config.

(** ** neat/aggregations.py *)

Module aggregations.

(** [sum_aggregation], [max_aggregation], [min_aggregation] and
    [maxabs_aggregation] on integers; [max] and [min] raise [ValueError]
    on an empty sequence.  ([product_aggregation] multiplies floats and is
    left out.) *)
Definition sum_aggregation (x : list Z) : Z := fold_left Z.add x 0%Z.

Definition max_aggregation (x : list Z) : result Z :=
  match x with
  | [] => Raise (ValueError "max() arg is an empty sequence")
  | a :: r => Ok (fold_left Z.max r a)
  end.

Definition min_aggregation (x : list Z) : result Z :=
  match x with
  | [] => Raise (ValueError "min() arg is an empty sequence")
  | a :: r => Ok (fold_left Z.min r a)
  end.

Definition maxabs_aggregation (x : list Z) : result Z :=
  match x with
  | [] => Raise (ValueError "max() arg is an empty sequence")
  | a :: r => Ok (fold_left (fun m y => if (Z.abs m <? Z.abs y)%Z then y else m) r a)
  end.

Section Aggregations.
Context {B : Builtins} {Ext : Type}.
(** The function objects and the keyword arguments stored with them. *)
Context {function kwargs : Type}.

(** What [AggregationFunctionSet] uses of the multi-parameter function set
    it is given; that class is not part of these files. *)
Record MultiParameterSet := {
  add_func : string -> function -> string -> kwargs -> M (Ext := Ext) unit;
  get_func : string -> string -> M (Ext := Ext) function;
  is_valid_func : string -> string -> M (Ext := Ext) bool
}.

Record AggregationFunctionSet := {
  multiparameterset : MultiParameterSet
}.

(** [AggregationFunctionSet.add] *)
Definition add (self : AggregationFunctionSet) (name : string) (f : function) (kw : kwargs)
  : M (Ext := Ext) unit :=
  add_func (multiparameterset self) name f "aggregation" kw.

(** [AggregationFunctionSet.get] *)
Definition get (self : AggregationFunctionSet) (name : string) : M (Ext := Ext) function :=
  get_func (multiparameterset self) name "aggregation".

(** [AggregationFunctionSet.__getitem__] *)
Definition __getitem__ (self : AggregationFunctionSet) (index : string) : M (Ext := Ext) function :=
  warn ("Use get, not indexing ([" ++ repr_str index ++ "]), for aggregation functions")
       DeprecationWarning ;;
  get self index.

(** [AggregationFunctionSet.is_valid] *)
Definition is_valid (self : AggregationFunctionSet) (name : string) : M (Ext := Ext) bool :=
  is_valid_func (multiparameterset self) name "aggregation".

(** [AggregationFunctionSet.__init__]; the five built-in functions and the
    empty keyword arguments are given. *)
Definition AggregationFunctionSet_init (mps : MultiParameterSet)
  (product_f sum_f max_f min_f maxabs_f : function) (no_kwargs : kwargs)
  : M (Ext := Ext) AggregationFunctionSet :=
  let self := {| multiparameterset := mps |} in
  add self "product" product_f no_kwargs ;;
  add self "sum" sum_f no_kwargs ;;
  add self "max" max_f no_kwargs ;;
  add self "min" min_f no_kwargs ;;
  add self "maxabs" maxabs_f no_kwargs ;;
  ret self.

End Aggregations.
End aggregations.

(** ** Sample inputs

    Concrete built-ins, component types and files on which the definitions
    above are run. *)

Module sample.
Import config.

(** Built-ins that agree with Python on plain decimal literals: an integer
    literal is an optional minus sign and digits, a float is an integral
    value printed with a trailing [.0], and [repr] of a string without
    quotes or escapes puts it between single quotes. *)
Definition builtins : Builtins := {|
  float := Z;
  float_of_str := fun s => option_map Z.of_int (NilZero.int_of_string s);
  float_of_int := fun n => Some n;
  int_of_float := fun x => Some x;
  int_of_str := fun s => option_map Z.of_int (NilZero.int_of_string s);
  str_of_float := fun x => Py.str_int x ++ ".0";
  repr_str := fun s => "'" ++ s ++ "'"
|}.

(** A component type whose configuration object is the label it was parsed
    under, and which writes one line. *)
Definition simple_type (label : string) : component_type (Ext := unit) (component := string) := {|
  __name__ := label;
  parse_config := Some (fun _ => ret label);
  write_config := Some (fun c => write ("made_by = " ++ c ++ nl))
|}.

(** The same type without [write_config]. *)
Definition read_only_type (label : string) : component_type (Ext := unit) (component := string) := {|
  __name__ := label;
  parse_config := Some (fun _ => ret label);
  write_config := None
|}.

(** The same type without [parse_config]. *)
Definition write_only_type (label : string) : component_type (Ext := unit) (component := string) := {|
  __name__ := label;
  parse_config := None;
  write_config := Some (fun c => write ("made_by = " ++ c ++ nl))
|}.

Definition neat_section : list (string * string) :=
  [("pop_size", "150"); ("fitness_criterion", "max");
   ("fitness_threshold", "3"); ("reset_on_extinction", "False")].

(** The sample [NEAT] section with [no_fitness_termination = maybe]. *)
Definition neat_section_maybe : list (string * string) :=
  ("no_fitness_termination", "maybe") :: neat_section.

(** The parser state for a file with a [NEAT] section and the sections
    [Genome], [Reproduction], [SpeciesSet] and [Stagnation]; no value
    needs interpolation. *)
Definition parser_of (neat : list (string * string)) : ConfigParser := {|
  _defaults := [];
  _sections := [("NEAT", neat); ("Genome", []); ("Reproduction", []);
                ("SpeciesSet", []); ("Stagnation", [])];
  before_get := fun _ _ raw => Ok raw
|}.

(** The parser state for a file whose [NEAT] section also holds
    [no_fitness_termination = %]; interpolation rejects a value with a
    percent sign. *)
Definition parser_with_percent : ConfigParser := {|
  _defaults := [];
  _sections := [("NEAT", ("no_fitness_termination", "%") :: neat_section);
                ("Genome", []); ("Reproduction", []);
                ("SpeciesSet", []); ("Stagnation", [])];
  before_get := fun section option raw =>
    if Py.contains "%" raw
    then Raise (Error (InterpolationError option section "'%' must be followed by '%' or '(', found: '%'"))
    else Ok raw
|}.

(** A file system with one file, [config], holding the given parser
    state. *)
Definition files_of (parser : ConfigParser) : FileSystem := {|
  isfile := fun path => String.eqb path "config";
  abspath := fun path => "/" ++ path;
  read_file := fun _ => Ok parser
|}.

(** An empty file system, where every path is missing. *)
Definition no_files : FileSystem := {|
  isfile := fun _ => false;
  abspath := fun path => "/" ++ path;
  read_file := fun _ => Raise (IOError "No such file or directory")
|}.

(** [Config(Genome, Reproduction, SpeciesSet, Stagnation, 'config')] *)
Definition load (neat : list (string * string)) : M (Ext := unit) Config :=
  Config_init (B := builtins) (files_of (parser_of neat))
    (simple_type "Genome") (simple_type "Reproduction")
    (simple_type "SpeciesSet") (simple_type "Stagnation") "config".

(** The configuration that [load neat_section] returns. *)
Definition loaded : Config (B := builtins) (Ext := unit) (component := string) := {|
  genome_type := simple_type "Genome";
  reproduction_type := simple_type "Reproduction";
  species_set_type := simple_type "SpeciesSet";
  stagnation_type := simple_type "Stagnation";
  params := [("pop_size", VInt 150); ("fitness_criterion", VStr "max");
             ("fitness_threshold", VFloat (3%Z : float (Builtins := builtins)));
             ("reset_on_extinction", VBool false);
             ("no_fitness_termination", VBool false)];
  genome_config := "Genome";
  species_set_config := "SpeciesSet";
  stagnation_config := "Stagnation";
  reproduction_config := "Reproduction"
|}.

(** The parameter [reset_on_extinction] with a kind and a default. *)
Definition flag (t : pytype) (d : option (value (B := builtins))) : ConfigParameter (B := builtins) :=
  {| name := "reset_on_extinction"; value_type := t; default := d |}.

(** Two integer parameters with names of different lengths, a
    configuration object that holds them, and their formatted values. *)
Definition two_params : list (ConfigParameter (B := builtins)) :=
  [ {| name := "bb"; value_type := int_; default := None |};
    {| name := "a"; value_type := int_; default := None |} ].

Definition two_values : list (string * value (B := builtins)) :=
  [("a", VInt 1); ("bb", VInt 2)].

Definition two_texts (nm : string) : string :=
  if String.eqb nm "a" then "1" else "2".


(** The parameter [no_fitness_termination] of [Config]. *)
Definition no_fitness_termination : ConfigParameter (B := builtins) :=
  {| name := "no_fitness_termination"; value_type := bool_; default := Some (VBool false) |}.

(** [Config(Genome, Reproduction, SpeciesSet, Stagnation, 'config')] where
    the genome type has no [write_config], and the configuration it
    returns. *)
Definition load_read_only : M (Ext := unit) Config :=
  Config_init (B := builtins) (files_of (parser_of neat_section))
    (read_only_type "Genome") (simple_type "Reproduction")
    (simple_type "SpeciesSet") (simple_type "Stagnation") "config".

Definition loaded_read_only : Config (B := builtins) (Ext := unit) (component := string) := {|
  genome_type := read_only_type "Genome";
  reproduction_type := simple_type "Reproduction";
  species_set_type := simple_type "SpeciesSet";
  stagnation_type := simple_type "Stagnation";
  params := params loaded;
  genome_config := "Genome";
  species_set_config := "SpeciesSet";
  stagnation_config := "Stagnation";
  reproduction_config := "Reproduction"
|}.

(** A multi-parameter function set holding [sum] under [aggregation]. *)
Definition one_function_set : aggregations.MultiParameterSet (Ext := unit) (function := string) (kwargs := unit) := {|
  aggregations.add_func := fun _ _ _ _ => raise (Raised "Exception" "read-only");
  aggregations.get_func := fun name category =>
    if String.eqb name "sum" && String.eqb category "aggregation" then ret "sum_aggregation"
    else raise (Raised "InvalidAggregationFunction" name);
  aggregations.is_valid_func := fun name category =>
    ret (String.eqb name "sum" && String.eqb category "aggregation")
|}.

End sample.

(** ** Notions used to state the properties *)

Module layout.
Import config.

Section Layout.
Context {B : Builtins} {Ext : Type} {component : Type}.

(** The component types of a configuration in the order in which
    [Config.__init__] takes them as arguments. *)
Definition constructor_order (self : Config (Ext := Ext) (component := component))
  : list component_type :=
  [genome_type self; reproduction_type self; species_set_type self; stagnation_type self].

(** The component types in the order genome, species set, stagnation,
    reproduction. *)
Definition section_order (self : Config (Ext := Ext) (component := component))
  : list component_type :=
  [genome_type self; species_set_type self; stagnation_type self; reproduction_type self].

(** A name padded on its left, as [rjust] pads it, and on its right, as
    [ljust] pads it, followed by the rest of a line of parameters. *)
Definition left_padded_line (width : nat) (name text : string) : string :=
  Py.rjust name width ++ " = " ++ text ++ nl.

Definition right_padded_line (width : nat) (name text : string) : string :=
  Py.ljust name width ++ " = " ++ text ++ nl.

(** A descriptor whose default, if it has one, is a value of its kind. *)
Definition well_kinded (p : ConfigParameter) : bool :=
  match default p with
  | Some d => isinstance d (value_type p)
  | None => true
  end.

(** A component type as loading sees it: [write_config] plays no part. *)
Definition without_write_config (t : component_type (Ext := Ext) (component := component))
  : component_type :=
  {| __name__ := __name__ t; parse_config := parse_config t; write_config := None |}.

(** What loading puts into a configuration. *)
Definition loaded_values (self : Config (Ext := Ext) (component := component)) :=
  (params self, genome_config self, species_set_config self,
   stagnation_config self, reproduction_config self).

Definition outcome {A V : Type} (f : A -> V) (r : result A * Ext * list effect)
  : result V * Ext * list effect :=
  match r with
  | (Ok a, s, t) => (Ok (f a), s, t)
  | (Raise e, s, t) => (Raise e, s, t)
  end.

(** The text that follows [=] on the line of a parameter. *)
Definition formatted (config : list (string * value)) (p : ConfigParameter) : result string :=
  match getattr config (name p) with
  | Ok v => format p v
  | Raise e => Raise e
  end.

(** The lines of the [NEAT] section for the five global parameters. *)
Definition neat_lines (pop_size fitness_criterion fitness_threshold
                       reset_on_extinction no_fitness_termination : value) : list effect :=
  [Wrote ("fitness_criterion      = " ++ str fitness_criterion ++ nl);
   Wrote ("fitness_threshold      = " ++ str fitness_threshold ++ nl);
   Wrote ("no_fitness_termination = " ++ str no_fitness_termination ++ nl);
   Wrote ("pop_size               = " ++ str pop_size ++ nl);
   Wrote ("reset_on_extinction    = " ++ str reset_on_extinction ++ nl)].

End Layout.

(** The sections of a parser are dictionaries: no option occurs twice in
    a section. *)
Definition sections_are_dicts (parser : ConfigParser) : Prop :=
  Forall (fun sec => NoDup (Py.keys (snd sec))) (_sections parser).

(** What the file holds for an option of a section: the text written for
    it in the section itself or, failing that, in [DEFAULT], as it stands
    before interpolation; [None] when the option is written in neither,
    or when the file has no such section. *)
Definition raw_option (parser : ConfigParser) (section key : string) : option string :=
  match Py.get (_sections parser) section with
  | Some d =>
      match Py.get d key with
      | Some raw => Some raw
      | None => Py.get (_defaults parser) key
      end
  | None => None
  end.

Section Literals.
Context {B : Builtins}.

(** A text that is no literal of the kind: no integer or floating-point
    literal for [int] and [float], none of the eight words that the reader
    takes for a boolean, whatever their case.  Every text is a string and
    a list. *)
Definition malformed (t : pytype) (text : string) : bool :=
  match t with
  | int_ => match int_of_str text with Some _ => false | None => true end
  | float_ => match float_of_str text with Some _ => false | None => true end
  | bool_ =>
      negb (Py.mem (Py.lower text) ["1"; "yes"; "true"; "on"; "0"; "no"; "false"; "off"])
  | _ => false
  end.

End Literals.

(** [k] occurs in [msg]. *)
Definition occurs_in (k msg : string) : Prop :=
  exists before after, msg = before ++ k ++ after.

(** The tabulation character. *)
Definition tab : string := String "009" "".

(** The order in which [sort] puts names. *)
Definition name_le (a b : string) : Prop := String.leb a b = true.

(** The section headers among the texts written. *)
Fixpoint headers_written (t : list effect) : list string :=
  match t with
  | [] => []
  | Wrote text :: r =>
      if String.prefix (nl ++ "[") text then text :: headers_written r else headers_written r
  | Warned _ _ :: r => headers_written r
  end.

End layout.

(** ** neat/mypy_util.py *)

Module mypy_util.
Import config.

Section Cast.
Context {B : Builtins}.

(** [cast(desired_type, var)] as it is defined when [MYPY] is false:
    [var] itself, after [assert isinstance(var, desired_type)] unless
    [desired_type] is [None].  ([isinstance] raises no [TypeError] on the
    type objects modelled here.) *)
Definition cast (desired_type : option pytype) (var : value) : result value :=
  match desired_type with
  | None => Ok var
  | Some t => if isinstance var t then Ok var else Raise AssertionError
  end.

End Cast.
End mypy_util.

(** ** More sample inputs *)

Module more_samples.
Import config.
Import sample.

(** A function set kept as a list of (name, category, function) in the
    state: [add_func] refuses a name already present in the category,
    [get_func] raises on a name that is absent. *)
Fixpoint find_func (store : list (string * string * string)) (name category : string)
  : option string :=
  match store with
  | [] => None
  | (n, c, f) :: r =>
      if String.eqb n name && String.eqb c category then Some f else find_func r name category
  end.

Definition list_function_set
  : aggregations.MultiParameterSet (Ext := list (string * string * string))
      (function := string) (kwargs := unit) := {|
  aggregations.add_func := fun name f category _ store =>
    match find_func store name category with
    | Some _ => (Raise (Raised "Exception" name), store, [])
    | None => (Ok tt, (name, category, f) :: store, [])
    end;
  aggregations.get_func := fun name category store =>
    match find_func store name category with
    | Some f => (Ok f, store, [])
    | None => (Raise (Raised "InvalidAggregationFunction" name), store, [])
    end;
  aggregations.is_valid_func := fun name category store =>
    match find_func store name category with
    | Some _ => (Ok true, store, [])
    | None => (Ok false, store, [])
    end
|}.

(** The state of that function set once the five built-in functions are
    added to the empty one. *)
Definition builtin_store : list (string * string * string) :=
  [("maxabs", "aggregation", "maxabs_aggregation");
   ("min", "aggregation", "min_aggregation");
   ("max", "aggregation", "max_aggregation");
   ("sum", "aggregation", "sum_aggregation");
   ("product", "aggregation", "product_aggregation")].

(** A schema of three parameters, one of each of the kinds [int], [bool]
    and [list], the second with a default, and a mapping for it. *)
Definition schema3 : list (ConfigParameter (B := builtins)) :=
  [ {| name := "size"; value_type := int_; default := None |};
    {| name := "elitism"; value_type := bool_; default := Some (VBool true) |};
    {| name := "tags"; value_type := list_; default := None |} ].

Definition mapping3 : list (string * string) :=
  [("tags", "a b"); ("size", "7")].

(** A schema whose only descriptor is named [_params], and a mapping for
    it. *)
Definition schema_params : list (ConfigParameter (B := builtins)) :=
  [ {| name := "_params"; value_type := str_; default := None |} ].

Definition mapping_params : list (string * string) := [("_params", "x")].

(** A schema whose first descriptor is named [__class__], followed by a
    required parameter that the mapping lacks. *)
Definition schema_class : list (ConfigParameter (B := builtins)) :=
  [ {| name := "__class__"; value_type := str_; default := None |};
    {| name := "size"; value_type := int_; default := None |} ].

Definition mapping_class : list (string * string) := [("__class__", "x")].

(** The parameter [fitness_criterion] of [Config]. *)
Definition fitness_criterion : ConfigParameter (B := builtins) :=
  {| name := "fitness_criterion"; value_type := str_; default := None |}.

(** A component type whose [write_config] writes a line and raises. *)
Definition failing_writer_type (label : string)
  : component_type (Ext := unit) (component := string) := {|
  __name__ := label;
  parse_config := Some (fun _ => ret label);
  write_config := Some (fun c => write ("made_by = " ++ c ++ nl) ;; raise (Raised "IOError" "disk full"))
|}.


(** The configuration loaded with a species set type whose writer
    fails. *)
Definition loaded_failing : Config (B := builtins) (Ext := unit) (component := string) := {|
  genome_type := simple_type "Genome";
  reproduction_type := simple_type "Reproduction";
  species_set_type := failing_writer_type "SpeciesSet";
  stagnation_type := simple_type "Stagnation";
  params := params loaded;
  genome_config := "Genome";
  species_set_config := "SpeciesSet";
  stagnation_config := "Stagnation";
  reproduction_config := "Reproduction"
|}.

End more_samples.

(** * Properties *)

Import config.
Import layout.

(** ** The effect monad *)

Section MonadFacts.
Context {Ext : Type}.

Lemma bind_Ok_inv {A C} (m : M (Ext := Ext) A) (k : A -> M C) s c s' t :
  bind m k s = (Ok c, s', t) ->
  exists a s1 t1 t2,
    m s = (Ok a, s1, t1) /\ k a s1 = (Ok c, s', t2) /\ t = (t1 ++ t2)%list.
Proof.
  unfold bind. destruct (m s) as [[[a | e] s1] t1]; [| discriminate].
  destruct (k a s1) as [[r s2] t2] eqn:Hk. intros H. inversion H; subst.
  exists a, s1, t1, t2. auto.
Qed.

Lemma bind_Ok {A C} (m : M (Ext := Ext) A) (k : A -> M C) s a s1 t1 :
  m s = (Ok a, s1, t1) ->
  bind m k s = (let '(r, s2, t2) := k a s1 in (r, s2, (t1 ++ t2)%list)).
Proof. unfold bind. intros ->. destruct (k a s1) as [[r s2] t2]. reflexivity. Qed.

Lemma bind_Raise {A C} (m : M (Ext := Ext) A) (k : A -> M C) s e s1 t1 :
  m s = (Raise e, s1, t1) -> bind m k s = (Raise e, s1, t1).
Proof. unfold bind. intros ->. reflexivity. Qed.

Lemma bind_ret {A C} (a : A) (k : A -> M (Ext := Ext) C) s : bind (ret a) k s = k a s.
Proof. unfold bind, ret. destruct (k a s) as [[r s2] t2]. reflexivity. Qed.

Lemma bind_lift_Ok {A C} (a : A) (k : A -> M (Ext := Ext) C) s :
  bind (lift (Ok a)) k s = k a s.
Proof. apply bind_ret. Qed.

Lemma bind_assert_true {C} (k : unit -> M (Ext := Ext) C) s :
  bind (assert_ true) k s = k tt s.
Proof. apply bind_ret. Qed.


Lemma lift_Ok_inv {A} (r : result A) (s : Ext) a s' t :
  lift r s = (Ok a, s', t) -> r = Ok a /\ s' = s /\ t = [].
Proof. unfold lift. intros H. inversion H. auto. Qed.

Lemma assert_Ok_inv (b : bool) (s : Ext) u s' t :
  assert_ b s = (Ok u, s', t) -> b = true /\ s' = s /\ t = [].
Proof. destruct b; cbn; intros H; inversion H; auto. Qed.

End MonadFacts.

(** ** Strings and sorting *)

Section StringFacts.

Lemma split_no_sep (sep : ascii) (x : string) :
  Py.contains sep x = false -> Py.split sep x = [x].
Proof.
  induction x as [| c r IH]; cbn; [reflexivity |].
  intros H. apply orb_false_iff in H as [Hc Hr].
  rewrite Hc, (IH Hr). reflexivity.
Qed.

Lemma split_app_sep (sep : ascii) (x rest : string) :
  Py.contains sep x = false ->
  Py.split sep (x ++ String sep rest) = x :: Py.split sep rest.
Proof.
  induction x as [| c r IH]; cbn.
  - intros _. rewrite Ascii.eqb_refl. reflexivity.
  - intros H. apply orb_false_iff in H as [Hc Hr].
    rewrite Hc, (IH Hr). reflexivity.
Qed.

(** Splitting a joined list gives the list back, when the list is not
    empty and no token holds the separator. *)
Lemma split_join (sep : ascii) (l : list string) :
  l <> [] ->
  Forall (fun tok => Py.contains sep tok = false) l ->
  Py.split sep (Py.join (String sep "") l) = l.
Proof.
  induction l as [| x r IH]; [congruence |].
  intros _ Hall. inversion Hall as [| ? ? Hx Hr]; subst.
  destruct r as [| y r'].
  - cbn. apply split_no_sep, Hx.
  - change (Py.join (String sep "") (x :: y :: r'))
      with (x ++ String sep (Py.join (String sep "") (y :: r'))).
    rewrite split_app_sep by exact Hx.
    rewrite IH; [reflexivity | discriminate | exact Hr].
Qed.

Lemma split_nonempty (sep : ascii) (s : string) : Py.split sep s <> [].
Proof.
  destruct s as [| c r]; cbn; [discriminate |].
  destruct (Ascii.eqb c sep); [discriminate |].
  destruct (Py.split sep r); discriminate.
Qed.

Lemma string_length_append (a b : string) :
  String.length (a ++ b) = String.length a + String.length b.
Proof. induction a as [| c r IH]; cbn; [reflexivity | rewrite IH; reflexivity]. Qed.

Lemma spaces_length (n : nat) : String.length (Py.spaces n) = n.
Proof. induction n as [| k IH]; cbn; [reflexivity | rewrite IH; reflexivity]. Qed.

Lemma ljust_length (nm : string) (w : nat) :
  String.length nm <= w -> String.length (Py.ljust nm w) = w.
Proof.
  intros H. unfold Py.ljust. rewrite string_length_append, spaces_length. lia.
Qed.

(** The message of a failed conversion is longer than the message that
    asks for True or False. *)
Lemma conversion_error_differs (nm rest : string) :
  "Error interpreting config item '" ++ nm ++ "' with value " ++ rest
  <> nm ++ " must be True or False".
Proof.
  intros H. apply (f_equal String.length) in H.
  change ("Error interpreting config item '" ++ nm ++ "' with value " ++ rest)
    with ("Error interpreting config item '" ++ (nm ++ ("' with value " ++ rest))) in H.
  rewrite (string_length_append "Error interpreting config item '") in H.
  rewrite (string_length_append nm ("' with value " ++ rest)) in H.
  rewrite (string_length_append "' with value " rest) in H.
  rewrite (string_length_append nm " must be True or False") in H.
  cbn in H. lia.
Qed.

End StringFacts.

(** ** Parameter descriptors: [interpret] and [format] *)

Section InterpretFacts.
Context {B : Builtins} {Ext : Type}.

Lemma interpret_present (p : ConfigParameter) config_dict raw (s : Ext) :
  Py.get config_dict (name p) = Some raw ->
  interpret p config_dict s = interpret_value p (VStr raw) s.
Proof. unfold interpret. intros ->. reflexivity. Qed.

(** A default that is not a value of the descriptor's kind is interpreted
    as a raw value would be, after the warning. *)
Lemma interpret_absent_coerced (p : ConfigParameter) config_dict d (s : Ext) :
  Py.get config_dict (name p) = None ->
  default p = Some d ->
  isinstance d (value_type p) = false ->
  interpret p config_dict s =
    (let '(r, s', t) := interpret_value p d s in
     (r, s', Warned DeprecationWarning ("Using default " ++ repr d ++ " for '" ++ name p ++ "'") :: t)).
Proof.
  unfold interpret. intros -> -> Hk. rewrite Hk, andb_false_r.
  unfold bind, warn. destruct (interpret_value p d s) as [[r s'] t]. reflexivity.
Qed.

(** C1: when the descriptor's name is absent from the mapping, [interpret]
    returns the default and issues exactly one warning if there is a
    default (a value of the descriptor's kind), and raises the
    missing-item error, with no warning, if there is none. *)
Theorem interpret_absent (p : ConfigParameter) (config_dict : list (string * string)) (s : Ext) :
  Py.get config_dict (name p) = None ->
  well_kinded p = true ->
  match default p with
  | Some d =>
      interpret p config_dict s =
        (Ok d, s, [Warned DeprecationWarning
                     ("Using default " ++ repr d ++ " for '" ++ name p ++ "'")])
  | None =>
      interpret p config_dict s =
        (Raise (RuntimeError ("Missing configuration item: " ++ name p)), s, [])
  end.
Proof.
  unfold interpret, well_kinded. intros -> Hk.
  destruct (default p) as [d |]; [| reflexivity].
  destruct (value_type p) eqn:Ht; destruct d; try discriminate Hk;
    cbn; unfold bind, warn, ret, interpret_value, interpret_try;
    rewrite ?Ht; reflexivity.
Qed.

(** A boolean parameter accepts the two literals in any letter case. *)
Lemma interpret_bool_true (p : ConfigParameter) config_dict raw (s : Ext) :
  value_type p = bool_ ->
  Py.get config_dict (name p) = Some raw ->
  Py.lower raw = "true" ->
  interpret p config_dict s = (Ok (VBool true), s, []).
Proof.
  intros Ht Hg Hl. rewrite (interpret_present _ _ _ _ Hg).
  unfold interpret_value, interpret_try. rewrite Ht, Hl. reflexivity.
Qed.

Lemma interpret_bool_false (p : ConfigParameter) config_dict raw (s : Ext) :
  value_type p = bool_ ->
  Py.get config_dict (name p) = Some raw ->
  Py.lower raw = "false" ->
  interpret p config_dict s = (Ok (VBool false), s, []).
Proof.
  intros Ht Hg Hl. rewrite (interpret_present _ _ _ _ Hg).
  unfold interpret_value, interpret_try. rewrite Ht, Hl. reflexivity.
Qed.

(** Any other literal makes the [try] block raise the error that names
    the two accepted literals, and the handler of the block replaces it:
    the caller gets the error that every failed conversion gives. *)
Lemma interpret_bool_other (p : ConfigParameter) config_dict raw (s : Ext) :
  value_type p = bool_ ->
  Py.get config_dict (name p) = Some raw ->
  Py.lower raw <> "true" ->
  Py.lower raw <> "false" ->
  interpret_try p (VStr raw) = Raise (RuntimeError (name p ++ " must be True or False")) /\
  interpret p config_dict s =
    (Raise (RuntimeError ("Error interpreting config item '" ++ name p
                          ++ "' with value " ++ repr_str raw
                          ++ " and type <class 'bool'>")), s, []).
Proof.
  intros Ht Hg Hn1 Hn2. rewrite (interpret_present _ _ _ _ Hg).
  unfold interpret_value, interpret_try. rewrite Ht.
  apply String.eqb_neq in Hn1, Hn2. rewrite Hn1, Hn2. split; reflexivity.
Qed.

(** C2: for a boolean parameter and a raw value that is present,
    [interpret] returns true when the value is [true] in any letter case
    and false when it is [false] in any letter case.  For any other
    literal the [try] block raises the error that asks for True or False,
    but the [except Exception] clause around it catches that error, and
    what [interpret] raises is the error of a failed conversion. *)
Theorem interpret_bool_literal (p : ConfigParameter) (config_dict : list (string * string))
  (raw : string) (s : Ext) :
  value_type p = bool_ ->
  Py.get config_dict (name p) = Some raw ->
  interpret p config_dict s =
    (if String.eqb (Py.lower raw) "true" then (Ok (VBool true), s, [])
     else if String.eqb (Py.lower raw) "false" then (Ok (VBool false), s, [])
     else (Raise (RuntimeError ("Error interpreting config item '" ++ name p
                                ++ "' with value " ++ repr_str raw
                                ++ " and type <class 'bool'>")), s, [])) /\
  (Py.lower raw <> "true" -> Py.lower raw <> "false" ->
   interpret_try p (VStr raw) = Raise (RuntimeError (name p ++ " must be True or False")) /\
   forall s' t,
     interpret p config_dict s <>
       (Raise (RuntimeError (name p ++ " must be True or False")), s', t)).
Proof.
  intros Ht Hg. split.
  - rewrite (interpret_present _ _ _ _ Hg).
    unfold interpret_value, interpret_try. rewrite Ht.
    destruct (String.eqb (Py.lower raw) "true"); [reflexivity |].
    destruct (String.eqb (Py.lower raw) "false"); reflexivity.
  - intros Hn1 Hn2.
    destruct (interpret_bool_other p config_dict raw s Ht Hg Hn1 Hn2) as [Htry Hi].
    split; [exact Htry |]. intros s' t. rewrite Hi. intros H.
    apply (conversion_error_differs (name p) (repr_str raw ++ " and type <class 'bool'>")).
    congruence.
Qed.

(** C7, as far as it holds: a string-list parameter is split at every
    single space and formatted by joining with single spaces, so that
    ["a b c"] gives [a; b; c] and back, and a list that is not empty and
    whose tokens hold no space is returned unchanged when its formatted
    text is interpreted. *)
Theorem list_round_trip (p : ConfigParameter) (config_dict : list (string * string))
  (l : list string) (s : Ext) :
  value_type p = list_ ->
  l <> [] ->
  Forall (fun tok => Py.contains " " tok = false) l ->
  Py.get config_dict (name p) = Some (Py.join " " l) ->
  (forall d raw, Py.get d (name p) = Some raw ->
     interpret p d s = (Ok (VList (Py.split " " raw)), s, [])) /\
  Py.split " " "a b c" = ["a"; "b"; "c"] /\
  (forall l', format p (VList l') = Ok (Py.join " " l')) /\
  Py.join " " ["a"; "b"; "c"] = "a b c" /\
  format p (VList l) = Ok (Py.join " " l) /\
  interpret p config_dict s = (Ok (VList l), s, []).
Proof.
  intros Ht Hne Hall Hg.
  assert (Hi : forall d raw, Py.get d (name p) = Some raw ->
                 interpret p d s = (Ok (VList (Py.split " " raw)), s, [])).
  { intros d raw Hd. rewrite (interpret_present _ _ _ _ Hd).
    unfold interpret_value, interpret_try. rewrite Ht. reflexivity. }
  assert (Hf : forall l', format p (VList l') = Ok (Py.join " " l')).
  { intros l'. unfold format. rewrite Ht. reflexivity. }
  repeat split; auto.
  rewrite (Hi _ _ Hg), (split_join " " l Hne Hall). reflexivity.
Qed.

End InterpretFacts.

(** ** The aggregation function set *)

Section AggregationFacts.
Context {B : Builtins} {Ext : Type} {function kwargs : Type}.

(** C8: indexing returns what [get] returns, on success and on failure
    alike, and leaves the state that [get] leaves; the only difference is
    one [DeprecationWarning], issued before the lookup. *)
Theorem getitem_is_get (self : aggregations.AggregationFunctionSet
                                 (Ext := Ext) (function := function) (kwargs := kwargs))
  (index : string) (s : Ext) :
  aggregations.__getitem__ self index s =
    (let '(r, s', t) := aggregations.get self index s in
     (r, s',
      Warned DeprecationWarning
        ("Use get, not indexing ([" ++ repr_str index ++ "]), for aggregation functions") :: t)).
Proof.
  unfold aggregations.__getitem__, bind, warn.
  destruct (aggregations.get self index s) as [[r s'] t]. reflexivity.
Qed.

End AggregationFacts.

(** ** The pretty printer *)

Section PrettyFacts.
Context {B : Builtins} {Ext : Type}.

Lemma max_nonempty (x : nat) (l : list nat) : Py.max (x :: l) <> None.
Proof. discriminate. Qed.

(** The loop of the pretty printer raises no [ValueError]. *)
Lemma for_each_lines_no_ValueError (config : list (string * value))
  (params_dict : list (string * ConfigParameter)) (w : nat) (names : list string) (s : Ext) msg :
  fst (fst (for_each names (fun nm =>
      p <- lift (getitem params_dict nm) ;;
      v <- lift (getattr config (name p)) ;;
      text <- lift (format p v) ;;
      write (Py.ljust (name p) w ++ " = " ++ text ++ nl)) s)) <> Raise (ValueError msg).
Proof.
  revert s. induction names as [| nm r IH]; intros s; cbn; [discriminate |].
  unfold bind at 1. unfold bind at 1.
  unfold lift at 1, getitem.
  destruct (Py.get params_dict nm) as [p |]; [| cbn; discriminate].
  unfold bind at 1. unfold lift at 1, getattr.
  destruct (Py.get config (name p)) as [v |]; [| cbn; discriminate].
  unfold bind at 1. unfold lift at 1.
  destruct (format p v) as [text | e] eqn:Hf.
  - unfold write at 1.
    specialize (IH s).
    destruct (for_each r _ s) as [[r' s'] t']. exact IH.
  - cbn. unfold format in Hf.
    destruct (pytype_eqb list_ (value_type p)); [| discriminate].
    unfold cast_list in Hf. destruct v; cbn in Hf; inversion Hf; discriminate.
Qed.

(** C10: for the empty list of descriptors the pretty printer raises the
    [ValueError] of [max] on an empty sequence and writes nothing, and so
    does [write_config] of a component built from the empty schema, which
    [DefaultClassConfig.__init__] accepts; for a list that is not empty
    the maximum exists and no [ValueError] is raised; the schema of
    [Config] is not empty. *)
Theorem write_pretty_params_empty (config : list (string * value)) (s : Ext) :
  write_pretty_params config [] s =
    (Raise (ValueError "max() arg is an empty sequence"), s, []) /\
  DefaultClassConfig_init [] [] s = (Ok {| _params := []; attributes := [] |}, s, []) /\
  DefaultClassConfig_write_config {| _params := []; attributes := config |} s =
    (Raise (ValueError "max() arg is an empty sequence"), s, []) /\
  (forall p params msg,
     Py.max (map String.length (map name (p :: params))) <> None /\
     fst (fst (write_pretty_params config (p :: params) s)) <> Raise (ValueError msg)) /\
  Config_params <> [].
Proof.
  repeat split; try discriminate.
  unfold write_pretty_params.
  cbn [map Py.max]. apply for_each_lines_no_ValueError.
Qed.

End PrettyFacts.

(** ** Sorting names *)

Section SortFacts.

Lemma ascii_compare_refl (c : ascii) : Ascii.compare c c = Eq.
Proof. unfold Ascii.compare. apply N.compare_refl. Qed.

Lemma ascii_compare_lt_trans (a b c : ascii) :
  Ascii.compare a b = Lt -> Ascii.compare b c = Lt -> Ascii.compare a c = Lt.
Proof.
  unfold Ascii.compare. rewrite !N.compare_lt_iff. apply N.lt_trans.
Qed.

Lemma name_le_trans (a b c : string) : name_le a b -> name_le b c -> name_le a c.
Proof.
  unfold name_le, String.leb. revert b c.
  induction a as [| x a' IH]; intros [| y b'] [| z c']; cbn; try congruence.
  destruct (Ascii.compare x y) eqn:Hxy; try congruence;
    destruct (Ascii.compare y z) eqn:Hyz; try congruence.
  - apply Ascii.compare_eq_iff in Hxy, Hyz. subst. rewrite ascii_compare_refl. apply IH.
  - apply Ascii.compare_eq_iff in Hxy. subst. rewrite Hyz. reflexivity.
  - apply Ascii.compare_eq_iff in Hyz. subst. rewrite Hxy. reflexivity.
  - rewrite (ascii_compare_lt_trans _ _ _ Hxy Hyz). reflexivity.
Qed.

Lemma insert_perm (x : string) (l : list string) : Permutation (Py.insert x l) (x :: l).
Proof.
  induction l as [| y r IH]; cbn; [reflexivity |].
  destruct (String.leb x y); [reflexivity |].
  rewrite IH. apply perm_swap.
Qed.

Lemma sort_perm (l : list string) : Permutation (Py.sort l) l.
Proof.
  induction l as [| x r IH]; cbn; [reflexivity |].
  rewrite insert_perm. apply perm_skip, IH.
Qed.

Lemma insert_sorted (x : string) (l : list string) :
  StronglySorted name_le l -> StronglySorted name_le (Py.insert x l).
Proof.
  induction 1 as [| y r Hr IH Hy]; cbn.
  - constructor; constructor.
  - destruct (String.leb x y) eqn:Hxy.
    + constructor; [constructor; assumption |].
      constructor; [exact Hxy |].
      eapply Forall_impl; [| exact Hy]. intros z Hz.
      eapply name_le_trans; eassumption.
    + constructor; [exact IH |].
      assert (Hyx : name_le y x).
      { destruct (String.leb_total x y) as [H | H]; [congruence | exact H]. }
      eapply Permutation_Forall; [symmetry; apply insert_perm |].
      constructor; assumption.
Qed.

Lemma sort_sorted (l : list string) : StronglySorted name_le (Py.sort l).
Proof.
  induction l as [| x r IH]; cbn; [constructor | apply insert_sorted, IH].
Qed.

Lemma sorted_perm_eq (l l' : list string) :
  StronglySorted name_le l -> StronglySorted name_le l' -> Permutation l l' -> l = l'.
Proof.
  intros Hl. revert l'. induction Hl as [| a l1 Hl1 IH Ha]; intros l' Hl' Hp.
  - apply Permutation_nil in Hp. subst. reflexivity.
  - destruct Hl' as [| b l2 Hl2 Hb].
    + symmetry in Hp. apply Permutation_nil in Hp. discriminate.
    + assert (Hab : a = b).
      { assert (Hin1 : In a (b :: l2)) by (eapply Permutation_in; [exact Hp | left; reflexivity]).
        assert (Hin2 : In b (a :: l1))
          by (eapply Permutation_in; [symmetry; exact Hp | left; reflexivity]).
        destruct Hin1 as [-> | Hin1]; [reflexivity |].
        destruct Hin2 as [<- | Hin2]; [reflexivity |].
        rewrite Forall_forall in Ha, Hb.
        apply String.leb_antisym; [apply Ha, Hin2 | apply Hb, Hin1]. }
      subst b. f_equal. apply IH; [exact Hl2 |].
      eapply Permutation_cons_inv; exact Hp.
Qed.

Lemma sort_permutation (l l' : list string) : Permutation l l' -> Py.sort l = Py.sort l'.
Proof.
  intros Hp. apply sorted_perm_eq; try apply sort_sorted.
  rewrite !sort_perm. exact Hp.
Qed.

Lemma max_list_max (l : list nat) :
  Py.max l = match l with [] => None | _ => Some (list_max l) end.
Proof.
  destruct l as [| x r]; [reflexivity |]. unfold Py.max. f_equal.
  change (list_max (x :: r)) with (Nat.max x (list_max r)).
  revert x. induction r as [| y r IH]; intros x.
  - cbn. lia.
  - cbn [fold_left]. rewrite IH.
    change (list_max (y :: r)) with (Nat.max y (list_max r)). lia.
Qed.

Lemma list_max_permutation (l l' : list nat) : Permutation l l' -> list_max l = list_max l'.
Proof.
  induction 1 as [| x l l' _ IH | x y l | l l' l'' _ IH1 _ IH2].
  - reflexivity.
  - change (Nat.max x (list_max l) = Nat.max x (list_max l')). rewrite IH. reflexivity.
  - change (Nat.max y (Nat.max x (list_max l)) = Nat.max x (Nat.max y (list_max l))). lia.
  - congruence.
Qed.

End SortFacts.

(** ** Dictionaries *)

Section DictFacts.
Context {V : Type}.

Lemma get_set (d : list (string * V)) (k k' : string) (v : V) :
  Py.get (Py.set d k v) k' = if String.eqb k' k then Some v else Py.get d k'.
Proof.
  induction d as [| [k0 v0] r IH]; cbn.
  - reflexivity.
  - destruct (String.eqb k k0) eqn:Hk; cbn.
    + apply String.eqb_eq in Hk. subst k0.
      destruct (String.eqb k' k); reflexivity.
    + rewrite IH. destruct (String.eqb k' k0) eqn:Hk0; [| reflexivity].
      apply String.eqb_eq in Hk0. subst k0.
      rewrite String.eqb_sym, Hk. reflexivity.
Qed.

Lemma get_fold_set_other (items : list (string * V)) (d : list (string * V)) (k : string) :
  ~ In k (map fst items) ->
  Py.get (fold_left (fun acc kv => Py.set acc (fst kv) (snd kv)) items d) k = Py.get d k.
Proof.
  revert d. induction items as [| [k0 v0] r IH]; intros d Hn; cbn; [reflexivity |].
  cbn in Hn. rewrite IH by tauto. rewrite get_set.
  destruct (String.eqb k k0) eqn:Hk; [| reflexivity].
  apply String.eqb_eq in Hk. subst. tauto.
Qed.

Lemma get_fold_set_in (items : list (string * V)) (d : list (string * V)) (k : string) (v : V) :
  NoDup (map fst items) -> In (k, v) items ->
  Py.get (fold_left (fun acc kv => Py.set acc (fst kv) (snd kv)) items d) k = Some v.
Proof.
  revert d. induction items as [| [k0 v0] r IH]; intros d Hnd Hin; [contradiction |].
  cbn in *. inversion Hnd as [| ? ? Hk0 Hr]; subst.
  destruct Hin as [Heq | Hin].
  - inversion Heq; subst. rewrite get_fold_set_other by exact Hk0.
    rewrite get_set, String.eqb_refl. reflexivity.
  - apply IH; assumption.
Qed.

Lemma get_dict_in (items : list (string * V)) (k : string) (v : V) :
  NoDup (map fst items) -> In (k, v) items -> Py.get (Py.dict items) k = Some v.
Proof. apply get_fold_set_in. Qed.

(** Where the section has no duplicate option, its own options come
    first in the merged options, as in [get]. *)
Lemma get_merged (section defaults : list (string * V)) (k : string) :
  NoDup (map fst section) ->
  Py.get (fold_left (fun acc kv => Py.set acc (fst kv) (snd kv)) section defaults) k =
    match Py.get section k with
    | Some v => Some v
    | None => Py.get defaults k
    end.
Proof.
  intros Hnd. destruct (Py.get section k) as [v |] eqn:Hg.
  - apply get_fold_set_in; [exact Hnd |].
    clear Hnd. induction section as [| [k0 v0] r IH]; [discriminate |].
    cbn in Hg. destruct (String.eqb k k0) eqn:Hk.
    + apply String.eqb_eq in Hk. inversion Hg; subst. left; reflexivity.
    + right. apply IH, Hg.
  - apply get_fold_set_other.
    clear Hnd. induction section as [| [k0 v0] r IH]; [tauto |].
    cbn in *. destruct (String.eqb k k0) eqn:Hk; [discriminate |].
    apply String.eqb_neq in Hk. intros [H | H]; [congruence | exact (IH Hg H)].
Qed.

Lemma get_In (d : list (string * V)) (k : string) (v : V) :
  Py.get d k = Some v -> In (k, v) d.
Proof.
  induction d as [| [k0 v0] r IH]; [discriminate |].
  cbn. destruct (String.eqb k k0) eqn:Hk.
  - apply String.eqb_eq in Hk. intros H; inversion H; subst. left; reflexivity.
  - intros H. right. apply IH, H.
Qed.

End DictFacts.

(** ** The lines of the pretty printer *)

Section PrettyLines.
Context {B : Builtins} {Ext : Type}.

Lemma for_each_lines (config : list (string * value))
  (params_dict : list (string * ConfigParameter)) (w : nat) (text : string -> string)
  (names : list string) (s : Ext) :
  (forall nm, In nm names ->
     exists p, Py.get params_dict nm = Some p /\ name p = nm /\
               formatted config p = Ok (text nm)) ->
  for_each names (fun nm =>
      p <- lift (getitem params_dict nm) ;;
      v <- lift (getattr config (name p)) ;;
      t <- lift (format p v) ;;
      write (Py.ljust (name p) w ++ " = " ++ t ++ nl)) s
  = (Ok tt, s, map (fun nm => Wrote (right_padded_line w nm (text nm))) names).
Proof.
  set (body := fun nm : string => _).
  induction names as [| nm r IH]; intros H; [reflexivity |].
  destruct (H nm (or_introl eq_refl)) as (p & Hp & Hn & Hf).
  assert (Hb : body nm s = (Ok tt, s, [Wrote (right_padded_line w nm (text nm))])).
  { unfold body, bind, lift, getitem, write. rewrite Hp.
    unfold formatted in Hf.
    destruct (getattr config (name p)) as [v | e]; [| discriminate].
    rewrite Hf, Hn. reflexivity. }
  cbn [for_each map]. rewrite (bind_Ok _ _ _ _ _ _ Hb).
  rewrite IH by (intros; apply H; right; assumption).
  reflexivity.
Qed.

Lemma write_pretty_params_canonical (config : list (string * value))
  (params : list ConfigParameter) (text : string -> string) (s : Ext) :
  params <> [] ->
  NoDup (map name params) ->
  (forall p, In p params -> formatted config p = Ok (text (name p))) ->
  write_pretty_params config params s =
    (Ok tt, s,
     map (fun nm => Wrote (right_padded_line
                             (list_max (map String.length (map name params))) nm (text nm)))
         (Py.sort (map name params))).
Proof.
  intros Hne Hnd Hf. unfold write_pretty_params.
  rewrite max_list_max.
  destruct params as [| p0 ps] eqn:Hps; [congruence |]. rewrite <- Hps in *.
  destruct (map String.length (map name params)) as [| n ns] eqn:Hl.
  { rewrite Hps in Hl. discriminate. }
  rewrite <- Hl. apply for_each_lines.
  intros nm Hin.
  apply (Permutation_in _ (sort_perm _)) in Hin.
  apply in_map_iff in Hin as (p & Hn & Hp).
  exists p. split; [| split; [exact Hn | rewrite <- Hn; apply Hf, Hp]].
  apply get_dict_in.
  - rewrite map_map. cbn. exact Hnd.
  - apply in_map_iff. exists p. rewrite Hn. auto.
Qed.

(** C6, as far as it holds: for a list of descriptors that is not empty,
    with distinct names and a value to format for each, the pretty printer
    succeeds and writes exactly one line per descriptor, the names in
    ascending order, each name followed by spaces up to the length of the
    longest name (the padding is to the right of the name), then [ = ],
    the formatted value and a line feed; the order in which the
    descriptors are given does not change what is written. *)
Theorem write_pretty_params_lines (config : list (string * value))
  (params : list ConfigParameter) (text : string -> string) (s : Ext) :
  params <> [] ->
  NoDup (map name params) ->
  (forall p, In p params -> formatted config p = Ok (text (name p))) ->
  exists w,
    Py.max (map String.length (map name params)) = Some w /\
    (forall nm, In nm (map name params) ->
       String.length nm <= w /\ String.length (Py.ljust nm w) = w) /\
    (exists nm, In nm (map name params) /\ String.length nm = w) /\
    Permutation (Py.sort (map name params)) (map name params) /\
    StronglySorted name_le (Py.sort (map name params)) /\
    write_pretty_params config params s =
      (Ok tt, s,
       map (fun nm => Wrote (Py.ljust nm w ++ " = " ++ text nm ++ nl))
           (Py.sort (map name params))) /\
    List.length (snd (write_pretty_params config params s)) = List.length params /\
    (forall params', Permutation params params' ->
       write_pretty_params config params' s = write_pretty_params config params s).
Proof.
  intros Hne Hnd Hf.
  exists (list_max (map String.length (map name params))).
  assert (Hcan := write_pretty_params_canonical config params text s Hne Hnd Hf).
  split; [| split; [| split; [| split; [| split; [| split; [| split]]]]]].
  - rewrite max_list_max. destruct params; [congruence | reflexivity].
  - intros nm Hin.
    assert (Hle : String.length nm <= list_max (map String.length (map name params))).
    { assert (H := list_max_le (map String.length (map name params))
                     (list_max (map String.length (map name params)))).
      destruct H as [H _]. specialize (H (Nat.le_refl _)).
      rewrite Forall_forall in H. apply H, in_map, Hin. }
    split; [exact Hle | apply ljust_length, Hle].
  - destruct (map String.length (map name params)) as [| n ns] eqn:Hl.
    { destruct params; [congruence | discriminate]. }
    assert (Hin : In (list_max (n :: ns)) (n :: ns)).
    { clear. revert n. induction ns as [| m r IH]; intros n.
      - left. cbn. lia.
      - change (list_max (n :: m :: r)) with (Nat.max n (list_max (m :: r))).
        destruct (Nat.max_spec n (list_max (m :: r))) as [[_ ->] | [_ ->]].
        + right. apply IH.
        + left. reflexivity. }
    rewrite <- Hl in Hin at 2. apply in_map_iff in Hin as (nm & Hlen & Hin).
    exists nm. split; [exact Hin | exact Hlen].
  - apply sort_perm.
  - apply sort_sorted.
  - exact Hcan.
  - rewrite Hcan. cbn [snd]. rewrite length_map.
    rewrite (Permutation_length (sort_perm _)). apply length_map.
  - intros params' Hp. rewrite Hcan.
    rewrite (write_pretty_params_canonical config params' text s).
    + rewrite (sort_permutation (map name params') (map name params))
        by (apply Permutation_map; symmetry; exact Hp).
      rewrite (list_max_permutation (map String.length (map name params'))
                 (map String.length (map name params)))
        by (do 2 apply Permutation_map; symmetry; exact Hp).
      reflexivity.
    + intros ->. symmetry in Hp. apply Permutation_nil in Hp. congruence.
    + eapply Permutation_NoDup; [apply Permutation_map; exact Hp | exact Hnd].
    + intros p Hin. apply Hf. eapply Permutation_in; [symmetry; exact Hp | exact Hin].
Qed.

End PrettyLines.

(** ** Unknown configuration items *)

Section UnknownFacts.
Context {B : Builtins} {Ext : Type}.

Lemma append_assoc (a b c : string) : (a ++ b) ++ c = a ++ b ++ c.
Proof. induction a as [| x r IH]; cbn; [reflexivity | rewrite IH; reflexivity]. Qed.

Lemma occurs_in_append_r (k a b : string) : occurs_in k b -> occurs_in k (a ++ b).
Proof.
  intros (pre & post & ->). exists (a ++ pre), post. rewrite append_assoc. reflexivity.
Qed.

Lemma occurs_in_join (sep k : string) (l : list string) :
  In k l -> occurs_in k (Py.join sep l).
Proof.
  induction l as [| x r IH]; [contradiction |].
  intros [-> | Hin].
  - destruct r as [| y r'].
    + exists "", "". cbn. clear. induction k as [| c k IH]; cbn; [reflexivity | rewrite <- IH at 1; reflexivity].
    + exists "", (sep ++ Py.join sep (y :: r')). reflexivity.
  - destruct r as [| y r']; [contradiction |].
    change (Py.join sep (x :: y :: r')) with (x ++ sep ++ Py.join sep (y :: r')).
    do 2 apply occurs_in_append_r. apply IH, Hin.
Qed.

(** With one unknown item the message is in the singular and names it;
    with two or more it is in the plural and lists them all. *)
Lemma check_unknown_raises (what : string) (unknown_list : list string) (s : Ext) :
  unknown_list <> [] ->
  exists msg,
    check_unknown what unknown_list s = (Raise (UnknownConfigItemError msg), s, []) /\
    (forall k, In k unknown_list -> occurs_in k msg) /\
    match unknown_list with
    | [x] => msg = "Unknown " ++ what ++ "configuration item " ++ x
    | _ => msg = "Unknown " ++ what ++ "configuration items:" ++ nl
                 ++ Py.join (nl ++ tab) unknown_list
    end.
Proof.
  destruct unknown_list as [| x [| y r]]; [congruence | |]; intros _.
  - eexists. split; [reflexivity |]. split; [| reflexivity].
    intros k [<- | []]. exists ("Unknown " ++ what ++ "configuration item "), "".
    rewrite !append_assoc. repeat f_equal.
    clear. induction x as [| c k IH]; cbn; [reflexivity | rewrite <- IH; reflexivity].
  - eexists. split; [reflexivity |]. split; [| reflexivity].
    intros k Hin. do 4 apply occurs_in_append_r. apply occurs_in_join, Hin.
Qed.

Lemma check_unknown_empty (what : string) (s : Ext) :
  check_unknown what [] s = (Ok tt, s, []).
Proof. reflexivity. Qed.

(** [setattr] stores the value under every name but the three that
    [object] keeps for itself. *)
Lemma setattr_Ok (attrs : list (string * value)) (attr : string) (v : value) :
  ~ In attr ["__class__"; "__dict__"; "__weakref__"] ->
  setattr attrs attr v = Ok (Py.set attrs attr v).
Proof.
  intros Hn. unfold setattr.
  destruct (String.eqb attr "__class__") eqn:H1;
    [apply String.eqb_eq in H1; subst; exfalso; apply Hn; cbn; tauto |].
  destruct (String.eqb attr "__dict__") eqn:H2;
    [apply String.eqb_eq in H2; subst; exfalso; apply Hn; cbn; tauto |].
  destruct (String.eqb attr "__weakref__") eqn:H3;
    [apply String.eqb_eq in H3; subst; exfalso; apply Hn; cbn; tauto |].
  reflexivity.
Qed.

Lemma setattr_Ok_inv (attrs : list (string * value)) (attr : string) (v : value) attrs' :
  setattr attrs attr v = Ok attrs' ->
  attrs' = Py.set attrs attr v /\ ~ In attr ["__class__"; "__dict__"; "__weakref__"].
Proof.
  unfold setattr.
  destruct (String.eqb attr "__class__") eqn:H1; [discriminate |].
  destruct (String.eqb attr "__dict__") eqn:H2; [discriminate |].
  destruct (String.eqb attr "__weakref__") eqn:H3; [discriminate |].
  cbn [orb]. intros H. inversion H. split; [reflexivity |].
  apply String.eqb_neq in H1, H2, H3. cbn. intros [<- | [<- | [<- | []]]]; congruence.
Qed.

(** One turn of the loop of [DefaultClassConfig.__init__] that the loop
    survives. *)
Lemma interpret_all_cons_inv (param_dict : list (string * string)) (p : ConfigParameter)
  (ps : list ConfigParameter) attrs names (s : Ext) r s' t :
  interpret_all param_dict (p :: ps) attrs names s = (Ok r, s', t) ->
  exists v s1 t1 t2,
    interpret p param_dict s = (Ok v, s1, t1) /\
    ~ In (name p) ["__class__"; "__dict__"; "__weakref__"] /\
    interpret_all param_dict ps (Py.set attrs (name p) v) (names ++ [name p])%list s1 =
      (Ok r, s', t2) /\
    t = (t1 ++ t2)%list.
Proof.
  intros H. cbn [interpret_all] in H.
  apply bind_Ok_inv in H as (v & s1 & t1 & t2 & Hp & H & ->).
  apply bind_Ok_inv in H as (attrs' & s2 & t3 & t4 & Hset & H & ->).
  apply lift_Ok_inv in Hset as (Hset & -> & ->).
  apply setattr_Ok_inv in Hset as (-> & Hn).
  exists v, s1, t1, t4. auto.
Qed.

(** The names collected by the loop of [DefaultClassConfig.__init__]. *)
Lemma interpret_all_names (param_dict : list (string * string))
  (param_list : list ConfigParameter) attrs names (s : Ext) r s' t :
  interpret_all param_dict param_list attrs names s = (Ok r, s', t) ->
  snd r = (names ++ map name param_list)%list.
Proof.
  revert attrs names s t. induction param_list as [| p ps IH]; intros attrs names s t H.
  - cbn in H. inversion H. cbn. rewrite app_nil_r. reflexivity.
  - apply interpret_all_cons_inv in H as (v & s1 & t1 & t2 & _ & _ & H & _).
    apply IH in H. rewrite H, <- app_assoc. reflexivity.
Qed.

Lemma load_params_names (parameters : ConfigParser)
  (param_list : list ConfigParameter) attrs names (s : Ext) r s' t :
  load_params parameters param_list attrs names s = (Ok r, s', t) ->
  snd r = (names ++ map name param_list)%list.
Proof.
  revert attrs names s t. induction param_list as [| p ps IH]; intros attrs names s t H.
  - cbn in H. inversion H. cbn. rewrite app_nil_r. reflexivity.
  - cbn [load_params] in H. apply bind_Ok_inv in H as (v & s1 & t1 & t2 & _ & H & _).
    apply IH in H. rewrite H, <- app_assoc. reflexivity.
Qed.

End UnknownFacts.

(** ** Loading the root configuration *)

Section LoadFacts.
Context {B : Builtins} {Ext : Type} {component : Type}.

(** [Config.__init__] from the point where the four assertions hold, the
    file exists and has been read, and it has a [NEAT] section. *)
Lemma Config_init_reads (fs : FileSystem) (G R S T : component_type (Ext := Ext) (component := component)) filename parameters (s : Ext) :
  hasattr_parse_config G = true ->
  hasattr_parse_config R = true ->
  hasattr_parse_config S = true ->
  hasattr_parse_config T = true ->
  isfile fs filename = true ->
  read_file fs filename = Ok parameters ->
  has_section parameters "NEAT" = true ->
  Config_init fs G R S T filename s =
    (r <- load_params parameters Config_params [] [] ;;
     neat_items <- lift (items parameters "NEAT") ;;
     check_unknown "(section 'NEAT') " (unknown_items (Py.dict neat_items) (snd r)) ;;
     genome_config <- parse_section parameters G ;;
     species_set_config <- parse_section parameters S ;;
     stagnation_config <- parse_section parameters T ;;
     reproduction_config <- parse_section parameters R ;;
     ret {| genome_type := G;
            reproduction_type := R;
            species_set_type := S;
            stagnation_type := T;
            params := fst r;
            genome_config := genome_config;
            species_set_config := species_set_config;
            stagnation_config := stagnation_config;
            reproduction_config := reproduction_config |}) s.
Proof.
  intros HG HR HS HT Hf Hr Hn. unfold Config_init.
  rewrite HG, HR, HS, HT, !bind_assert_true, Hf. cbn [negb].
  rewrite Hr, bind_lift_Ok, Hn. reflexivity.
Qed.


End LoadFacts.

(** ** The reader and the global parameters *)

Section ReaderFacts.
Context {B : Builtins} {Ext : Type}.

Lemma has_section_dict (parser : ConfigParser) (section : string) :
  has_section parser section = true ->
  sections_are_dicts parser ->
  exists d, section_dict parser section = Ok d /\ NoDup (Py.keys d).
Proof.
  unfold has_section, section_dict, sections_are_dicts. intros H Hwf.
  destruct (Py.get (_sections parser) section) as [d |] eqn:Hg; [| discriminate].
  exists d. split; [reflexivity |].
  apply get_In in Hg. rewrite Forall_forall in Hwf. apply (Hwf _ Hg).
Qed.

(** When interpolation rejects one value of a list of options, it rejects
    the list. *)
Lemma interpolate_all_raises (parser : ConfigParser) (section : string)
  (d : list (string * string)) (k raw : string) (e : exn) :
  In (k, raw) d ->
  before_get parser section k raw = Raise e ->
  exists e', interpolate_all parser section d = Raise e'.
Proof.
  induction d as [| [k0 raw0] r IH]; [contradiction |].
  intros [Heq | Hin] Hb; cbn.
  - inversion Heq; subst. rewrite Hb. eauto.
  - destruct (before_get parser section k0 raw0); [| eauto].
    destruct (IH Hin Hb) as (e' & ->). eauto.
Qed.

(** [get] fails either because the option is missing, or because
    interpolation rejects its value, and then [items] fails too. *)
Lemma get_raises (parser : ConfigParser) (section option : string) (e : exn) :
  has_section parser section = true ->
  sections_are_dicts parser ->
  get parser section option = Raise e ->
  e = Error (NoOptionError (Py.lower option) section) \/
  exists e', items parser section = Raise e'.
Proof.
  intros Hs Hwf Hg.
  destruct (has_section_dict _ _ Hs Hwf) as (d & Hd & Hnd).
  unfold get in Hg. unfold items. rewrite Hd in *.
  assert (Hm := get_merged d (_defaults parser) (Py.lower option) Hnd).
  destruct (Py.get d (Py.lower option)) as [raw |] eqn:Hsec.
  - right. apply get_In in Hm. eapply interpolate_all_raises; eassumption.
  - destruct (Py.get (_defaults parser) (Py.lower option)) as [raw |] eqn:Hdef.
    + right. apply get_In in Hm. eapply interpolate_all_raises; eassumption.
    + left. inversion Hg. reflexivity.
Qed.

(** For the five kinds, an exception of [parse] that the handler in
    [Config.__init__] catches is an exception of [get]. *)
Lemma parse_caught (p : ConfigParameter) (parser : ConfigParser) (e : exn) :
  (forall r, value_type p <> other_type r) ->
  parse p "NEAT" parser = Raise e ->
  Error_or_RuntimeError e = true ->
  get parser "NEAT" (name p) = Raise e.
Proof.
  intros Hk Hp Hc. unfold parse in Hp.
  destruct (value_type p) eqn:Ht.
  - destruct (get parser "NEAT" (name p)); [discriminate | congruence].
  - unfold getint in Hp. destruct (get parser "NEAT" (name p)) as [v | e0]; [| congruence].
    cbn in Hp. destruct (int_of_str v); inversion Hp; subst; discriminate.
  - unfold getboolean in Hp. destruct (get parser "NEAT" (name p)) as [v | e0]; [| congruence].
    destruct (Py.mem _ _); [discriminate |].
    destruct (Py.mem _ _); [discriminate |].
    inversion Hp; subst; discriminate.
  - unfold getfloat in Hp. destruct (get parser "NEAT" (name p)) as [v | e0]; [| congruence].
    cbn in Hp. destruct (float_of_str v); inversion Hp; subst; discriminate.
  - destruct (get parser "NEAT" (name p)); [discriminate | congruence].
  - exfalso. eapply Hk. reflexivity.
Qed.

(** [get] in terms of what the file holds for the option. *)
Lemma get_raw_option (parser : ConfigParser) (section key : string) :
  has_section parser section = true ->
  get parser section key =
    match raw_option parser section (Py.lower key) with
    | Some raw => before_get parser section (Py.lower key) raw
    | None => Raise (Error (NoOptionError (Py.lower key) section))
    end.
Proof.
  unfold has_section, get, section_dict, raw_option.
  destruct (Py.get (_sections parser) section) as [d |]; [intros _ | discriminate].
  destruct (Py.get d (Py.lower key)); [reflexivity |].
  destruct (Py.get (_defaults parser) (Py.lower key)); reflexivity.
Qed.

Lemma raw_option_has_section (parser : ConfigParser) (section key raw : string) :
  raw_option parser section key = Some raw -> has_section parser section = true.
Proof.
  unfold raw_option, has_section.
  destruct (Py.get (_sections parser) section); [reflexivity | discriminate].
Qed.

(** When interpolation rejects what the file holds for an option of a
    section, [items] fails on the section. *)
Lemma raw_option_items (parser : ConfigParser) (section key raw : string) (e : exn) :
  sections_are_dicts parser ->
  raw_option parser section key = Some raw ->
  before_get parser section key raw = Raise e ->
  exists e', items parser section = Raise e'.
Proof.
  intros Hwf Hraw Hb.
  destruct (has_section_dict _ _ (raw_option_has_section _ _ _ _ Hraw) Hwf) as (d & Hd & Hnd).
  unfold items. rewrite Hd.
  assert (Hm := get_merged d (_defaults parser) key Hnd).
  unfold raw_option in Hraw. unfold section_dict in Hd.
  destruct (Py.get (_sections parser) section) as [d' |]; [| discriminate].
  inversion Hd; subst d'. rewrite Hraw in Hm.
  apply get_In in Hm. eapply interpolate_all_raises; eassumption.
Qed.

(** For the five kinds, [parse] raises what [get] raises. *)
Lemma parse_get_Raise (p : ConfigParameter) (parser : ConfigParser) (section : string)
  (e : exn) :
  (forall r, value_type p <> other_type r) ->
  get parser section (name p) = Raise e ->
  parse p section parser = Raise e.
Proof.
  intros Hk Hg. unfold parse, getint, getboolean, getfloat. rewrite Hg.
  destruct (value_type p) eqn:Ht; try reflexivity. exfalso. exact (Hk _ eq_refl).
Qed.

(** For the five kinds, [parse] on an option whose interpolated text is
    [text]: a text that is no literal of the kind makes it raise an error
    that the handler in [Config.__init__] does not catch; any other text
    is converted. *)
Lemma parse_text (p : ConfigParameter) (parser : ConfigParser) (section text : string) :
  (forall r, value_type p <> other_type r) ->
  get parser section (name p) = Ok text ->
  if malformed (value_type p) text
  then exists e, parse p section parser = Raise e /\ Error_or_RuntimeError e = false
  else exists v, parse p section parser = Ok v.
Proof.
  intros Hk Hg. unfold parse, getint, getboolean, getfloat, malformed. rewrite Hg.
  destruct (value_type p) eqn:Ht.
  - eauto.
  - cbn. destruct (int_of_str text); eauto.
  - change ["1"; "yes"; "true"; "on"; "0"; "no"; "false"; "off"]
      with (["1"; "yes"; "true"; "on"] ++ ["0"; "no"; "false"; "off"])%list.
    unfold Py.mem. rewrite existsb_app.
    destruct (existsb _ ["1"; "yes"; "true"; "on"]); [cbn; eauto |].
    destruct (existsb _ ["0"; "no"; "false"; "off"]); cbn; eauto.
  - cbn. destruct (float_of_str text); eauto.
  - eauto.
  - exfalso. exact (Hk _ eq_refl).
Qed.

(** The loop body of [Config.__init__] in closed form. *)
Lemma load_param_eq (p : ConfigParameter) (parameters : ConfigParser) (s : Ext) :
  load_param p parameters s =
    match parse p "NEAT" parameters with
    | Ok v => (Ok v, s, [])
    | Raise e =>
        match default p with
        | Some d =>
            if Error_or_RuntimeError e
            then (Ok d, s, [Warned DeprecationWarning
                              ("Using default " ++ repr d ++ " for '" ++ name p ++ "'")])
            else (Raise e, s, [])
        | None => (Raise e, s, [])
        end
    end.
Proof.
  unfold load_param, try_except, lift.
  destruct (default p) as [d |]; destruct (parse p "NEAT" parameters) as [v | e]; reflexivity.
Qed.

Lemma load_params_other (parameters : ConfigParser) (ps : list ConfigParameter)
  attrs names (s : Ext) r s' t k :
  load_params parameters ps attrs names s = (Ok r, s', t) ->
  ~ In k (map name ps) ->
  Py.get (fst r) k = Py.get attrs k.
Proof.
  revert attrs names s t. induction ps as [| p ps IH]; intros attrs names s t H Hn.
  - cbn in H. inversion H. reflexivity.
  - cbn [load_params] in H. apply bind_Ok_inv in H as (v & s1 & t1 & t2 & _ & H & _).
    cbn in Hn. rewrite (IH _ _ _ _ H) by tauto. rewrite get_set.
    destruct (String.eqb k (name p)) eqn:Hk; [| reflexivity].
    apply String.eqb_eq in Hk. subst. tauto.
Qed.

(** After the loop, every parameter has the value that the loop body
    gave it, and the warnings of the loop body are among those issued. *)
Lemma load_params_inv (parameters : ConfigParser) (ps : list ConfigParameter)
  attrs names (s : Ext) r s' t :
  load_params parameters ps attrs names s = (Ok r, s', t) ->
  NoDup (map name ps) ->
  s' = s /\
  forall p, In p ps ->
    exists v tp, load_param p parameters s = (Ok v, s, tp) /\
                 Py.get (fst r) (name p) = Some v /\
                 incl tp t.
Proof.
  revert attrs names s t. induction ps as [| p0 ps IH]; intros attrs names s t H Hnd.
  - cbn in H. inversion H. split; [reflexivity | contradiction].
  - cbn [load_params] in H. apply bind_Ok_inv in H as (v & s1 & t1 & t2 & Hp & H & ->).
    assert (Hs1 : s1 = s).
    { rewrite load_param_eq in Hp.
      destruct (parse p0 "NEAT" parameters); [inversion Hp; reflexivity |].
      destruct (default p0); [| inversion Hp; reflexivity].
      destruct (Error_or_RuntimeError e); inversion Hp; reflexivity. }
    subst s1. cbn in Hnd. inversion Hnd as [| ? ? Hn0 Hnd']; subst.
    destruct (IH _ _ _ _ H Hnd') as (-> & Hall). split; [reflexivity |].
    intros p [<- | Hin].
    + exists v, t1. split; [exact Hp |]. split.
      * rewrite (load_params_other _ _ _ _ _ _ _ _ _ H Hn0), get_set, String.eqb_refl.
        reflexivity.
      * apply incl_appl, incl_refl.
    + destruct (Hall p Hin) as (v' & tp & Hp' & Hg & Hi).
      exists v', tp. split; [exact Hp' |]. split; [exact Hg |].
      apply incl_appr, Hi.
Qed.

End ReaderFacts.

Section RootFacts.
Context {B : Builtins} {Ext : Type} {component : Type}.

(** What a successful [Config.__init__] has gone through. *)
Lemma Config_init_Ok_inv (fs : FileSystem)
  (G R S T : component_type (Ext := Ext) (component := component)) filename
  (s : Ext) self s' t :
  Config_init fs G R S T filename s = (Ok self, s', t) ->
  exists parameters r s1 t1 neat_items t2,
    hasattr_parse_config G = true /\ hasattr_parse_config R = true /\
    hasattr_parse_config S = true /\ hasattr_parse_config T = true /\
    isfile fs filename = true /\
    read_file fs filename = Ok parameters /\
    has_section parameters "NEAT" = true /\
    load_params parameters Config_params [] [] s = (Ok r, s1, t1) /\
    items parameters "NEAT" = Ok neat_items /\
    unknown_items (Py.dict neat_items) (map name Config_params) = [] /\
    t = (t1 ++ t2)%list /\
    params self = fst r /\
    genome_type self = G /\ reproduction_type self = R /\
    species_set_type self = S /\ stagnation_type self = T.
Proof.
  intros H.
  destruct (hasattr_parse_config G) eqn:HG;
    [| unfold Config_init in H; rewrite HG in H; discriminate].
  destruct (hasattr_parse_config R) eqn:HR;
    [| unfold Config_init in H; rewrite HG, HR, bind_assert_true in H; discriminate].
  destruct (hasattr_parse_config S) eqn:HS;
    [| unfold Config_init in H; rewrite HG, HR, HS, !bind_assert_true in H; discriminate].
  destruct (hasattr_parse_config T) eqn:HT;
    [| unfold Config_init in H; rewrite HG, HR, HS, HT, !bind_assert_true in H; discriminate].
  destruct (isfile fs filename) eqn:Hf;
    [| unfold Config_init in H; rewrite HG, HR, HS, HT, !bind_assert_true, Hf in H;
       discriminate].
  destruct (read_file fs filename) as [parameters | e] eqn:Hr;
    [| unfold Config_init in H; rewrite HG, HR, HS, HT, !bind_assert_true, Hf in H;
       cbn [negb] in H; rewrite Hr in H; discriminate].
  destruct (has_section parameters "NEAT") eqn:Hn;
    [| unfold Config_init in H;
       rewrite HG, HR, HS, HT, !bind_assert_true, Hf in H; cbn [negb] in H;
       rewrite Hr, bind_lift_Ok, Hn in H; discriminate].
  rewrite (Config_init_reads fs G R S T filename parameters s HG HR HS HT Hf Hr Hn) in H.
  apply bind_Ok_inv in H as (r & s1 & t1 & t2 & Hload & H & ->).
  apply bind_Ok_inv in H as (neat_items & s2 & t3 & t4 & Hitems & H & ->).
  apply lift_Ok_inv in Hitems as (Hitems & -> & ->).
  apply bind_Ok_inv in H as ([] & s3 & t5 & t6 & Hcheck & H & ->).
  apply bind_Ok_inv in H as (gc & s4 & t7 & t8 & _ & H & ->).
  apply bind_Ok_inv in H as (sc & s5 & t9 & t10 & _ & H & ->).
  apply bind_Ok_inv in H as (tc & s6 & t11 & t12 & _ & H & ->).
  apply bind_Ok_inv in H as (rc & s7 & t13 & t14 & _ & H & ->).
  inversion H; subst.
  exists parameters, r, s1, t1, neat_items. eexists.
  repeat (split; [first [reflexivity | eassumption] |]).
  split; [| split; [reflexivity | auto]].
  rewrite (load_params_names _ _ _ _ _ _ _ _ Hload) in Hcheck. cbn [app] in Hcheck.
  destruct (unknown_items (Py.dict neat_items) (map name Config_params)) as [| x l];
    [reflexivity |].
  destruct (check_unknown_raises "(section 'NEAT') " (x :: l) s1 ltac:(discriminate))
    as (msg & Hc & _).
  rewrite Hc in Hcheck. discriminate.
Qed.

Lemma Config_params_names :
  NoDup (map name (Config_params (B := B))) /\
  Forall (fun p => Py.lower (name p) = name p /\ forall r, value_type p <> other_type r)
         (Config_params (B := B)).
Proof.
  split.
  - cbn. repeat constructor; cbn; intuition discriminate.
  - repeat constructor; discriminate.
Qed.

(** C4: for a global parameter, the loop body returns the parsed value
    without a warning when parsing succeeds, and the default with one
    warning when parsing raises the reader's missing-option error and there
    is a default.  In a load that succeeds, a parameter whose parsing
    raised has its default, with the warning issued, and what parsing
    raised was the missing-option error; so a parameter whose parsing
    raises anything else, or that has no default, makes the load fail,
    whatever its default.

    In terms of what the file holds: an option written neither in [NEAT]
    nor in [DEFAULT] is reported missing, and gets the default with the
    warning if there is one.  An option that is written is never given
    the default by a load that succeeds: such a load has interpolated its
    text, found a literal of the parameter's kind, and stored the parsed
    value without a warning.  When the text is no literal of the kind,
    the loop body raises, substitutes nothing and warns of nothing, and
    when that or a failure of interpolation happens the load fails, with
    or without a default. *)
Theorem default_only_when_missing (fs : FileSystem)
  (G R S T : component_type (Ext := Ext) (component := component))
  (filename : string) (parameters : ConfigParser) (p : ConfigParameter) (s : Ext) :
  read_file fs filename = Ok parameters ->
  sections_are_dicts parameters ->
  In p Config_params ->
  (forall v, parse p "NEAT" parameters = Ok v -> load_param p parameters s = (Ok v, s, [])) /\
  (forall d,
     parse p "NEAT" parameters = Raise (Error (NoOptionError (name p) "NEAT")) ->
     default p = Some d ->
     load_param p parameters s =
       (Ok d, s, [Warned DeprecationWarning
                    ("Using default " ++ repr d ++ " for '" ++ name p ++ "'")])) /\
  (forall self s' t,
     Config_init fs G R S T filename s = (Ok self, s', t) ->
     match parse p "NEAT" parameters with
     | Ok v => Py.get (params self) (name p) = Some v
     | Raise e =>
         e = Error (NoOptionError (name p) "NEAT") /\
         exists d, default p = Some d /\
                   Py.get (params self) (name p) = Some d /\
                   In (Warned DeprecationWarning
                         ("Using default " ++ repr d ++ " for '" ++ name p ++ "'")) t
     end) /\
  (forall e,
     parse p "NEAT" parameters = Raise e ->
     e <> Error (NoOptionError (name p) "NEAT") \/ default p = None ->
     exists e' s' t, Config_init fs G R S T filename s = (Raise e', s', t)) /\
  (has_section parameters "NEAT" = true ->
   raw_option parameters "NEAT" (name p) = None ->
   parse p "NEAT" parameters = Raise (Error (NoOptionError (name p) "NEAT")) /\
   load_param p parameters s =
     match default p with
     | Some d => (Ok d, s, [Warned DeprecationWarning
                              ("Using default " ++ repr d ++ " for '" ++ name p ++ "'")])
     | None => (Raise (Error (NoOptionError (name p) "NEAT")), s, [])
     end) /\
  (forall raw,
     raw_option parameters "NEAT" (name p) = Some raw ->
     (forall self s' t,
        Config_init fs G R S T filename s = (Ok self, s', t) ->
        exists text v,
          before_get parameters "NEAT" (name p) raw = Ok text /\
          malformed (value_type p) text = false /\
          parse p "NEAT" parameters = Ok v /\
          load_param p parameters s = (Ok v, s, []) /\
          Py.get (params self) (name p) = Some v) /\
     (forall text,
        before_get parameters "NEAT" (name p) raw = Ok text ->
        malformed (value_type p) text = true ->
        exists e, Error_or_RuntimeError e = false /\
                  load_param p parameters s = (Raise e, s, [])) /\
     ((exists e, before_get parameters "NEAT" (name p) raw = Raise e) \/
      (exists text, before_get parameters "NEAT" (name p) raw = Ok text /\
                    malformed (value_type p) text = true) ->
      exists e' s' t, Config_init fs G R S T filename s = (Raise e', s', t))).
Proof.
  intros Hread Hwf Hin.
  destruct Config_params_names as (Hnd & Hnames).
  rewrite Forall_forall in Hnames. destruct (Hnames p Hin) as (Hlow & Hkind).
  assert (Hsucc : forall self s' t,
     Config_init fs G R S T filename s = (Ok self, s', t) ->
     items parameters "NEAT" <> Raise (Error (NoSectionError "NEAT")) /\
     (forall e, items parameters "NEAT" <> Raise e) /\
     match parse p "NEAT" parameters with
     | Ok v => Py.get (params self) (name p) = Some v
     | Raise e =>
         e = Error (NoOptionError (name p) "NEAT") /\
         exists d, default p = Some d /\
                   Py.get (params self) (name p) = Some d /\
                   In (Warned DeprecationWarning
                         ("Using default " ++ repr d ++ " for '" ++ name p ++ "'")) t
     end).
  { intros self s' t H.
    apply Config_init_Ok_inv in H
      as (parameters' & r & s1 & t1 & neat_items & t2 & _ & _ & _ & _ & _ & Hr & Hn
          & Hload & Hitems & _ & -> & Hparams & _).
    rewrite Hread in Hr. inversion Hr; subst parameters'. clear Hr.
    split; [rewrite Hitems; discriminate |].
    split; [intros e; rewrite Hitems; discriminate |].
    destruct (load_params_inv _ _ _ _ _ _ _ _ Hload Hnd) as (_ & Hall).
    destruct (Hall p Hin) as (v & tp & Hp & Hg & Hi).
    rewrite load_param_eq in Hp. rewrite Hparams.
    destruct (parse p "NEAT" parameters) as [v' | e] eqn:Hparse.
    - inversion Hp; subst. exact Hg.
    - destruct (default p) as [d |]; [| discriminate].
      destruct (Error_or_RuntimeError e) eqn:Hc; [| discriminate].
      inversion Hp; subst. split.
      + apply (parse_caught p parameters e Hkind Hparse) in Hc.
        destruct (get_raises _ _ _ _ Hn Hwf Hc) as [-> | (e' & He')].
        * rewrite Hlow. reflexivity.
        * rewrite He' in Hitems. discriminate.
      + exists v. split; [reflexivity |]. split; [exact Hg |].
        apply in_or_app. left. apply Hi. left. reflexivity. }
  split; [| split; [| split; [exact (fun self s' t H => proj2 (proj2 (Hsucc self s' t H))) |]]].
  - intros v Hv. rewrite load_param_eq, Hv. reflexivity.
  - intros d Hparse Hd. rewrite load_param_eq, Hparse, Hd. reflexivity.
  - split; [| split].
    + intros e Hparse Hbad.
      destruct (Config_init fs G R S T filename s) as [[[self | e'] s'] t] eqn:Hinit;
        [| eauto].
      exfalso. destruct (Hsucc self s' t eq_refl) as (_ & _ & Hs). rewrite Hparse in Hs.
      destruct Hs as (He & d & Hd & _).
      destruct Hbad as [Hbad | Hbad]; congruence.
    + intros Hn Habs.
      assert (Hparse : parse p "NEAT" parameters = Raise (Error (NoOptionError (name p) "NEAT"))).
      { apply (parse_get_Raise p parameters "NEAT" _ Hkind).
        rewrite (get_raw_option _ _ _ Hn), Hlow, Habs. reflexivity. }
      split; [exact Hparse |].
      rewrite load_param_eq, Hparse. destruct (default p); reflexivity.
    + intros raw Hraw.
      assert (Hn := raw_option_has_section _ _ _ _ Hraw).
      assert (Hget : get parameters "NEAT" (name p) = before_get parameters "NEAT" (name p) raw).
      { rewrite (get_raw_option _ _ _ Hn), Hlow, Hraw. reflexivity. }
      assert (Hbody : forall text,
                before_get parameters "NEAT" (name p) raw = Ok text ->
                malformed (value_type p) text = true ->
                exists e, Error_or_RuntimeError e = false /\
                          load_param p parameters s = (Raise e, s, [])).
      { intros text Hb Hm. rewrite Hb in Hget.
        assert (Ht := parse_text p parameters "NEAT" text Hkind Hget). rewrite Hm in Ht.
        destruct Ht as (e & Hparse & Hc). exists e. split; [exact Hc |].
        rewrite load_param_eq, Hparse, Hc. destruct (default p); reflexivity. }
      assert (Hgood : forall self s' t,
                Config_init fs G R S T filename s = (Ok self, s', t) ->
                exists text v,
                  before_get parameters "NEAT" (name p) raw = Ok text /\
                  malformed (value_type p) text = false /\
                  parse p "NEAT" parameters = Ok v /\
                  load_param p parameters s = (Ok v, s, []) /\
                  Py.get (params self) (name p) = Some v).
      { intros self s' t H. destruct (Hsucc self s' t H) as (_ & Hitems & Hs).
        destruct (before_get parameters "NEAT" (name p) raw) as [text | e] eqn:Hb.
        - assert (Ht := parse_text p parameters "NEAT" text Hkind Hget).
          destruct (malformed (value_type p) text) eqn:Hm.
          + exfalso. destruct Ht as (e & Hparse & Hc). rewrite Hparse in Hs.
            destruct Hs as (-> & _). discriminate.
          + destruct Ht as (v & Hparse). rewrite Hparse in Hs.
            exists text, v. repeat split; try assumption.
            rewrite load_param_eq, Hparse. reflexivity.
        - exfalso. destruct (raw_option_items _ _ _ _ _ Hwf Hraw Hb) as (e' & He').
          exact (Hitems e' He'). }
      split; [exact Hgood |]. split; [exact Hbody |].
      intros Hbad.
      destruct (Config_init fs G R S T filename s) as [[[self | e'] s'] t] eqn:Hinit;
        [| eauto].
      exfalso. destruct (Hgood self s' t eq_refl) as (text & v & Hb & Hm & _).
      destruct Hbad as [(e & He) | (text' & Hb' & Hm')]; congruence.
Qed.

End RootFacts.

(** ** Saving, and what is asked of the component types *)

Section SaveFacts.
Context {B : Builtins} {Ext : Type} {component : Type}.

Lemma loaded_params_shape (parameters : ConfigParser) (s : Ext) r s' t :
  load_params parameters Config_params [] [] s = (Ok r, s', t) ->
  exists v1 v2 v3 v4 v5,
    fst r = [("pop_size", v1); ("fitness_criterion", v2); ("fitness_threshold", v3);
             ("reset_on_extinction", v4); ("no_fitness_termination", v5)].
Proof.
  unfold Config_params. cbn [load_params]. intros H.
  apply bind_Ok_inv in H as (v1 & s1 & t1 & u1 & _ & H & _).
  apply bind_Ok_inv in H as (v2 & s2 & t2 & u2 & _ & H & _).
  apply bind_Ok_inv in H as (v3 & s3 & t3 & u3 & _ & H & _).
  apply bind_Ok_inv in H as (v4 & s4 & t4 & u4 & _ & H & _).
  apply bind_Ok_inv in H as (v5 & s5 & t5 & u5 & _ & H & _).
  inversion H; subst. exists v1, v2, v3, v4, v5. reflexivity.
Qed.

(** The lines of the [NEAT] section, for a configuration that holds the
    five global parameters. *)
Lemma neat_lines_written (v1 v2 v3 v4 v5 : value) (s : Ext) :
  write_pretty_params
    [("pop_size", v1); ("fitness_criterion", v2); ("fitness_threshold", v3);
     ("reset_on_extinction", v4); ("no_fitness_termination", v5)] Config_params s
  = (Ok tt, s, neat_lines v1 v2 v3 v4 v5).
Proof. reflexivity. Qed.

Lemma write_then {C} (text : string) (k : M (Ext := Ext) C) (s : Ext) :
  bind (write text) (fun _ => k) s =
    (let '(r, s2, t2) := k s in (r, s2, Wrote text :: t2)).
Proof. unfold bind, write. destruct (k s) as [[r s2] t2]. reflexivity. Qed.

Lemma call_write_config_Ok_inv (t : component_type (Ext := Ext) (component := component))
  (c : component) (s : Ext) u s' tr :
  call_write_config t c s = (Ok u, s', tr) -> write_config t <> None.
Proof. unfold call_write_config. destruct (write_config t); [discriminate | discriminate]. Qed.

Lemma save_Ok_inv (self : Config (Ext := Ext) (component := component)) (s : Ext) u s' t :
  save self s = (Ok u, s', t) ->
  write_config (genome_type self) <> None /\
  write_config (species_set_type self) <> None /\
  write_config (stagnation_type self) <> None /\
  write_config (reproduction_type self) <> None.
Proof.
  unfold save. intros H.
  apply bind_Ok_inv in H as (? & ? & ? & ? & _ & H & _).
  apply bind_Ok_inv in H as (? & ? & ? & ? & _ & H & _).
  apply bind_Ok_inv in H as (? & ? & ? & ? & _ & H & _).
  apply bind_Ok_inv in H as (? & ? & ? & ? & _ & H & _).
  apply bind_Ok_inv in H as (? & ? & ? & ? & _ & H & _).
  apply bind_Ok_inv in H as (? & ? & ? & ? & Hg & H & _).
  apply bind_Ok_inv in H as (? & ? & ? & ? & _ & H & _).
  apply bind_Ok_inv in H as (? & ? & ? & ? & Hs & H & _).
  apply bind_Ok_inv in H as (? & ? & ? & ? & _ & H & _).
  apply bind_Ok_inv in H as (? & ? & ? & ? & Ht & H & _).
  apply bind_Ok_inv in H as (? & ? & ? & ? & _ & Hr & _).
  repeat split; eapply call_write_config_Ok_inv; eassumption.
Qed.

Lemma outcome_bind {A A' V C} (f : A -> V) (f' : A' -> V) (m : M (Ext := Ext) C)
  (k : C -> M A) (k' : C -> M A') (s : Ext) :
  (forall c s1, outcome f (k c s1) = outcome f' (k' c s1)) ->
  outcome f (bind m k s) = outcome f' (bind m k' s).
Proof.
  intros H. unfold bind. destruct (m s) as [[[c | e] s1] t1]; [| reflexivity].
  specialize (H c s1).
  destruct (k c s1) as [[[a | e] s2] t2], (k' c s1) as [[[a' | e'] s2'] t2'];
    cbn in *; inversion H; reflexivity.
Qed.

(** Loading never looks at [write_config]. *)
Lemma Config_init_without_write_config (fs : FileSystem)
  (G R S T : component_type (Ext := Ext) (component := component)) filename (s : Ext) :
  outcome loaded_values (Config_init fs G R S T filename s) =
  outcome loaded_values
    (Config_init fs (without_write_config G) (without_write_config R)
       (without_write_config S) (without_write_config T) filename s).
Proof.
  unfold Config_init.
  change (hasattr_parse_config (without_write_config G)) with (hasattr_parse_config G).
  change (hasattr_parse_config (without_write_config R)) with (hasattr_parse_config R).
  change (hasattr_parse_config (without_write_config S)) with (hasattr_parse_config S).
  change (hasattr_parse_config (without_write_config T)) with (hasattr_parse_config T).
  change (parse_section ?p (without_write_config G)) with (parse_section p G).
  do 4 (apply outcome_bind; intros ? ?).
  destruct (negb (isfile fs filename)); [reflexivity |].
  apply outcome_bind; intros parameters ?.
  destruct (negb (has_section parameters "NEAT")); [reflexivity |].
  do 7 (apply outcome_bind; intros ? ?).
  reflexivity.
Qed.

(** The text that [save] writes before the component sections. *)
Lemma save_neat_section (self : Config (Ext := Ext) (component := component))
  (v1 v2 v3 v4 v5 : value) (s : Ext) :
  params self = [("pop_size", v1); ("fitness_criterion", v2); ("fitness_threshold", v3);
                 ("reset_on_extinction", v4); ("no_fitness_termination", v5)] ->
  save self s =
    (let '(r, s', t) :=
       (write (section_header (genome_type self)) ;;
        call_write_config (genome_type self) (genome_config self) ;;
        write (section_header (species_set_type self)) ;;
        call_write_config (species_set_type self) (species_set_config self) ;;
        write (section_header (stagnation_type self)) ;;
        call_write_config (stagnation_type self) (stagnation_config self) ;;
        write (section_header (reproduction_type self)) ;;
        call_write_config (reproduction_type self) (reproduction_config self)) s in
     (r, s',
      ([Wrote ("# The `NEAT` section specifies parameters particular to the NEAT algorithm"
               ++ nl);
        Wrote ("# or the experiment itself.  This is the only required section." ++ nl);
        Wrote ("[NEAT]" ++ nl)] ++ neat_lines v1 v2 v3 v4 v5 ++ t)%list)).
Proof.
  intros Hp. unfold save. rewrite !write_then, Hp.
  rewrite (bind_Ok _ _ _ _ _ _ (neat_lines_written v1 v2 v3 v4 v5 s)).
  rewrite !write_then.
  match goal with |- context [bind ?m ?k s] => destruct (bind m k s) as [[r s'] t] end.
  reflexivity.
Qed.

(** C5, as far as it holds: for a configuration that was loaded, [save]
    writes the two comment lines, the [NEAT] header and the five global
    parameters, and then, each after a blank line and a header with the
    name of its type, the sections of the genome type, the species set
    type, the stagnation type and the reproduction type, in this order:
    the first, third, fourth and second arguments of the constructor. *)
Theorem save_layout (fs : FileSystem)
  (G R S T : component_type (Ext := Ext) (component := component)) (filename : string)
  (s0 s1 : Ext) (t0 : list effect) (self : Config (Ext := Ext) (component := component))
  (wg ws wt wr : component -> M (Ext := Ext) unit)
  (s sg ss st sr : Ext) (tg ts tt' tr : list effect) :
  Config_init fs G R S T filename s0 = (Ok self, s1, t0) ->
  write_config G = Some wg ->
  write_config S = Some ws ->
  write_config T = Some wt ->
  write_config R = Some wr ->
  wg (genome_config self) s = (Ok tt, sg, tg) ->
  ws (species_set_config self) sg = (Ok tt, ss, ts) ->
  wt (stagnation_config self) ss = (Ok tt, st, tt') ->
  wr (reproduction_config self) st = (Ok tt, sr, tr) ->
  exists v1 v2 v3 v4 v5,
    params self = [("pop_size", v1); ("fitness_criterion", v2); ("fitness_threshold", v3);
                   ("reset_on_extinction", v4); ("no_fitness_termination", v5)] /\
    save self s =
      (Ok tt, sr,
       ([Wrote ("# The `NEAT` section specifies parameters particular to the NEAT algorithm"
                ++ nl);
         Wrote ("# or the experiment itself.  This is the only required section." ++ nl);
         Wrote ("[NEAT]" ++ nl)]
        ++ neat_lines v1 v2 v3 v4 v5
        ++ Wrote (nl ++ "[" ++ __name__ G ++ "]" ++ nl) :: tg
        ++ Wrote (nl ++ "[" ++ __name__ S ++ "]" ++ nl) :: ts
        ++ Wrote (nl ++ "[" ++ __name__ T ++ "]" ++ nl) :: tt'
        ++ Wrote (nl ++ "[" ++ __name__ R ++ "]" ++ nl) :: tr)%list) /\
    section_order self = [G; S; T; R] /\
    constructor_order self = [G; R; S; T].
Proof.
  intros Hload HG HS HT HR Hg Hs Ht Hr.
  apply Config_init_Ok_inv in Hload
    as (parameters & r & s2 & t1 & neat_items & t2 & _ & _ & _ & _ & _ & _ & _
        & Hl & _ & _ & _ & Hparams & EG & ER & ES & ET).
  destruct (loaded_params_shape _ _ _ _ _ Hl) as (v1 & v2 & v3 & v4 & v5 & Hshape).
  rewrite <- Hparams in Hshape.
  exists v1, v2, v3, v4, v5. split; [exact Hshape |]. split.
  - rewrite (save_neat_section self v1 v2 v3 v4 v5 s Hshape).
    rewrite !write_then. unfold call_write_config.
    rewrite EG, ES, ET, ER, HG, HS, HT, HR.
    rewrite (bind_Ok _ _ _ _ _ _ Hg), write_then.
    rewrite (bind_Ok _ _ _ _ _ _ Hs), write_then.
    rewrite (bind_Ok _ _ _ _ _ _ Ht), write_then.
    rewrite Hr. unfold section_header. reflexivity.
  - unfold section_order, constructor_order. rewrite EG, ER, ES, ET. auto.
Qed.

(** C9: the constructor asserts [parse_config] on the four types and
    nothing else of them: when one lacks it, the constructor raises
    [AssertionError] whatever the files are, with no other effect;
    [write_config] plays no part in loading; a [save] that succeeds has
    found [write_config] on all four types; and on a loaded configuration
    whose genome type lacks it, [save] raises [AttributeError] once the
    [NEAT] section and the genome header are written. *)
Theorem parse_config_asserted_only (fs : FileSystem)
  (G R S T : component_type (Ext := Ext) (component := component)) (filename : string)
  (s : Ext) :
  (hasattr_parse_config G && hasattr_parse_config R
   && hasattr_parse_config S && hasattr_parse_config T = false ->
   forall fs' filename',
     Config_init fs' G R S T filename' s = (Raise AssertionError, s, [])) /\
  outcome loaded_values (Config_init fs G R S T filename s) =
    outcome loaded_values
      (Config_init fs (without_write_config G) (without_write_config R)
         (without_write_config S) (without_write_config T) filename s) /\
  (forall (self : Config (Ext := Ext) (component := component)) u s2 s2' t2,
     save self s2 = (Ok u, s2', t2) ->
     write_config (genome_type self) <> None /\
     write_config (species_set_type self) <> None /\
     write_config (stagnation_type self) <> None /\
     write_config (reproduction_type self) <> None) /\
  (forall self s1 t1 s2,
     Config_init fs G R S T filename s = (Ok self, s1, t1) ->
     write_config G = None ->
     exists v1 v2 v3 v4 v5,
       params self = [("pop_size", v1); ("fitness_criterion", v2); ("fitness_threshold", v3);
                      ("reset_on_extinction", v4); ("no_fitness_termination", v5)] /\
       save self s2 =
         (Raise (AttributeError "write_config"), s2,
          ([Wrote ("# The `NEAT` section specifies parameters particular to the NEAT algorithm"
                   ++ nl);
            Wrote ("# or the experiment itself.  This is the only required section." ++ nl);
            Wrote ("[NEAT]" ++ nl)]
           ++ neat_lines v1 v2 v3 v4 v5
           ++ [Wrote (nl ++ "[" ++ __name__ G ++ "]" ++ nl)])%list)).
Proof.
  split; [| split; [| split]].
  - intros H fs' filename'. unfold Config_init.
    destruct (hasattr_parse_config G); [| reflexivity]. rewrite bind_assert_true.
    destruct (hasattr_parse_config R); [| reflexivity]. rewrite bind_assert_true.
    destruct (hasattr_parse_config S); [| reflexivity]. rewrite bind_assert_true.
    destruct (hasattr_parse_config T); [discriminate | reflexivity].
  - apply Config_init_without_write_config.
  - intros self u s2 s2' t2. apply save_Ok_inv.
  - intros self s1 t1 s2 Hload HG.
    apply Config_init_Ok_inv in Hload
      as (parameters & r & s3 & t3 & neat_items & t4 & _ & _ & _ & _ & _ & _ & _
          & Hl & _ & _ & _ & Hparams & EG & _).
    destruct (loaded_params_shape _ _ _ _ _ Hl) as (v1 & v2 & v3 & v4 & v5 & Hshape).
    rewrite <- Hparams in Hshape.
    exists v1, v2, v3, v4, v5. split; [exact Hshape |].
    rewrite (save_neat_section self v1 v2 v3 v4 v5 s2 Hshape).
    rewrite write_then. unfold call_write_config at 1. rewrite EG, HG.
    reflexivity.
Qed.

End SaveFacts.

(** ** The definitions run on the sample inputs *)

Section Runs.
Import sample.

Example split_abc : Py.split " " "a b c" = ["a"; "b"; "c"].
Proof. reflexivity. Qed.

Example split_double_space : Py.split " " "a  b" = ["a"; ""; "b"].
Proof. reflexivity. Qed.

Example sort_names :
  Py.sort ["pop_size"; "fitness_criterion"; "Zed"] = ["Zed"; "fitness_criterion"; "pop_size"].
Proof. reflexivity. Qed.

Example load_sample :
  load neat_section tt =
    (Ok loaded, tt,
     [Warned DeprecationWarning "Using default False for 'no_fitness_termination'"]).
Proof. reflexivity. Qed.

Example save_sample_text :
  written (snd (save loaded tt)) =
    "# The `NEAT` section specifies parameters particular to the NEAT algorithm" ++ nl ++
    "# or the experiment itself.  This is the only required section." ++ nl ++
    "[NEAT]" ++ nl ++
    "fitness_criterion      = max" ++ nl ++
    "fitness_threshold      = 3.0" ++ nl ++
    "no_fitness_termination = False" ++ nl ++
    "pop_size               = 150" ++ nl ++
    "reset_on_extinction    = False" ++ nl ++
    nl ++ "[Genome]" ++ nl ++ "made_by = Genome" ++ nl ++
    nl ++ "[SpeciesSet]" ++ nl ++ "made_by = SpeciesSet" ++ nl ++
    nl ++ "[Stagnation]" ++ nl ++ "made_by = Stagnation" ++ nl ++
    nl ++ "[Reproduction]" ++ nl ++ "made_by = Reproduction" ++ nl /\
  warnings_of (snd (save loaded tt)) = [].
Proof. split; reflexivity. Qed.

Example load_missing_file :
  Config_init (B := builtins) no_files (simple_type "Genome") (simple_type "Reproduction")
    (simple_type "SpeciesSet") (simple_type "Stagnation") "config" tt
  = (Raise (Exception_ "No such config file: /config"), tt, []).
Proof. reflexivity. Qed.

Example load_malformed_boolean :
  load (("no_fitness_termination", "maybe") :: neat_section) tt
  = (Raise (ValueError "Not a boolean: maybe"), tt, []).
Proof. reflexivity. Qed.

(** A value that interpolation rejects: the handler of the loop takes the
    default and warns, and then [items] raises the same error. *)
Example load_rejected_by_interpolation :
  Config_init (B := builtins) (files_of parser_with_percent)
    (simple_type "Genome") (simple_type "Reproduction")
    (simple_type "SpeciesSet") (simple_type "Stagnation") "config" tt
  = (Raise (Error (InterpolationError "no_fitness_termination" "NEAT"
                     "'%' must be followed by '%' or '(', found: '%'")), tt,
     [Warned DeprecationWarning "Using default False for 'no_fitness_termination'"]).
Proof. reflexivity. Qed.

Example interpret_bool_mixed_case :
  interpret (Ext := unit) (flag bool_ None) [("reset_on_extinction", "TrUe")] tt
  = (Ok (VBool true), tt, []).
Proof. reflexivity. Qed.

Example interpret_default_coerced :
  interpret (Ext := unit) (flag bool_ (Some (VStr "false"))) [] tt
  = (Ok (VBool false), tt,
     [Warned DeprecationWarning "Using default 'false' for 'reset_on_extinction'"]).
Proof. reflexivity. Qed.

(** C2 at the literals [True], [true], [False], [false] and [maybe]. *)
Lemma interpret_bool_literal_witness :
  interpret (Ext := unit) (flag bool_ None) [("reset_on_extinction", "True")] tt
    = (Ok (VBool true), tt, []) /\
  interpret (Ext := unit) (flag bool_ None) [("reset_on_extinction", "true")] tt
    = (Ok (VBool true), tt, []) /\
  interpret (Ext := unit) (flag bool_ None) [("reset_on_extinction", "False")] tt
    = (Ok (VBool false), tt, []) /\
  interpret (Ext := unit) (flag bool_ None) [("reset_on_extinction", "false")] tt
    = (Ok (VBool false), tt, []) /\
  interpret_try (flag bool_ None) (VStr "maybe")
    = Raise (RuntimeError "reset_on_extinction must be True or False") /\
  interpret (Ext := unit) (flag bool_ None) [("reset_on_extinction", "maybe")] tt
    = (Raise (RuntimeError
         "Error interpreting config item 'reset_on_extinction' with value 'maybe' and type <class 'bool'>"),
       tt, []).
Proof.
  split; [| split; [| split; [| split; [| split]]]].
  - exact (proj1 (interpret_bool_literal (Ext := unit) (flag bool_ None)
                    [("reset_on_extinction", "True")] "True" tt eq_refl eq_refl)).
  - exact (proj1 (interpret_bool_literal (Ext := unit) (flag bool_ None)
                    [("reset_on_extinction", "true")] "true" tt eq_refl eq_refl)).
  - exact (proj1 (interpret_bool_literal (Ext := unit) (flag bool_ None)
                    [("reset_on_extinction", "False")] "False" tt eq_refl eq_refl)).
  - exact (proj1 (interpret_bool_literal (Ext := unit) (flag bool_ None)
                    [("reset_on_extinction", "false")] "false" tt eq_refl eq_refl)).
  - refine (proj1 (proj2 (interpret_bool_literal (Ext := unit) (flag bool_ None)
                    [("reset_on_extinction", "maybe")] "maybe" tt eq_refl eq_refl) _ _));
      discriminate.
  - exact (proj1 (interpret_bool_literal (Ext := unit) (flag bool_ None)
                    [("reset_on_extinction", "maybe")] "maybe" tt eq_refl eq_refl)).
Defined.

(** C1 at the parameter [no_fitness_termination] of [Config], absent from
    an empty mapping. *)
Lemma interpret_absent_witness :
  Py.get (V := string) [] (name no_fitness_termination) = None /\
  well_kinded no_fitness_termination = true /\
  interpret (Ext := unit) no_fitness_termination [] tt =
    (Ok (VBool false), tt,
     [Warned DeprecationWarning "Using default False for 'no_fitness_termination'"]).
Proof.
  split; [reflexivity |]. split; [reflexivity |].
  exact (interpret_absent (B := builtins) no_fitness_termination [] tt eq_refl eq_refl).
Defined.

(** C7 at an empty list: it is formatted as the empty string, which is
    interpreted as the list holding one empty token. *)
Lemma empty_list_round_trip :
  format (flag list_ None) (VList []) = Ok "" /\
  interpret (Ext := unit) (flag list_ None) [("reset_on_extinction", "")] tt
    = (Ok (VList [""]), tt, []) /\
  VList (B := builtins) [""] <> VList [].
Proof. repeat split; try reflexivity. discriminate. Qed.

(** C7 at the list [a; b; c]. *)
Lemma list_round_trip_witness :
  value_type (flag list_ None) = list_ /\
  ["a"; "b"; "c"] <> [] /\
  Forall (fun tok => Py.contains " " tok = false) ["a"; "b"; "c"] /\
  Py.get [("reset_on_extinction", "a b c")] (name (flag list_ None)) = Some (Py.join " " ["a"; "b"; "c"]) /\
  interpret (Ext := unit) (flag list_ None) [("reset_on_extinction", "a b c")] tt
    = (Ok (VList ["a"; "b"; "c"]), tt, []).
Proof.
  assert (H1 : value_type (flag list_ None) = list_) by reflexivity.
  assert (H2 : ["a"; "b"; "c"] <> []) by discriminate.
  assert (H3 : Forall (fun tok => Py.contains " " tok = false) ["a"; "b"; "c"])
    by (repeat constructor).
  repeat (split; [assumption || reflexivity |]).
  exact (proj2 (proj2 (proj2 (proj2 (proj2
    (list_round_trip (Ext := unit) (flag list_ None) [("reset_on_extinction", "a b c")]
       ["a"; "b"; "c"] tt H1 H2 H3 eq_refl)))))).
Defined.

(** C6 at two parameters [a] and [bb]: the spaces that bring [a] to the
    length of [bb] follow the name; they do not precede it. *)
Lemma names_not_left_padded :
  write_pretty_params (Ext := unit) two_values two_params tt =
    (Ok tt, tt, [Wrote (right_padded_line 2 "a" "1"); Wrote (right_padded_line 2 "bb" "2")]) /\
  right_padded_line 2 "a" "1" = "a  = 1" ++ nl /\
  left_padded_line 2 "a" "1" = " a = 1" ++ nl /\
  write_pretty_params (Ext := unit) two_values two_params tt <>
    (Ok tt, tt, [Wrote (left_padded_line 2 "a" "1"); Wrote (left_padded_line 2 "bb" "2")]).
Proof. repeat split; try reflexivity. discriminate. Qed.

(** C6 at the same two parameters. *)
Lemma write_pretty_params_lines_witness :
  two_params <> [] /\
  NoDup (map name two_params) /\
  (forall p, In p two_params -> formatted two_values p = Ok (two_texts (name p))) /\
  write_pretty_params (Ext := unit) two_values two_params tt =
    (Ok tt, tt, [Wrote ("a  = 1" ++ nl); Wrote ("bb = 2" ++ nl)]).
Proof.
  assert (H1 : two_params <> []) by discriminate.
  assert (H2 : NoDup (map name two_params)).
  { cbn. repeat constructor; cbn; intuition discriminate. }
  assert (H3 : forall p, In p two_params -> formatted two_values p = Ok (two_texts (name p))).
  { intros p [<- | [<- | []]]; reflexivity. }
  repeat (split; [assumption |]).
  destruct (write_pretty_params_lines (Ext := unit) two_values two_params two_texts tt H1 H2 H3)
    as (w & Hmax & _ & _ & _ & _ & Hout & _).
  cbn in Hmax. injection Hmax as <-. exact Hout.
Defined.



(** C5 at [Config(Genome, Reproduction, SpeciesSet, Stagnation,
    'config')]: the sections are written in the order [Genome],
    [SpeciesSet], [Stagnation], [Reproduction], which is not the order of
    the constructor's arguments. *)
Lemma sections_not_in_constructor_order :
  load neat_section tt =
    (Ok loaded, tt,
     [Warned DeprecationWarning "Using default False for 'no_fitness_termination'"]) /\
  map (fun t => __name__ t) (constructor_order loaded)
    = ["Genome"; "Reproduction"; "SpeciesSet"; "Stagnation"] /\
  headers_written (snd (save loaded tt))
    = [nl ++ "[Genome]" ++ nl; nl ++ "[SpeciesSet]" ++ nl;
       nl ++ "[Stagnation]" ++ nl; nl ++ "[Reproduction]" ++ nl] /\
  headers_written (snd (save loaded tt)) <> map section_header (constructor_order loaded).
Proof. repeat split; try reflexivity. discriminate. Qed.

(** C5 at the same configuration. *)
Lemma save_layout_witness :
  load neat_section tt =
    (Ok loaded, tt,
     [Warned DeprecationWarning "Using default False for 'no_fitness_termination'"]) /\
  save loaded tt =
    (Ok tt, tt,
     [Wrote ("# The `NEAT` section specifies parameters particular to the NEAT algorithm"
             ++ nl);
      Wrote ("# or the experiment itself.  This is the only required section." ++ nl);
      Wrote ("[NEAT]" ++ nl);
      Wrote ("fitness_criterion      = max" ++ nl);
      Wrote ("fitness_threshold      = 3.0" ++ nl);
      Wrote ("no_fitness_termination = False" ++ nl);
      Wrote ("pop_size               = 150" ++ nl);
      Wrote ("reset_on_extinction    = False" ++ nl);
      Wrote (nl ++ "[Genome]" ++ nl); Wrote ("made_by = Genome" ++ nl);
      Wrote (nl ++ "[SpeciesSet]" ++ nl); Wrote ("made_by = SpeciesSet" ++ nl);
      Wrote (nl ++ "[Stagnation]" ++ nl); Wrote ("made_by = Stagnation" ++ nl);
      Wrote (nl ++ "[Reproduction]" ++ nl); Wrote ("made_by = Reproduction" ++ nl)]).
Proof.
  split; [reflexivity |].
  destruct (save_layout (B := builtins) (files_of (parser_of neat_section))
              (simple_type "Genome") (simple_type "Reproduction")
              (simple_type "SpeciesSet") (simple_type "Stagnation") "config"
              tt tt _ loaded
              (fun c => write ("made_by = " ++ c ++ nl))
              (fun c => write ("made_by = " ++ c ++ nl))
              (fun c => write ("made_by = " ++ c ++ nl))
              (fun c => write ("made_by = " ++ c ++ nl))
              tt tt tt tt tt _ _ _ _
              eq_refl eq_refl eq_refl eq_refl eq_refl eq_refl eq_refl eq_refl eq_refl)
    as (v1 & v2 & v3 & v4 & v5 & Hparams & Hsave & _).
  injection Hparams as <- <- <- <- <-. exact Hsave.
Defined.

(** C4 at the sample file, where [no_fitness_termination] is missing and
    gets its default, and at the file that holds
    [no_fitness_termination = maybe], which is not loaded. *)
Lemma default_only_when_missing_witness :
  (read_file (files_of (parser_of neat_section)) "config" = Ok (parser_of neat_section) /\
   sections_are_dicts (parser_of neat_section) /\
   In no_fitness_termination Config_params /\
   parse no_fitness_termination "NEAT" (parser_of neat_section)
     = Raise (Error (NoOptionError "no_fitness_termination" "NEAT")) /\
   exists d, default no_fitness_termination = Some d /\
             Py.get (params loaded) "no_fitness_termination" = Some d /\
             In (Warned DeprecationWarning
                   ("Using default " ++ repr d ++ " for 'no_fitness_termination'"))
                [Warned DeprecationWarning "Using default False for 'no_fitness_termination'"]) /\
  (raw_option (parser_of neat_section) "NEAT" "no_fitness_termination" = None /\
   load_param (Ext := unit) no_fitness_termination (parser_of neat_section) tt =
     (Ok (VBool false), tt,
      [Warned DeprecationWarning "Using default False for 'no_fitness_termination'"])) /\
  (sections_are_dicts (parser_of neat_section_maybe) /\
   raw_option (parser_of neat_section_maybe) "NEAT" "no_fitness_termination" = Some "maybe" /\
   malformed (B := builtins) bool_ "maybe" = true /\
   (exists e, Error_or_RuntimeError e = false /\
              load_param (Ext := unit) no_fitness_termination (parser_of neat_section_maybe) tt
                = (Raise e, tt, [])) /\
   exists e' s' t, load neat_section_maybe tt = (Raise e', s', t)).
Proof.
  assert (H1 : sections_are_dicts (parser_of neat_section)).
  { unfold sections_are_dicts. cbn.
    repeat constructor; cbn; intuition discriminate. }
  assert (H2 : In no_fitness_termination Config_params).
  { do 4 right. left. reflexivity. }
  assert (H3 : sections_are_dicts (parser_of neat_section_maybe)).
  { unfold sections_are_dicts. cbn.
    repeat constructor; cbn; intuition discriminate. }
  destruct (default_only_when_missing (B := builtins) (files_of (parser_of neat_section))
              (simple_type "Genome") (simple_type "Reproduction")
              (simple_type "SpeciesSet") (simple_type "Stagnation") "config"
              (parser_of neat_section) no_fitness_termination tt eq_refl H1 H2)
    as (_ & _ & Hloaded & _ & Habsent & _).
  destruct (default_only_when_missing (B := builtins) (files_of (parser_of neat_section_maybe))
              (simple_type "Genome") (simple_type "Reproduction")
              (simple_type "SpeciesSet") (simple_type "Stagnation") "config"
              (parser_of neat_section_maybe) no_fitness_termination tt eq_refl H3 H2)
    as (_ & _ & _ & _ & _ & Hpresent).
  destruct (Hpresent "maybe" eq_refl) as (_ & Hbody & Hfails).
  split; [| split].
  - split; [reflexivity |]. split; [exact H1 |]. split; [exact H2 |]. split; [reflexivity |].
    exact (proj2 (Hloaded loaded tt _ eq_refl)).
  - split; [reflexivity |]. exact (proj2 (Habsent eq_refl eq_refl)).
  - split; [exact H3 |]. split; [reflexivity |]. split; [reflexivity |].
    split; [exact (Hbody "maybe" eq_refl eq_refl) |].
    apply Hfails. right. exists "maybe". split; reflexivity.
Defined.

(** C9 at a reproduction type without [parse_config], and at a genome
    type without [write_config]. *)
Lemma parse_config_asserted_only_witness :
  Config_init (B := builtins) no_files (simple_type "Genome") (write_only_type "Reproduction")
    (simple_type "SpeciesSet") (simple_type "Stagnation") "config" tt
  = (Raise AssertionError, tt, []) /\
  load_read_only tt =
    (Ok loaded_read_only, tt,
     [Warned DeprecationWarning "Using default False for 'no_fitness_termination'"]) /\
  save loaded_read_only tt =
    (Raise (AttributeError "write_config"), tt,
     [Wrote ("# The `NEAT` section specifies parameters particular to the NEAT algorithm"
             ++ nl);
      Wrote ("# or the experiment itself.  This is the only required section." ++ nl);
      Wrote ("[NEAT]" ++ nl);
      Wrote ("fitness_criterion      = max" ++ nl);
      Wrote ("fitness_threshold      = 3.0" ++ nl);
      Wrote ("no_fitness_termination = False" ++ nl);
      Wrote ("pop_size               = 150" ++ nl);
      Wrote ("reset_on_extinction    = False" ++ nl);
      Wrote (nl ++ "[Genome]" ++ nl)]).
Proof.
  split; [| split; [reflexivity |]].
  - exact (proj1 (parse_config_asserted_only (B := builtins)
                    (files_of (parser_of neat_section))
                    (simple_type "Genome") (write_only_type "Reproduction")
                    (simple_type "SpeciesSet") (simple_type "Stagnation") "config" tt)
             eq_refl no_files "config").
  - destruct (proj2 (proj2 (proj2 (parse_config_asserted_only (B := builtins)
                    (files_of (parser_of neat_section))
                    (read_only_type "Genome") (simple_type "Reproduction")
                    (simple_type "SpeciesSet") (simple_type "Stagnation") "config" tt)))
                loaded_read_only tt _ tt eq_refl eq_refl)
      as (v1 & v2 & v3 & v4 & v5 & Hparams & Hsave).
    injection Hparams as <- <- <- <- <-. exact Hsave.
Defined.

(** C8 at the name [sum] and at an unknown name. *)
Example getitem_sum :
  aggregations.__getitem__ (B := builtins)
    {| aggregations.multiparameterset := one_function_set |} "sum" tt
  = (Ok "sum_aggregation", tt,
     [Warned DeprecationWarning "Use get, not indexing (['sum']), for aggregation functions"]) /\
  aggregations.__getitem__ (B := builtins)
    {| aggregations.multiparameterset := one_function_set |} "nope" tt
  = (Raise (Raised "InvalidAggregationFunction" "nope"), tt,
     [Warned DeprecationWarning "Use get, not indexing (['nope']), for aggregation functions"]).
Proof. split; reflexivity. Qed.

End Runs.

(** * Further properties of the code *)

(** ** [interpret], [format] and [cast] *)

Section InterpretMore.
Context {B : Builtins} {Ext : Type}.

Lemma join_cons_String (sep : string) (c : ascii) (h : string) (t : list string) :
  Py.join sep (String c h :: t) = String c (Py.join sep (h :: t)).
Proof. destruct t; reflexivity. Qed.

(** Joining the pieces of a split gives the string back. *)
Lemma join_split (sep : ascii) (s : string) :
  Py.join (String sep "") (Py.split sep s) = s.
Proof.
  induction s as [| c r IH]; [reflexivity |].
  cbn [Py.split]. destruct (Ascii.eqb c sep) eqn:Hc.
  - apply Ascii.eqb_eq in Hc. subst c.
    destruct (Py.split sep r) as [| h t] eqn:Hs; [exfalso; eapply split_nonempty; eassumption |].
    change (Py.join (String sep "") ("" :: h :: t))
      with (String sep (Py.join (String sep "") (h :: t))).
    rewrite IH. reflexivity.
  - destruct (Py.split sep r) as [| h t] eqn:Hs; [exfalso; eapply split_nonempty; eassumption |].
    rewrite join_cons_String, IH. reflexivity.
Qed.

Lemma interpret_value_pure (p : ConfigParameter) (v : value) (s : Ext) :
  interpret_value p v s =
    (fst (fst (interpret_value p v s)), s, []).
Proof.
  unfold interpret_value. destruct (interpret_try p v) as [[r |] | e]; reflexivity.
Qed.

Lemma interpret_value_kind (p : ConfigParameter) (v0 v : value) (s s' : Ext) t :
  interpret_value p v0 s = (Ok v, s', t) -> isinstance v (value_type p) = true.
Proof.
  unfold interpret_value, interpret_try.
  destruct (value_type p) eqn:Ht.
  - intros H. inversion H. reflexivity.
  - destruct (int v0); intros H; inversion H. reflexivity.
  - destruct v0; try (intros H; discriminate H).
    destruct (String.eqb (Py.lower s0) "true"); [intros H; inversion H; reflexivity |].
    destruct (String.eqb (Py.lower s0) "false"); intros H; inversion H. reflexivity.
  - destruct (to_float v0); intros H; inversion H. reflexivity.
  - destruct v0; intros H; inversion H. reflexivity.
  - intros H. discriminate H.
Qed.

Lemma interpret_Ok_isinstance (p : ConfigParameter) (config_dict : list (string * string))
  (s s' : Ext) (v : value) (t : list effect) :
  interpret p config_dict s = (Ok v, s', t) -> isinstance v (value_type p) = true.
Proof.
  intros H. unfold interpret in H.
  destruct (Py.get config_dict (name p)) as [raw |].
  - eapply interpret_value_kind; exact H.
  - destruct (default p) as [d |]; [| discriminate].
    apply bind_Ok_inv in H as ([] & s1 & t1 & t2 & _ & H & _).
    destruct (negb (pytype_eqb str_ (value_type p)) && isinstance d (value_type p)) eqn:Hc.
    + apply andb_true_iff in Hc as [_ Hc]. inversion H; subst. exact Hc.
    + eapply interpret_value_kind; exact H.
Qed.

Lemma format_isinstance (p : ConfigParameter) (v : value) :
  isinstance v (value_type p) = true -> exists text, format p v = Ok text.
Proof.
  intros Hk. unfold format, cast_list.
  destruct (value_type p); destruct v; try discriminate Hk; cbn; eauto.
Qed.

Lemma interpret_shape (p : ConfigParameter) (config_dict : list (string * string)) (s : Ext) :
  interpret p config_dict s =
    (fst (fst (interpret p config_dict s)), s, snd (interpret p config_dict s)).
Proof.
  unfold interpret.
  destruct (Py.get config_dict (name p)) as [raw |].
  - rewrite interpret_value_pure. reflexivity.
  - destruct (default p) as [d |]; [| reflexivity].
    unfold bind, warn.
    destruct (negb (pytype_eqb str_ (value_type p)) && isinstance d (value_type p)).
    + reflexivity.
    + rewrite interpret_value_pure. reflexivity.
Qed.

(** X1: whatever [interpret] returns is a value of the declared kind,
    also when it comes from a default given in another form, and
    [format] accepts it. *)
Theorem interpret_returns_kind (p : ConfigParameter) (config_dict : list (string * string))
  (s s' : Ext) (v : value) (t : list effect) :
  interpret p config_dict s = (Ok v, s', t) ->
  isinstance v (value_type p) = true /\
  exists text, format p v = Ok text.
Proof.
  intros H. assert (Hk := interpret_Ok_isinstance _ _ _ _ _ _ H).
  split; [exact Hk | apply format_isinstance, Hk].
Qed.

(** X2: [interpret] leaves the state as it is and writes nothing; it
    warns exactly when the name is absent and there is a default, once,
    whether or not the default can then be converted. *)
Theorem interpret_effects (p : ConfigParameter) (config_dict : list (string * string)) (s : Ext) :
  snd (fst (interpret p config_dict s)) = s /\
  snd (interpret p config_dict s) =
    match Py.get config_dict (name p), default p with
    | None, Some d =>
        [Warned DeprecationWarning ("Using default " ++ repr d ++ " for '" ++ name p ++ "'")]
    | _, _ => []
    end.
Proof.
  unfold interpret.
  destruct (Py.get config_dict (name p)) as [raw |].
  - rewrite interpret_value_pure. split; reflexivity.
  - destruct (default p) as [d |]; [| split; reflexivity].
    unfold bind, warn.
    destruct (negb (pytype_eqb str_ (value_type p)) && isinstance d (value_type p)).
    + split; reflexivity.
    + rewrite interpret_value_pure. split; reflexivity.
Qed.

(** X3: for the kinds [bool] and [str], interpreting the formatted text
    of a value of the kind gives the value back. *)
Theorem format_then_interpret (p : ConfigParameter) (v : value)
  (config_dict : list (string * string)) (text : string) (s : Ext) :
  value_type p = bool_ \/ value_type p = str_ ->
  isinstance v (value_type p) = true ->
  format p v = Ok text ->
  Py.get config_dict (name p) = Some text ->
  interpret p config_dict s = (Ok v, s, []).
Proof.
  intros Hk Hi Hf Hg. rewrite (interpret_present _ _ _ _ Hg).
  unfold format in Hf. unfold interpret_value, interpret_try.
  destruct Hk as [Hk | Hk]; rewrite Hk in *; cbn in Hf; inversion Hf; subst;
    destruct v; try discriminate Hi; [destruct b |]; reflexivity.
Qed.

(** X4: for the kinds [str] and [list], formatting what [interpret]
    makes of a raw value gives the raw value back, whatever it is. *)
Theorem interpret_then_format (p : ConfigParameter) (config_dict : list (string * string))
  (raw : string) (s : Ext) :
  value_type p = str_ \/ value_type p = list_ ->
  Py.get config_dict (name p) = Some raw ->
  exists v, interpret p config_dict s = (Ok v, s, []) /\ format p v = Ok raw.
Proof.
  intros Hk Hg. rewrite (interpret_present _ _ _ _ Hg).
  unfold interpret_value, interpret_try, format.
  destruct Hk as [Hk | Hk]; rewrite Hk; cbn.
  - eexists. split; reflexivity.
  - eexists. split; [reflexivity |]. cbn. f_equal. apply (join_split " " raw).
Qed.

(** X5: [format] fails only for a [list] descriptor given a value that
    is not a list, with the [AssertionError] of [cast]; otherwise it
    joins the list with spaces, or gives [str] of the value.  [cast]
    itself returns its argument unchanged or raises [AssertionError]. *)
Theorem format_cases (p : ConfigParameter) (v : value) :
  match format p v with
  | Ok text =>
      (value_type p = list_ -> exists l, v = VList l /\ text = Py.join " " l) /\
      (value_type p <> list_ -> text = str v)
  | Raise e =>
      e = AssertionError /\ value_type p = list_ /\ isinstance v list_ = false
  end /\
  cast_list v = mypy_util.cast (Some list_) v /\
  (forall t r, mypy_util.cast t v = Ok r -> r = v) /\
  (forall t e, mypy_util.cast t v = Raise e ->
     e = AssertionError /\ exists k, t = Some k /\ isinstance v k = false).
Proof.
  split; [| split; [reflexivity | split]].
  - unfold format, cast_list.
    destruct (value_type p) eqn:Ht; cbn; try (split; [discriminate | reflexivity]).
    destruct v; cbn; try (repeat split; reflexivity).
    split; [eauto | congruence].
  - intros t r. unfold mypy_util.cast. destruct t as [k |]; [| congruence].
    destruct (isinstance v k); congruence.
  - intros t e. unfold mypy_util.cast. destruct t as [k |]; [| discriminate].
    destruct (isinstance v k) eqn:Hi; [discriminate |].
    intros H. inversion H. eauto.
Qed.

(** X6: a [list] parameter that is present is never the empty list: the
    empty raw value gives the list that holds one empty string. *)
Theorem list_never_empty (p : ConfigParameter) (config_dict : list (string * string))
  (raw : string) (s : Ext) :
  value_type p = list_ ->
  Py.get config_dict (name p) = Some raw ->
  exists l, interpret p config_dict s = (Ok (VList l), s, []) /\ l <> [] /\
            (raw = "" -> l = [""]).
Proof.
  intros Hk Hg. rewrite (interpret_present _ _ _ _ Hg).
  unfold interpret_value, interpret_try. rewrite Hk.
  exists (Py.split " " raw). split; [reflexivity |]. split; [apply split_nonempty |].
  intros ->. reflexivity.
Qed.

End InterpretMore.

(** ** [parse] and the two ways of reading a parameter *)

Section ParseMore.
Context {B : Builtins} {Ext : Type}.

Lemma get_None_notin {V} (d : list (string * V)) (k : string) :
  Py.get d k = None -> ~ In k (map fst d).
Proof.
  induction d as [| [k0 v0] r IH]; cbn; [tauto |].
  destruct (String.eqb k k0) eqn:Hk; [discriminate |].
  apply String.eqb_neq in Hk. intros Hg [H | H]; [congruence | exact (IH Hg H)].
Qed.

Lemma get_dict_nodup {V} (l : list (string * V)) (k : string) :
  NoDup (map fst l) -> Py.get (Py.dict l) k = Py.get l k.
Proof.
  intros Hnd. destruct (Py.get l k) as [v |] eqn:Hg.
  - apply get_dict_in; [exact Hnd | apply get_In, Hg].
  - unfold Py.dict. rewrite get_fold_set_other; [reflexivity | apply get_None_notin, Hg].
Qed.

Lemma set_keys {V} (d : list (string * V)) (k : string) (v : V) :
  Py.keys (Py.set d k v) =
    if Py.mem k (Py.keys d) then Py.keys d else (Py.keys d ++ [k])%list.
Proof.
  induction d as [| [k0 v0] r IH]; cbn; [reflexivity |].
  destruct (String.eqb k k0) eqn:Hk; cbn; [reflexivity |].
  unfold Py.keys in *. rewrite IH. unfold Py.mem.
  destruct (existsb (String.eqb k) (map fst r)); reflexivity.
Qed.

Lemma mem_In (k : string) (l : list string) : Py.mem k l = true <-> In k l.
Proof.
  unfold Py.mem. rewrite existsb_exists. split.
  - intros (x & Hin & Hx). apply String.eqb_eq in Hx. subst. exact Hin.
  - intros Hin. exists k. split; [exact Hin | apply String.eqb_refl].
Qed.

Lemma set_keys_NoDup {V} (d : list (string * V)) (k : string) (v : V) :
  NoDup (Py.keys d) -> NoDup (Py.keys (Py.set d k v)).
Proof.
  intros Hnd. rewrite set_keys. destruct (Py.mem k (Py.keys d)) eqn:Hm; [exact Hnd |].
  apply NoDup_app; [exact Hnd | repeat constructor; tauto |].
  intros x Hx [<- | []]. apply mem_In in Hx. congruence.
Qed.

Lemma fold_set_keys_NoDup {V} (l d : list (string * V)) :
  NoDup (Py.keys d) ->
  NoDup (Py.keys (fold_left (fun acc kv => Py.set acc (fst kv) (snd kv)) l d)).
Proof.
  revert d. induction l as [| [k v] r IH]; intros d Hnd; cbn; [exact Hnd |].
  apply IH, set_keys_NoDup, Hnd.
Qed.

Lemma interpolate_all_keys (parser : ConfigParser) (section : string)
  (d its : list (string * string)) :
  interpolate_all parser section d = Ok its -> map fst its = map fst d.
Proof.
  revert its. induction d as [| [k raw] r IH]; intros its H; cbn in H.
  - inversion H. reflexivity.
  - destruct (before_get parser section k raw); [| discriminate].
    destruct (interpolate_all parser section r); [| discriminate].
    inversion H. cbn. f_equal. apply IH. reflexivity.
Qed.

Lemma interpolate_all_get (parser : ConfigParser) (section : string)
  (d its : list (string * string)) (k : string) :
  interpolate_all parser section d = Ok its ->
  match Py.get d k with
  | Some raw => exists v, before_get parser section k raw = Ok v /\ Py.get its k = Some v
  | None => Py.get its k = None
  end.
Proof.
  revert its. induction d as [| [k0 raw0] r IH]; intros its H; cbn in H.
  - inversion H. reflexivity.
  - destruct (before_get parser section k0 raw0) as [v0 |] eqn:Hb; [| discriminate].
    destruct (interpolate_all parser section r) as [vs |]; [| discriminate].
    inversion H; subst. cbn. destruct (String.eqb k k0) eqn:Hk.
    + apply String.eqb_eq in Hk. subst. eauto.
    + apply IH. reflexivity.
Qed.

(** What [get] gives for an option is what the mapping made from
    [items] holds under the option's name in lower case. *)
Lemma get_of_items (parser : ConfigParser) (section option : string)
  (its : list (string * string)) :
  has_section parser section = true ->
  sections_are_dicts parser ->
  NoDup (Py.keys (_defaults parser)) ->
  items parser section = Ok its ->
  get parser section option =
    match Py.get (Py.dict its) (Py.lower option) with
    | Some v => Ok v
    | None => Raise (Error (NoOptionError (Py.lower option) section))
    end.
Proof.
  intros Hs Hwf Hdef Hitems.
  destruct (has_section_dict _ _ Hs Hwf) as (d & Hd & Hnd).
  unfold get. unfold items in Hitems. rewrite Hd in *.
  assert (Hm := get_merged d (_defaults parser) (Py.lower option) Hnd).
  assert (Hk : NoDup (map fst its)).
  { rewrite (interpolate_all_keys _ _ _ _ Hitems). apply fold_set_keys_NoDup, Hdef. }
  rewrite (get_dict_nodup its _ Hk).
  assert (Hg := interpolate_all_get _ _ _ _ (Py.lower option) Hitems).
  rewrite Hm in Hg.
  destruct (Py.get d (Py.lower option)) as [raw |].
  - destruct Hg as (v & -> & ->). reflexivity.
  - destruct (Py.get (_defaults parser) (Py.lower option)) as [raw |].
    + destruct Hg as (v & -> & ->). reflexivity.
    + rewrite Hg. reflexivity.
Qed.

(** X7: for the kinds [str], [list], [int] and [float], a parameter that
    is present is read to the same value by [parse], straight from the
    parser, and by [interpret], from the mapping made of the section's
    items. *)
Theorem parse_agrees_with_interpret (p : ConfigParameter) (parser : ConfigParser)
  (section : string) (its : list (string * string)) (raw : string) (s : Ext) (v : value) :
  value_type p = str_ \/ value_type p = list_ \/ value_type p = int_ \/ value_type p = float_ ->
  Py.lower (name p) = name p ->
  has_section parser section = true ->
  sections_are_dicts parser ->
  NoDup (Py.keys (_defaults parser)) ->
  items parser section = Ok its ->
  Py.get (Py.dict its) (name p) = Some raw ->
  parse p section parser = Ok v <-> interpret p (Py.dict its) s = (Ok v, s, []).
Proof.
  intros Hk Hlow Hs Hwf Hdef Hitems Hg.
  assert (Hget := get_of_items parser section (name p) its Hs Hwf Hdef Hitems).
  rewrite Hlow, Hg in Hget.
  rewrite (interpret_present _ _ _ _ Hg).
  unfold parse, getint, getfloat, interpret_value, interpret_try. rewrite Hget.
  destruct Hk as [Hk | [Hk | [Hk | Hk]]]; rewrite Hk; cbn.
  - split; intros H; inversion H; reflexivity.
  - split; intros H; inversion H; reflexivity.
  - destruct (int_of_str raw); cbn; split; intros H; inversion H; reflexivity.
  - destruct (float_of_str raw); cbn; split; intros H; inversion H; reflexivity.
Qed.

(** X8: for the kind [bool] the two ways differ: [parse] also reads [1],
    [yes] and [on] as true and [0], [no] and [off] as false, in any letter
    case, and [interpret] raises on each of them. *)
Theorem parse_bool_more_permissive (p : ConfigParameter) (parser : ConfigParser)
  (section : string) (its : list (string * string)) (raw : string) (s : Ext) :
  value_type p = bool_ ->
  Py.lower (name p) = name p ->
  has_section parser section = true ->
  sections_are_dicts parser ->
  NoDup (Py.keys (_defaults parser)) ->
  items parser section = Ok its ->
  Py.get (Py.dict its) (name p) = Some raw ->
  (Py.mem (Py.lower raw) ["1"; "yes"; "on"] = true ->
   parse p section parser = Ok (VBool true)) /\
  (Py.mem (Py.lower raw) ["0"; "no"; "off"] = true ->
   parse p section parser = Ok (VBool false)) /\
  (Py.mem (Py.lower raw) ["1"; "yes"; "on"; "0"; "no"; "off"] = true ->
   exists msg, interpret p (Py.dict its) s = (Raise (RuntimeError msg), s, [])).
Proof.
  intros Hk Hlow Hs Hwf Hdef Hitems Hg.
  assert (Hget := get_of_items parser section (name p) its Hs Hwf Hdef Hitems).
  rewrite Hlow, Hg in Hget.
  unfold parse, getboolean. rewrite Hk, Hget.
  split; [| split].
  - intros H. apply mem_In in H.
    assert (H' : Py.mem (Py.lower raw) ["1"; "yes"; "true"; "on"] = true).
    { apply mem_In. cbn in *. tauto. }
    rewrite H'. reflexivity.
  - intros H. apply mem_In in H.
    assert (H1 : Py.mem (Py.lower raw) ["1"; "yes"; "true"; "on"] = false).
    { destruct (Py.mem (Py.lower raw) ["1"; "yes"; "true"; "on"]) eqn:E; [| reflexivity].
      apply mem_In in E. cbn in H, E.
      destruct H as [H | [H | [H | []]]]; rewrite <- H in E;
        destruct E as [E | [E | [E | [E | []]]]]; discriminate E. }
    assert (H2 : Py.mem (Py.lower raw) ["0"; "no"; "false"; "off"] = true).
    { apply mem_In. cbn in *. tauto. }
    rewrite H1, H2. reflexivity.
  - intros H. apply mem_In in H.
    destruct (interpret_bool_other p (Py.dict its) raw s Hk Hg) as [_ Hi].
    + cbn in H. intros E. rewrite E in H.
      destruct H as [H | [H | [H | [H | [H | [H | []]]]]]]; discriminate H.
    + cbn in H. intros E. rewrite E in H.
      destruct H as [H | [H | [H | [H | [H | [H | []]]]]]]; discriminate H.
    + eexists. exact Hi.
Qed.

(** X9: [parse] returns a value of the declared kind, for a [list] never
    the empty list; it raises what the reader's [get] raises, unchanged;
    and for a type other than the five it raises [RuntimeError] without
    reading anything. *)
Theorem parse_outcomes (p : ConfigParameter) (section : string) (parser : ConfigParser) :
  (forall v, parse p section parser = Ok v ->
     isinstance v (value_type p) = true /\ v <> VList []) /\
  (forall e, (forall r, value_type p <> other_type r) ->
     get parser section (name p) = Raise e -> parse p section parser = Raise e) /\
  (forall r, value_type p = other_type r ->
     parse p section parser = Raise (RuntimeError ("Unexpected configuration type: " ++ r))).
Proof.
  split; [| split].
  - intros v. unfold parse, getint, getboolean, getfloat.
    destruct (value_type p); destruct (get parser section (name p)) as [raw | e];
      try discriminate; cbn.
    + intros H; inversion H. split; [reflexivity | discriminate].
    + destruct (int_of_str raw); intros H; inversion H. split; [reflexivity | discriminate].
    + repeat match goal with |- context [if ?c then _ else _] => destruct c end;
        intros H; inversion H; (split; [reflexivity | discriminate]).
    + destruct (float_of_str raw); intros H; inversion H. split; [reflexivity | discriminate].
    + intros H; inversion H. split; [reflexivity |].
      intros E. inversion E as [E']. revert E'. apply (split_nonempty " " raw).
  - intros e Hk Hg. unfold parse, getint, getboolean, getfloat. rewrite Hg.
    destruct (value_type p) eqn:Ht; try reflexivity. exfalso. exact (Hk _ eq_refl).
  - intros r Hk. unfold parse. rewrite Hk. reflexivity.
Qed.

End ParseMore.

(** ** [DefaultClassConfig] and the pretty printer *)

Section ClassConfigMore.
Context {B : Builtins} {Ext : Type}.

Lemma interpret_all_other (param_dict : list (string * string)) (ps : list ConfigParameter)
  attrs names (s : Ext) r s' t k :
  interpret_all param_dict ps attrs names s = (Ok r, s', t) ->
  ~ In k (map name ps) ->
  Py.get (fst r) k = Py.get attrs k.
Proof.
  revert attrs names s t. induction ps as [| p ps IH]; intros attrs names s t H Hn.
  - cbn in H. inversion H. reflexivity.
  - apply interpret_all_cons_inv in H as (v & s1 & t1 & t2 & _ & _ & H & _).
    cbn in Hn. rewrite (IH _ _ _ _ H) by tauto. rewrite get_set.
    destruct (String.eqb k (name p)) eqn:Hk; [| reflexivity].
    apply String.eqb_eq in Hk. subst. tauto.
Qed.

Lemma interpret_all_inv (param_dict : list (string * string)) (ps : list ConfigParameter)
  attrs names (s : Ext) r s' t :
  interpret_all param_dict ps attrs names s = (Ok r, s', t) ->
  NoDup (map name ps) ->
  s' = s /\
  forall p, In p ps ->
    exists v tp, interpret p param_dict s = (Ok v, s, tp) /\
                 Py.get (fst r) (name p) = Some v.
Proof.
  revert attrs names s t. induction ps as [| p0 ps IH]; intros attrs names s t H Hnd.
  - cbn in H. inversion H. split; [reflexivity | contradiction].
  - apply interpret_all_cons_inv in H as (v & s1 & t1 & t2 & Hp & _ & H & ->).
    assert (Hs1 : s1 = s) by (rewrite interpret_shape in Hp; inversion Hp; reflexivity).
    subst s1. cbn in Hnd. inversion Hnd as [| ? ? Hn0 Hnd']; subst.
    destruct (IH _ _ _ _ H Hnd') as (-> & Hall). split; [reflexivity |].
    intros p [<- | Hin].
    + exists v, t1. split; [exact Hp |].
      rewrite (interpret_all_other _ _ _ _ _ _ _ _ _ H Hn0), get_set, String.eqb_refl.
      reflexivity.
    + destruct (Hall p Hin) as (v' & tp & Hp' & Hg). eauto.
Qed.

(** A loop that has come to its end has met no name that [setattr]
    refuses. *)
Lemma interpret_all_settable (param_dict : list (string * string)) (ps : list ConfigParameter)
  attrs names (s : Ext) r s' t :
  interpret_all param_dict ps attrs names s = (Ok r, s', t) ->
  forall p, In p ps -> ~ In (name p) ["__class__"; "__dict__"; "__weakref__"].
Proof.
  revert attrs names s t. induction ps as [| p0 ps IH]; intros attrs names s t H p Hin.
  - contradiction.
  - apply interpret_all_cons_inv in H as (v & s1 & t1 & t2 & _ & Hn & H & _).
    destruct Hin as [<- | Hin]; [exact Hn | exact (IH _ _ _ _ H p Hin)].
Qed.

(** The loop comes to its end when every descriptor is interpreted and
    bears a name that [setattr] accepts. *)
Lemma interpret_all_Ok (param_dict : list (string * string)) (ps : list ConfigParameter)
  attrs names (s : Ext) :
  (forall p, In p ps ->
     ~ In (name p) ["__class__"; "__dict__"; "__weakref__"] /\
     exists v, fst (fst (interpret p param_dict s)) = Ok v) ->
  exists r t, interpret_all param_dict ps attrs names s = (Ok r, s, t).
Proof.
  revert attrs names. induction ps as [| p ps IH]; intros attrs names Hall.
  - cbn. unfold ret. eauto.
  - destruct (Hall p (or_introl eq_refl)) as (Hn & v & Hv).
    destruct (IH (Py.set attrs (name p) v) (names ++ [name p])%list) as (r & t & Hr).
    { intros q Hq. apply Hall. right. exact Hq. }
    cbn [interpret_all].
    assert (Hsh := interpret_shape p param_dict s). rewrite Hv in Hsh.
    rewrite (bind_Ok _ _ _ _ _ _ Hsh), (setattr_Ok _ _ _ Hn), bind_lift_Ok, Hr.
    eauto.
Qed.

Lemma unknown_items_nil (param_dict : list (string * string)) (names : list string) :
  unknown_items param_dict names = [] <->
  forall k, In k (Py.keys param_dict) -> In k names.
Proof.
  unfold unknown_items. split.
  - intros H k Hin.
    destruct (Py.mem k names) eqn:Hm; [apply mem_In, Hm |].
    assert (Hf : In k (filter (fun x => negb (Py.mem x names)) (Py.keys param_dict))).
    { apply filter_In. rewrite Hm. auto. }
    rewrite H in Hf. contradiction.
  - intros H. induction (Py.keys param_dict) as [| k r IH]; [reflexivity |].
    cbn. assert (Hk : Py.mem k names = true) by (apply mem_In, H; left; reflexivity).
    rewrite Hk. cbn. apply IH. intros k' Hk'. apply H. right. exact Hk'.
Qed.

(** What [__init__] returns when the loop has come to its end and no key
    is unknown. *)
Lemma DefaultClassConfig_init_Ok (param_dict : list (string * string))
  (param_list : list ConfigParameter) (s : Ext) r s' t :
  interpret_all param_dict param_list [] [] s = (Ok r, s', t) ->
  (forall k, In k (Py.keys param_dict) -> In k (map name param_list)) ->
  DefaultClassConfig_init param_dict param_list s =
    (Ok {| _params := params_after param_list (fst r); attributes := fst r |}, s', t).
Proof.
  intros Hall Hkeys. unfold DefaultClassConfig_init.
  rewrite (bind_Ok _ _ _ _ _ _ Hall).
  rewrite (interpret_all_names _ _ _ _ _ _ _ _ Hall). cbn [app].
  apply unknown_items_nil in Hkeys. rewrite Hkeys.
  rewrite (bind_Ok _ _ _ _ _ _ (check_unknown_empty "" s')).
  unfold ret. rewrite !app_nil_r. reflexivity.
Qed.

(** X10: [DefaultClassConfig.__init__] succeeds exactly when every
    descriptor is interpreted, none bears a name that [setattr] refuses
    ([__class__], [__dict__], [__weakref__]), and every key of the mapping
    is the name of a descriptor.  The names being distinct, the object then
    holds under each name the value that [interpret] returned, and the
    state is left as it was.  Its [_params] is the schema when no
    descriptor is named [_params]; when one is, [_params] is the value of
    that descriptor and the schema is lost. *)
Theorem DefaultClassConfig_init_success (param_dict : list (string * string))
  (param_list : list ConfigParameter) (s : Ext) :
  NoDup (map name param_list) ->
  (forall c s' t,
     DefaultClassConfig_init param_dict param_list s = (Ok c, s', t) ->
     s' = s /\
     (forall k, In k (Py.keys param_dict) -> In k (map name param_list)) /\
     (forall p, In p param_list ->
        ~ In (name p) ["__class__"; "__dict__"; "__weakref__"] /\
        exists v, fst (fst (interpret p param_dict s)) = Ok v /\
                  getattr (attributes c) (name p) = Ok v /\
                  (name p = "_params" -> _params c = Overwritten v)) /\
     (~ In "_params" (map name param_list) -> _params c = Schema param_list)) /\
  (forall r s' t,
     interpret_all param_dict param_list [] [] s = (Ok r, s', t) ->
     (forall k, In k (Py.keys param_dict) -> In k (map name param_list)) ->
     DefaultClassConfig_init param_dict param_list s =
       (Ok {| _params := params_after param_list (fst r); attributes := fst r |}, s', t)) /\
  ((forall p, In p param_list ->
      ~ In (name p) ["__class__"; "__dict__"; "__weakref__"] /\
      exists v, fst (fst (interpret p param_dict s)) = Ok v) ->
   (forall k, In k (Py.keys param_dict) -> In k (map name param_list)) ->
   exists c t, DefaultClassConfig_init param_dict param_list s = (Ok c, s, t)).
Proof.
  intros Hnd. split; [| split].
  - intros c s' t H. unfold DefaultClassConfig_init in H.
    apply bind_Ok_inv in H as (r & s1 & t1 & t2 & Hall & H & ->).
    apply bind_Ok_inv in H as ([] & s2 & t3 & t4 & Hc & H & ->).
    inversion H; subst. clear H.
    rewrite (interpret_all_names _ _ _ _ _ _ _ _ Hall) in Hc. cbn [app] in Hc.
    destruct (interpret_all_inv _ _ _ _ _ _ _ _ Hall Hnd) as (-> & Hp).
    assert (Hu : unknown_items param_dict (map name param_list) = []).
    { destruct (unknown_items param_dict (map name param_list)) as [| x l]; [reflexivity |].
      destruct (check_unknown_raises "" (x :: l) s ltac:(discriminate)) as (msg & Hr & _).
      rewrite Hr in Hc. discriminate. }
    rewrite Hu, check_unknown_empty in Hc. inversion Hc; subst.
    split; [reflexivity |].
    split; [apply unknown_items_nil, Hu |]. split.
    + intros p Hin. split; [exact (interpret_all_settable _ _ _ _ _ _ _ _ Hall p Hin) |].
      destruct (Hp p Hin) as (v & tp & Hi & Hg).
      exists v. rewrite Hi. split; [reflexivity |]. cbn [attributes _params]. split.
      * unfold getattr. rewrite Hg. reflexivity.
      * intros Hname. unfold params_after. rewrite <- Hname, Hg. reflexivity.
    + intros Hno. cbn [_params]. unfold params_after.
      rewrite (interpret_all_other _ _ _ _ _ _ _ _ _ Hall Hno). reflexivity.
  - intros r s' t Hall Hkeys. exact (DefaultClassConfig_init_Ok _ _ _ _ _ _ Hall Hkeys).
  - intros Hall Hkeys.
    destruct (interpret_all_Ok param_dict param_list [] [] s Hall) as (r & t & Hr).
    eexists. exists t. exact (DefaultClassConfig_init_Ok _ _ _ _ _ _ Hr Hkeys).
Qed.

(** The loop stops at the first descriptor that cannot be interpreted. *)
Lemma interpret_all_first_failure (param_dict : list (string * string))
  (pre : list ConfigParameter) (p : ConfigParameter) (post : list ConfigParameter)
  attrs names (s : Ext) (e : exn) :
  (forall q, In q pre -> ~ In (name q) ["__class__"; "__dict__"; "__weakref__"]) ->
  (forall q, In q pre -> exists v, fst (fst (interpret q param_dict s)) = Ok v) ->
  fst (fst (interpret p param_dict s)) = Raise e ->
  interpret_all param_dict (pre ++ p :: post) attrs names s =
    (Raise e, s, concat (map (fun q => snd (interpret q param_dict s)) (pre ++ [p]))).
Proof.
  revert attrs names. induction pre as [| q pre IH]; intros attrs names Hset Hpre Hp.
  - cbn [app interpret_all map concat].
    assert (Hsh := interpret_shape p param_dict s).
    unfold bind at 1.
    destruct (interpret p param_dict s) as [[r s1] t1].
    cbn in Hp, Hsh |- *. inversion Hsh; subst. rewrite app_nil_r. reflexivity.
  - destruct (Hpre q (or_introl eq_refl)) as (v & Hq).
    cbn [app interpret_all map concat].
    assert (Hsh := interpret_shape q param_dict s). rewrite Hq in Hsh.
    rewrite (bind_Ok _ _ _ _ _ _ Hsh), (setattr_Ok _ _ _ (Hset q (or_introl eq_refl))),
      bind_lift_Ok.
    rewrite (IH (Py.set attrs (name q) v) (names ++ [name q])%list);
      [reflexivity | intros q' Hin; apply Hset; right; exact Hin
       | intros q' Hin; apply Hpre; right; exact Hin | exact Hp].
Qed.

(** X11: when a descriptor cannot be interpreted,
    [DefaultClassConfig.__init__] raises the error of the first such
    descriptor in schema order; the warnings issued up to it stay, no
    later descriptor is looked at, and unknown keys are not reported.
    (The descriptors before it bear names that [setattr] accepts: under
    [__class__], [__dict__] or [__weakref__] the loop stops at
    [setattr].) *)
Theorem DefaultClassConfig_init_first_failure (param_dict : list (string * string))
  (pre : list ConfigParameter) (p : ConfigParameter) (post : list ConfigParameter)
  (s : Ext) (e : exn) :
  (forall q, In q pre -> ~ In (name q) ["__class__"; "__dict__"; "__weakref__"]) ->
  (forall q, In q pre -> exists v, fst (fst (interpret q param_dict s)) = Ok v) ->
  fst (fst (interpret p param_dict s)) = Raise e ->
  DefaultClassConfig_init param_dict (pre ++ p :: post) s =
    (Raise e, s, concat (map (fun q => snd (interpret q param_dict s)) (pre ++ [p]))).
Proof.
  intros Hset Hpre Hp. unfold DefaultClassConfig_init.
  rewrite (bind_Raise _ _ _ _ _ _
             (interpret_all_first_failure param_dict pre p post [] [] s e Hset Hpre Hp)).
  reflexivity.
Qed.

End ClassConfigMore.

Section WriteMore.
Context {B : Builtins} {Ext : Type}.

Lemma DefaultClassConfig_init_inv (param_dict : list (string * string))
  (param_list : list ConfigParameter) (s : Ext) c s' t :
  DefaultClassConfig_init param_dict param_list s = (Ok c, s', t) ->
  exists r s1 t1,
    interpret_all param_dict param_list [] [] s = (Ok r, s1, t1) /\
    c = {| _params := params_after param_list (fst r); attributes := fst r |}.
Proof.
  intros H. unfold DefaultClassConfig_init in H.
  apply bind_Ok_inv in H as (r & s1 & t1 & t2 & Hall & H & ->).
  apply bind_Ok_inv in H as ([] & s2 & t3 & t4 & _ & H & ->).
  inversion H; subst. eauto.
Qed.

(** Writing with a configuration value in the place of the schema raises,
    and writes nothing. *)
Lemma write_pretty_params_of_value_raises (v : value) (s : Ext) :
  exists e, write_pretty_params_of_value v s = (Raise e, s, []) /\
            (e = ValueError "max() arg is an empty sequence" \/
             e = AttributeError "name" \/ e = TypeError).
Proof.
  destruct v as [[| a r] | n | b | x | [| a r]]; cbn; unfold raise; eauto.
Qed.

(** X12: a component that [DefaultClassConfig.__init__] has built from a
    schema that is not empty, with distinct names, none of them [_params],
    can always be written: [write_config] succeeds, leaves the state as it
    is and writes one line per descriptor.  When a descriptor is named
    [_params], [write_config] finds the value of that descriptor where it
    looks for the schema: it raises and writes nothing. *)
Theorem init_then_write_config (param_dict : list (string * string))
  (param_list : list ConfigParameter) (s s' : Ext) (c : DefaultClassConfig) (t : list effect)
  (s2 : Ext) :
  DefaultClassConfig_init param_dict param_list s = (Ok c, s', t) ->
  param_list <> [] ->
  NoDup (map name param_list) ->
  if Py.mem "_params" (map name param_list)
  then exists e,
         DefaultClassConfig_write_config c s2 = (Raise e, s2, []) /\
         (e = ValueError "max() arg is an empty sequence" \/
          e = AttributeError "name" \/ e = TypeError)
  else exists lines,
         DefaultClassConfig_write_config c s2 = (Ok tt, s2, map Wrote lines) /\
         List.length lines = List.length param_list.
Proof.
  intros H Hne Hnd.
  apply DefaultClassConfig_init_inv in H as (r & s1 & t1 & Hall & ->).
  destruct (interpret_all_inv _ _ _ _ _ _ _ _ Hall Hnd) as (_ & Hp).
  unfold DefaultClassConfig_write_config. cbn [attributes _params]. unfold params_after.
  destruct (Py.mem "_params" (map name param_list)) eqn:Hm.
  - apply mem_In, in_map_iff in Hm as (p & Hname & Hin).
    destruct (Hp p Hin) as (v & tp & _ & Hg). rewrite Hname in Hg. rewrite Hg.
    apply write_pretty_params_of_value_raises.
  - assert (Hno : ~ In "_params" (map name param_list)).
    { intros Hin. apply mem_In in Hin. congruence. }
    rewrite (interpret_all_other _ _ _ _ _ _ _ _ _ Hall Hno). cbn [Py.get].
    set (find := fun nm => Py.get (Py.dict (map (fun p => (name p, p)) param_list)) nm).
    set (text := fun nm =>
           match find nm with
           | Some p => match formatted (fst r) p with Ok x => x | Raise _ => "" end
           | None => ""
           end).
    assert (Hf : forall p, In p param_list -> formatted (fst r) p = Ok (text (name p))).
    { intros p Hin. unfold text, find.
      rewrite (get_dict_in (map (fun p => (name p, p)) param_list) (name p) p).
      - destruct (Hp p Hin) as (v & tp & Hi & Hg).
        unfold formatted, getattr. rewrite Hg.
        destruct (format_isinstance p v (interpret_Ok_isinstance _ _ _ _ _ _ Hi)) as (x & ->).
        reflexivity.
      - rewrite map_map. exact Hnd.
      - apply in_map_iff. eauto. }
    rewrite (write_pretty_params_canonical (fst r) param_list text s2 Hne Hnd Hf).
    exists (map (fun nm => right_padded_line
                             (list_max (map String.length (map name param_list))) nm (text nm))
              (Py.sort (map name param_list))). split.
    + f_equal. symmetry. apply map_map.
    + rewrite length_map, (Permutation_length (sort_perm _)). apply length_map.
Qed.

Lemma get_fold_set_some {V} (items : list (string * V)) (d : list (string * V)) (k : string) :
  In k (map fst items) ->
  Py.get (fold_left (fun acc kv => Py.set acc (fst kv) (snd kv)) items d) k <> None.
Proof.
  revert d. induction items as [| [k0 v0] r IH]; intros d Hin; [contradiction |].
  cbn [fold_left fst snd].
  destruct (in_dec string_dec k (map fst r)) as [Hr | Hr]; [apply IH, Hr |].
  rewrite get_fold_set_other by exact Hr. rewrite get_set.
  destruct Hin as [Hk | Hk]; [| contradiction]. cbn in Hk. subst.
  rewrite String.eqb_refl. discriminate.
Qed.

Lemma format_Raise (p : ConfigParameter) (v : value) (e : exn) :
  format p v = Raise e -> e = AssertionError.
Proof.
  unfold format, cast_list. destruct (pytype_eqb list_ (value_type p)); [| discriminate].
  destruct v; cbn; intros H; inversion H; reflexivity.
Qed.

Lemma for_each_lines_effects (config : list (string * value))
  (params_dict : list (string * ConfigParameter)) (w : nat) (names : list string) (s : Ext) :
  (forall nm, In nm names -> Py.get params_dict nm <> None) ->
  let '(r, s', t) :=
    for_each names (fun nm =>
      p <- lift (getitem params_dict nm) ;;
      v <- lift (getattr config (name p)) ;;
      text <- lift (format p v) ;;
      write (Py.ljust (name p) w ++ " = " ++ text ++ nl)) s in
  s' = s /\ warnings_of t = [] /\
  match r with
  | Ok _ => List.length t = List.length names
  | Raise e =>
      List.length t < List.length names /\
      ((exists a, e = AttributeError a) \/ e = AssertionError)
  end.
Proof.
  set (body := fun nm : string => _).
  induction names as [| nm r IH]; intros Hin; [cbn; auto |].
  assert (IH' := IH (fun k Hk => Hin k (or_intror Hk))). clear IH.
  cbn [for_each]. unfold bind at 1.
  assert (Hb : (exists line, body nm s = (Ok tt, s, [Wrote line])) \/
               (exists e, body nm s = (Raise e, s, []) /\
                          ((exists a, e = AttributeError a) \/ e = AssertionError))).
  { unfold body, bind, lift, getitem, write.
    destruct (Py.get params_dict nm) as [p |] eqn:Hg;
      [| exfalso; exact (Hin nm (or_introl eq_refl) Hg)].
    unfold getattr. destruct (Py.get config (name p)) as [v |];
      [| right; eexists; split; [reflexivity | left; eexists; reflexivity]].
    destruct (format p v) as [text | e] eqn:Hf; [left; eexists; reflexivity |].
    right. exists e. split; [reflexivity |]. right. eapply format_Raise; eassumption. }
  destruct Hb as [(line & ->) | (e & -> & He)].
  - destruct (for_each r body s) as [[r' s'] t']. destruct IH' as (-> & Hw & Hr).
    cbn. split; [reflexivity |]. split; [exact Hw |].
    destruct r' as [u | e]; [lia |].
    destruct Hr as [Hl He]. split; [lia | exact He].
  - cbn. split; [reflexivity |]. split; [reflexivity |]. split; [lia | exact He].
Qed.

(** X13: the pretty printer leaves the state as it is and issues no
    warning; when it succeeds it has written as many lines as there are
    descriptors; when it fails it has written fewer, and the error is
    the [ValueError] of an empty list, the [AttributeError] of a value
    missing on the configuration object, or the [AssertionError] of a
    [list] descriptor whose value is not a list. *)
Theorem write_pretty_params_effects (config : list (string * value))
  (params : list ConfigParameter) (s : Ext) :
  let '(r, s', t) := write_pretty_params config params s in
  s' = s /\ warnings_of t = [] /\
  match r with
  | Ok _ => List.length t = List.length params
  | Raise e =>
      List.length t < List.length params \/ params = [] /\ t = [] /\
        e = ValueError "max() arg is an empty sequence"
  end /\
  match r with
  | Ok _ => True
  | Raise e =>
      (params = [] /\ e = ValueError "max() arg is an empty sequence") \/
      (exists a, e = AttributeError a) \/ e = AssertionError
  end.
Proof.
  unfold write_pretty_params.
  destruct params as [| p0 ps].
  { cbn. repeat split; auto. }
  remember (p0 :: ps) as params eqn:Eparams.
  rewrite max_list_max.
  destruct (map String.length (map name params)) as [| n ns] eqn:E;
    [subst params; discriminate E |].
  rewrite <- E.
  assert (H := for_each_lines_effects config
                 (Py.dict (map (fun p => (name p, p)) params))
                 (list_max (map String.length (map name params)))
                 (Py.sort (map name params)) s).
  match type of H with ?P -> _ => assert (HP : P) end.
  { intros nm Hin. apply (Permutation_in _ (sort_perm _)) in Hin.
    apply get_fold_set_some. rewrite map_map. exact Hin. }
  specialize (H HP). clear HP.
  match goal with |- context [for_each ?names ?body s] =>
    destruct (for_each names body s) as [[r s'] t]
  end.
  destruct H as (-> & Hw & Hr).
  assert (Hlen : List.length (Py.sort (map name params)) = List.length params).
  { rewrite (Permutation_length (sort_perm _)). apply length_map. }
  rewrite Hlen in Hr.
  split; [reflexivity |]. split; [exact Hw |].
  destruct r as [u | e]; [split; [exact Hr | exact I] |].
  destruct Hr as [Hl He]. split; [left; exact Hl | right; exact He].
Qed.

End WriteMore.

(** ** More on [Config] *)

Section ConfigMore.
Context {B : Builtins} {Ext : Type} {component : Type}.

Lemma load_param_shape (p : ConfigParameter) (parameters : ConfigParser) (s : Ext) :
  load_param p parameters s =
    (fst (fst (load_param p parameters s)), s, snd (load_param p parameters s)).
Proof.
  rewrite load_param_eq.
  destruct (parse p "NEAT" parameters); [reflexivity |].
  destruct (default p); [| reflexivity].
  destruct (Error_or_RuntimeError e); reflexivity.
Qed.

(** What [parse] returns has the constructor of the declared kind. *)
Lemma parse_exact (p : ConfigParameter) (section : string) (parser : ConfigParser) (v : value) :
  parse p section parser = Ok v ->
  match value_type p, v with
  | str_, VStr _ | int_, VInt _ | bool_, VBool _ | float_, VFloat _ | list_, VList _ => True
  | _, _ => False
  end.
Proof.
  unfold parse, getint, getboolean, getfloat. intros Hp.
  destruct (value_type p); destruct (get parser section (name p)) as [raw |];
    try discriminate; cbn in Hp.
  - inversion Hp. exact I.
  - destruct (int_of_str raw); inversion Hp. exact I.
  - repeat match type of Hp with context [if ?c then _ else _] => destruct c end;
      inversion Hp; exact I.
  - destruct (float_of_str raw); inversion Hp. exact I.
  - inversion Hp. exact I.
Qed.

Lemma load_param_exact (p : ConfigParameter) (parameters : ConfigParser) (s s' : Ext) v t :
  load_param p parameters s = (Ok v, s', t) ->
  parse p "NEAT" parameters = Ok v \/ default p = Some v.
Proof.
  rewrite load_param_eq.
  destruct (parse p "NEAT" parameters) as [v' | e].
  - intros H. inversion H. auto.
  - destruct (default p) as [d |]; [| discriminate].
    destruct (Error_or_RuntimeError e); [| discriminate].
    intros H. inversion H. auto.
Qed.

(** X14: after a load that succeeds, the configuration holds exactly the
    five global parameters, each with a value of its kind: an integer, a
    string, a float and two booleans. *)
Theorem loaded_globals_typed (fs : FileSystem)
  (G R S T : component_type (Ext := Ext) (component := component)) (filename : string)
  (s s' : Ext) (t : list effect) (self : Config (Ext := Ext) (component := component)) :
  Config_init fs G R S T filename s = (Ok self, s', t) ->
  exists n c x b b',
    params self = [("pop_size", VInt n); ("fitness_criterion", VStr c);
                   ("fitness_threshold", VFloat x); ("reset_on_extinction", VBool b);
                   ("no_fitness_termination", VBool b')].
Proof.
  intros H.
  apply Config_init_Ok_inv in H
    as (parameters & r & s1 & t1 & neat_items & t2 & _ & _ & _ & _ & _ & _ & _
        & Hl & _ & _ & _ & -> & _).
  unfold Config_params in Hl. cbn [load_params] in Hl.
  apply bind_Ok_inv in Hl as (v1 & ? & ? & ? & H1 & Hl & _).
  apply bind_Ok_inv in Hl as (v2 & ? & ? & ? & H2 & Hl & _).
  apply bind_Ok_inv in Hl as (v3 & ? & ? & ? & H3 & Hl & _).
  apply bind_Ok_inv in Hl as (v4 & ? & ? & ? & H4 & Hl & _).
  apply bind_Ok_inv in Hl as (v5 & ? & ? & ? & H5 & Hl & _).
  inversion Hl; subst. clear Hl.
  apply load_param_exact in H1, H2, H3, H4, H5.
  destruct H1 as [H1 | H1]; [apply parse_exact in H1 | discriminate H1].
  destruct H2 as [H2 | H2]; [apply parse_exact in H2 | discriminate H2].
  destruct H3 as [H3 | H3]; [apply parse_exact in H3 | discriminate H3].
  destruct H4 as [H4 | H4]; [apply parse_exact in H4 | discriminate H4].
  assert (H5' : exists b', v5 = VBool b').
  { destruct H5 as [H5 | H5].
    - apply parse_exact in H5. cbn in H5. destruct v5; try contradiction. eauto.
    - cbn in H5. inversion H5. eauto. }
  destruct H5' as (b' & ->).
  cbn in H1, H2, H3, H4.
  destruct v1; try contradiction. destruct v2; try contradiction.
  destruct v3; try contradiction. destruct v4; try contradiction.
  cbn. eauto 6.
Qed.

(** X15: the loop over the global parameters leaves the state as it is
    and issues at most one warning, the one for [no_fitness_termination],
    whether it succeeds or fails. *)
Theorem load_params_warnings (parameters : ConfigParser) (s : Ext) :
  snd (fst (load_params parameters Config_params [] [] s)) = s /\
  (snd (load_params parameters Config_params [] [] s) = [] \/
   snd (load_params parameters Config_params [] [] s) =
     [Warned DeprecationWarning "Using default False for 'no_fitness_termination'"]).
Proof.
  unfold Config_params. cbn [load_params]. unfold bind.
  repeat (rewrite load_param_eq;
          match goal with
          | |- context [parse ?p "NEAT" parameters] =>
              generalize (parse p "NEAT" parameters); intros [? | ?]
          end;
          cbv beta iota zeta);
    cbn [default];
    try match goal with
        | |- context [Error_or_RuntimeError ?e] => destruct (Error_or_RuntimeError e)
        end;
    cbn;
    (split; [reflexivity | first [left; reflexivity | right; reflexivity]]).
Qed.

(** X16: once the four assertions hold, [Config.__init__] fails, in this
    order of precedence and without any other effect: with [Exception]
    naming the absolute path when the file does not exist; with the
    exception of opening or reading the file; with [RuntimeError] when
    the file has no [NEAT] section. *)
Theorem Config_init_early_failures (fs : FileSystem)
  (G R S T : component_type (Ext := Ext) (component := component)) (filename : string)
  (s : Ext) :
  hasattr_parse_config G = true ->
  hasattr_parse_config R = true ->
  hasattr_parse_config S = true ->
  hasattr_parse_config T = true ->
  (isfile fs filename = false ->
   Config_init fs G R S T filename s =
     (Raise (Exception_ ("No such config file: " ++ abspath fs filename)), s, [])) /\
  (forall e, isfile fs filename = true -> read_file fs filename = Raise e ->
   Config_init fs G R S T filename s = (Raise e, s, [])) /\
  (forall parameters, isfile fs filename = true -> read_file fs filename = Ok parameters ->
   has_section parameters "NEAT" = false ->
   Config_init fs G R S T filename s =
     (Raise (RuntimeError "'NEAT' section not found in NEAT configuration file."), s, [])).
Proof.
  intros HG HR HS HT. unfold Config_init.
  rewrite HG, HR, HS, HT, !bind_assert_true.
  split; [| split].
  - intros ->. reflexivity.
  - intros e -> ->. reflexivity.
  - intros parameters -> Hr Hn. cbn [negb]. rewrite Hr, bind_lift_Ok, Hn. reflexivity.
Qed.

(** X17: in a load that succeeds, each component configuration is what
    the [parse_config] of its own type returned for the mapping made of
    the items of the section named after the type; the four calls are
    made after the global parameters, in the order genome, species set,
    stagnation, reproduction, each from the state the one before left. *)
Theorem components_parsed_in_order (fs : FileSystem)
  (G R S T : component_type (Ext := Ext) (component := component)) (filename : string)
  (s s' : Ext) (t : list effect) (self : Config (Ext := Ext) (component := component)) :
  Config_init fs G R S T filename s = (Ok self, s', t) ->
  exists parameters dg ds dt dr s2 s3 s4 t1 tg ts tt' tr,
    read_file fs filename = Ok parameters /\
    fst (load_params parameters Config_params [] [] s) = (Ok (params self, map name Config_params), s) /\
    t1 = snd (load_params parameters Config_params [] [] s) /\
    items parameters (__name__ G) = Ok dg /\
    items parameters (__name__ S) = Ok ds /\
    items parameters (__name__ T) = Ok dt /\
    items parameters (__name__ R) = Ok dr /\
    call_parse_config G (Py.dict dg) s = (Ok (genome_config self), s2, tg) /\
    call_parse_config S (Py.dict ds) s2 = (Ok (species_set_config self), s3, ts) /\
    call_parse_config T (Py.dict dt) s3 = (Ok (stagnation_config self), s4, tt') /\
    call_parse_config R (Py.dict dr) s4 = (Ok (reproduction_config self), s', tr) /\
    t = (t1 ++ tg ++ ts ++ tt' ++ tr)%list.
Proof.
  intros H.
  assert (Hinv := H). apply Config_init_Ok_inv in Hinv
    as (parameters & r & s1 & t1 & neat_items & t2 & HG & HR & HS & HT & Hf & Hr & Hn
        & Hl & Hitems & Hu & _ & Hparams & _).
  rewrite (Config_init_reads fs G R S T filename parameters s HG HR HS HT Hf Hr Hn) in H.
  rewrite (bind_Ok _ _ _ _ _ _ Hl), Hitems, bind_lift_Ok in H.
  rewrite (load_params_names _ _ _ _ _ _ _ _ Hl) in H. cbn [app] in H.
  rewrite Hu, (bind_Ok _ _ _ _ _ _ (check_unknown_empty _ s1)) in H.
  assert (Hs1 : s1 = s).
  { destruct Config_params_names as (Hnd & _).
    destruct (load_params_inv _ _ _ _ _ _ _ _ Hl Hnd) as (-> & _). reflexivity. }
  subst s1.
  unfold parse_section in H.
  destruct (bind _ _ s) as [[res sres] tres] eqn:Hb in H.
  inversion H; subst. clear H.
  apply bind_Ok_inv in Hb as (gc & s2 & tg & u1 & Hgb & Hb & ->).
  apply bind_Ok_inv in Hgb as (dg & ? & ? & tg' & Hdg & Hg & ->).
  apply lift_Ok_inv in Hdg as (Hdg & -> & ->).
  apply bind_Ok_inv in Hb as (sc & s3 & ts & u2 & Hsb & Hb & ->).
  apply bind_Ok_inv in Hsb as (ds & ? & ? & ts' & Hds & Hs & ->).
  apply lift_Ok_inv in Hds as (Hds & -> & ->).
  apply bind_Ok_inv in Hb as (tc & s4 & tt' & u3 & Htb & Hb & ->).
  apply bind_Ok_inv in Htb as (dt & ? & ? & tt'' & Hdt & Ht & ->).
  apply lift_Ok_inv in Hdt as (Hdt & -> & ->).
  apply bind_Ok_inv in Hb as (rc & s5 & tr & u4 & Hrb & Hb & ->).
  apply bind_Ok_inv in Hrb as (dr & ? & ? & tr' & Hdr & Hrr & ->).
  apply lift_Ok_inv in Hdr as (Hdr & -> & ->).
  inversion Hb; subst. clear Hb. cbn [genome_config species_set_config stagnation_config
                                       reproduction_config params].
  exists parameters, dg, ds, dt, dr, s2, s3, s4, t1, tg', ts', tt'', tr'.
  rewrite Hl. cbn [fst snd].
  repeat (split; [first [assumption | reflexivity] |]).
  split.
  - assert (Hnames := load_params_names _ _ _ _ _ _ _ _ Hl).
    change (snd r = map name Config_params) in Hnames.
    rewrite <- Hnames. destruct r; reflexivity.
  - repeat (split; [first [assumption | reflexivity] |]).
    cbn. rewrite !app_nil_r. reflexivity.
Qed.


(** X19: when the writer of the species set type raises, [save] raises
    the same exception; the [NEAT] section, the genome section, the
    species set header and what that writer wrote before raising are in
    the file, and nothing of the stagnation and reproduction types. *)
Theorem save_stops_at_failing_writer (fs : FileSystem)
  (G R S T : component_type (Ext := Ext) (component := component)) (filename : string)
  (s0 s1 : Ext) (t0 : list effect) (self : Config (Ext := Ext) (component := component))
  (wg ws : component -> M (Ext := Ext) unit)
  (s sg ss : Ext) (tg ts : list effect) (e : exn) :
  Config_init fs G R S T filename s0 = (Ok self, s1, t0) ->
  write_config G = Some wg ->
  write_config S = Some ws ->
  wg (genome_config self) s = (Ok tt, sg, tg) ->
  ws (species_set_config self) sg = (Raise e, ss, ts) ->
  exists v1 v2 v3 v4 v5,
    params self = [("pop_size", v1); ("fitness_criterion", v2); ("fitness_threshold", v3);
                   ("reset_on_extinction", v4); ("no_fitness_termination", v5)] /\
    save self s =
      (Raise e, ss,
       ([Wrote ("# The `NEAT` section specifies parameters particular to the NEAT algorithm"
                ++ nl);
         Wrote ("# or the experiment itself.  This is the only required section." ++ nl);
         Wrote ("[NEAT]" ++ nl)]
        ++ neat_lines v1 v2 v3 v4 v5
        ++ Wrote (nl ++ "[" ++ __name__ G ++ "]" ++ nl) :: tg
        ++ Wrote (nl ++ "[" ++ __name__ S ++ "]" ++ nl) :: ts)%list).
Proof.
  intros Hload HG HS Hg Hs.
  apply Config_init_Ok_inv in Hload
    as (parameters & r & s2 & t1 & neat_items & t2 & _ & _ & _ & _ & _ & _ & _
        & Hl & _ & _ & _ & Hparams & EG & _ & ES & _).
  destruct (loaded_params_shape _ _ _ _ _ Hl) as (v1 & v2 & v3 & v4 & v5 & Hshape).
  rewrite <- Hparams in Hshape.
  exists v1, v2, v3, v4, v5. split; [exact Hshape |].
  rewrite (save_neat_section self v1 v2 v3 v4 v5 s Hshape).
  rewrite !write_then. unfold call_write_config at 1 2.
  rewrite EG, ES, HG, HS.
  rewrite (bind_Ok _ _ _ _ _ _ Hg), write_then.
  rewrite (bind_Raise _ _ _ _ _ _ Hs). unfold section_header. reflexivity.
Qed.

End ConfigMore.

(** ** The aggregation functions and their set *)

Section AggregationMore.

Lemma fold_max_le (l : list Z) (a : Z) :
  (a <= fold_left Z.max l a)%Z /\ Forall (fun y => (y <= fold_left Z.max l a)%Z) l /\
  (fold_left Z.max l a = a \/ In (fold_left Z.max l a) l).
Proof.
  revert a. induction l as [| y r IH]; intros a; cbn.
  - split; [lia |]. split; [constructor | left; reflexivity].
  - destruct (IH (Z.max a y)) as (H1 & H2 & H3).
    split; [lia |]. split.
    + constructor; [lia | exact H2].
    + destruct H3 as [H3 | H3]; [| right; right; exact H3].
      rewrite H3. destruct (Z.max_spec a y) as [[_ ->] | [_ ->]]; auto.
Qed.

Lemma fold_min_le (l : list Z) (a : Z) :
  (fold_left Z.min l a <= a)%Z /\ Forall (fun y => (fold_left Z.min l a <= y)%Z) l /\
  (fold_left Z.min l a = a \/ In (fold_left Z.min l a) l).
Proof.
  revert a. induction l as [| y r IH]; intros a; cbn.
  - split; [lia |]. split; [constructor | left; reflexivity].
  - destruct (IH (Z.min a y)) as (H1 & H2 & H3).
    split; [lia |]. split.
    + constructor; [lia | exact H2].
    + destruct H3 as [H3 | H3]; [| right; right; exact H3].
      rewrite H3. destruct (Z.min_spec a y) as [[_ ->] | [_ ->]]; auto.
Qed.

(** X20: [max_aggregation] and [min_aggregation] raise [ValueError] on
    an empty sequence and otherwise return an element of the sequence
    that no element exceeds, or that exceeds no element. *)
Theorem max_min_aggregation (x : list Z) :
  (x = [] ->
   aggregations.max_aggregation x = Raise (ValueError "max() arg is an empty sequence") /\
   aggregations.min_aggregation x = Raise (ValueError "min() arg is an empty sequence")) /\
  (x <> [] ->
   exists hi lo,
     aggregations.max_aggregation x = Ok hi /\ In hi x /\ Forall (fun y => (y <= hi)%Z) x /\
     aggregations.min_aggregation x = Ok lo /\ In lo x /\ Forall (fun y => (lo <= y)%Z) x).
Proof.
  split.
  - intros ->. split; reflexivity.
  - intros Hne. destruct x as [| a r]; [congruence |].
    destruct (fold_max_le r a) as (M1 & M2 & M3).
    destruct (fold_min_le r a) as (N1 & N2 & N3).
    exists (fold_left Z.max r a), (fold_left Z.min r a).
    split; [reflexivity |]. split; [destruct M3 as [-> | H]; [left; reflexivity | right; exact H] |].
    split; [constructor; assumption |].
    split; [reflexivity |]. split; [destruct N3 as [-> | H]; [left; reflexivity | right; exact H] |].
    constructor; assumption.
Qed.

Lemma fold_maxabs (l : list Z) (a : Z) :
  let m := fold_left (fun m y => if (Z.abs m <? Z.abs y)%Z then y else m) l a in
  (Z.abs a <= Z.abs m)%Z /\ Forall (fun y => (Z.abs y <= Z.abs m)%Z) l /\
  (m = a \/ In m l) /\
  (Forall (fun y => (Z.abs y <= Z.abs a)%Z) l -> m = a).
Proof.
  revert a. induction l as [| y r IH]; intros a; cbn.
  - repeat split; auto. lia.
  - destruct (Z.abs a <? Z.abs y)%Z eqn:Hc.
    + apply Z.ltb_lt in Hc. destruct (IH y) as (H1 & H2 & H3 & H4).
      split; [lia |]. split; [constructor; [exact H1 | exact H2] |].
      split; [destruct H3 as [-> | H3]; auto |].
      intros Hall. inversion Hall; subst. lia.
    + apply Z.ltb_ge in Hc. destruct (IH a) as (H1 & H2 & H3 & H4).
      split; [exact H1 |]. split; [constructor; [lia | exact H2] |].
      split; [destruct H3 as [H3 | H3]; auto |].
      intros Hall. inversion Hall; subst. auto.
Qed.

(** X21: [maxabs_aggregation] raises [ValueError] on an empty sequence
    and otherwise returns an element of the sequence whose absolute
    value no element exceeds; the first element is returned when none
    has a larger absolute value. *)
Theorem maxabs_aggregation_largest (x : list Z) :
  (x = [] ->
   aggregations.maxabs_aggregation x = Raise (ValueError "max() arg is an empty sequence")) /\
  (forall a r, x = a :: r ->
   exists m,
     aggregations.maxabs_aggregation x = Ok m /\ In m x /\
     Forall (fun y => (Z.abs y <= Z.abs m)%Z) x /\
     (Forall (fun y => (Z.abs y <= Z.abs a)%Z) r -> m = a)).
Proof.
  split; [intros ->; reflexivity |].
  intros a r ->. destruct (fold_maxabs r a) as (H1 & H2 & H3 & H4).
  eexists. split; [reflexivity |].
  split; [destruct H3 as [-> | H3]; [left; reflexivity | right; exact H3] |].
  split; [constructor; assumption | exact H4].
Qed.

Lemma fold_add (l : list Z) (a : Z) : fold_left Z.add l a = (a + fold_left Z.add l 0)%Z.
Proof.
  revert a. induction l as [| y r IH]; intros a; cbn; [lia |].
  rewrite (IH (a + y)%Z), (IH y). lia.
Qed.

(** X22: [sum_aggregation] is 0 on the empty sequence, adds up a
    concatenation part by part, and does not depend on the order of the
    elements. *)
Theorem sum_aggregation_additive (x y : list Z) :
  aggregations.sum_aggregation [] = 0%Z /\
  aggregations.sum_aggregation (x ++ y) =
    (aggregations.sum_aggregation x + aggregations.sum_aggregation y)%Z /\
  (Permutation x y -> aggregations.sum_aggregation x = aggregations.sum_aggregation y).
Proof.
  unfold aggregations.sum_aggregation. split; [reflexivity |]. split.
  - rewrite fold_left_app. apply fold_add.
  - induction 1 as [| a l l' _ IH | a b l | l l' l'' _ IH1 _ IH2]; cbn.
    + reflexivity.
    + rewrite (fold_add l), (fold_add l'), IH. reflexivity.
    + rewrite (fold_add l (b + a)), (fold_add l (a + b)). lia.
    + congruence.
Qed.

End AggregationMore.

Section AggregationSetMore.
Context {B : Builtins} {Ext : Type} {function kwargs : Type}.

(** X23: over a function set in which a function that was added is
    found under its name and the functions found before stay,
    [AggregationFunctionSet.__init__] leaves the five built-in functions
    under the names [product], [sum], [max], [min] and [maxabs] of the
    category [aggregation]. *)
Theorem init_registers_builtins
  (mps : aggregations.MultiParameterSet (Ext := Ext) (function := function) (kwargs := kwargs))
  (product_f sum_f max_f min_f maxabs_f : function) (no_kwargs : kwargs)
  (s s' : Ext) (t : list effect) (self : aggregations.AggregationFunctionSet) :
  (forall n f k s1 s2 t1,
     aggregations.add_func mps n f "aggregation" k s1 = (Ok tt, s2, t1) ->
     aggregations.get_func mps n "aggregation" s2 = (Ok f, s2, [])) ->
  (forall n f k s1 s2 t1 n' g,
     aggregations.add_func mps n f "aggregation" k s1 = (Ok tt, s2, t1) ->
     n' <> n ->
     aggregations.get_func mps n' "aggregation" s1 = (Ok g, s1, []) ->
     aggregations.get_func mps n' "aggregation" s2 = (Ok g, s2, [])) ->
  aggregations.AggregationFunctionSet_init mps product_f sum_f max_f min_f maxabs_f no_kwargs s
    = (Ok self, s', t) ->
  aggregations.multiparameterset self = mps /\
  aggregations.get self "product" s' = (Ok product_f, s', []) /\
  aggregations.get self "sum" s' = (Ok sum_f, s', []) /\
  aggregations.get self "max" s' = (Ok max_f, s', []) /\
  aggregations.get self "min" s' = (Ok min_f, s', []) /\
  aggregations.get self "maxabs" s' = (Ok maxabs_f, s', []).
Proof.
  intros Hadd Hkeep H. unfold aggregations.AggregationFunctionSet_init in H.
  apply bind_Ok_inv in H as ([] & s1 & ? & ? & A1 & H & _).
  apply bind_Ok_inv in H as ([] & s2 & ? & ? & A2 & H & _).
  apply bind_Ok_inv in H as ([] & s3 & ? & ? & A3 & H & _).
  apply bind_Ok_inv in H as ([] & s4 & ? & ? & A4 & H & _).
  apply bind_Ok_inv in H as ([] & s5 & ? & ? & A5 & H & _).
  inversion H; subst. clear H.
  unfold aggregations.add in *. unfold aggregations.get. cbn [aggregations.multiparameterset] in *.
  assert (P1 := Hadd _ _ _ _ _ _ A1).
  assert (P2 := Hkeep _ _ _ _ _ _ "product" _ A2 ltac:(discriminate) P1).
  assert (P3 := Hkeep _ _ _ _ _ _ "product" _ A3 ltac:(discriminate) P2).
  assert (P4 := Hkeep _ _ _ _ _ _ "product" _ A4 ltac:(discriminate) P3).
  assert (P5 := Hkeep _ _ _ _ _ _ "product" _ A5 ltac:(discriminate) P4).
  assert (Q2 := Hadd _ _ _ _ _ _ A2).
  assert (Q3 := Hkeep _ _ _ _ _ _ "sum" _ A3 ltac:(discriminate) Q2).
  assert (Q4 := Hkeep _ _ _ _ _ _ "sum" _ A4 ltac:(discriminate) Q3).
  assert (Q5 := Hkeep _ _ _ _ _ _ "sum" _ A5 ltac:(discriminate) Q4).
  assert (R3 := Hadd _ _ _ _ _ _ A3).
  assert (R4 := Hkeep _ _ _ _ _ _ "max" _ A4 ltac:(discriminate) R3).
  assert (R5 := Hkeep _ _ _ _ _ _ "max" _ A5 ltac:(discriminate) R4).
  assert (T4 := Hadd _ _ _ _ _ _ A4).
  assert (T5 := Hkeep _ _ _ _ _ _ "min" _ A5 ltac:(discriminate) T4).
  assert (U5 := Hadd _ _ _ _ _ _ A5).
  repeat split; assumption.
Qed.

End AggregationSetMore.

(** ** The further properties on the sample inputs *)

Section MoreRuns.
Import sample.
Import more_samples.

Example interpret_schema3 :
  DefaultClassConfig_init (Ext := unit) mapping3 schema3 tt =
    (Ok {| _params := schema3;
           attributes := [("size", VInt 7); ("elitism", VBool true); ("tags", VList ["a"; "b"])] |},
     tt, [Warned DeprecationWarning "Using default True for 'elitism'"]).
Proof. reflexivity. Qed.

(** X1 at the boolean parameter with the default ['false'], absent. *)
Lemma interpret_returns_kind_witness :
  interpret (Ext := unit) (flag bool_ (Some (VStr "false"))) [] tt
    = (Ok (VBool false), tt,
       [Warned DeprecationWarning "Using default 'false' for 'reset_on_extinction'"]) /\
  isinstance (B := builtins) (VBool false) bool_ = true /\
  exists text, format (flag bool_ (Some (VStr "false"))) (VBool false) = Ok text.
Proof.
  split; [reflexivity |].
  exact (interpret_returns_kind (Ext := unit) (flag bool_ (Some (VStr "false"))) [] tt tt
           (VBool false) _ eq_refl).
Defined.

(** X3 at the value [True] of a boolean parameter. *)
Lemma format_then_interpret_witness :
  format (flag bool_ None) (VBool true) = Ok "True" /\
  interpret (Ext := unit) (flag bool_ None) [("reset_on_extinction", "True")] tt
    = (Ok (VBool true), tt, []).
Proof.
  split; [reflexivity |].
  exact (format_then_interpret (Ext := unit) (flag bool_ None) (VBool true)
           [("reset_on_extinction", "True")] "True" tt
           (or_introl eq_refl) eq_refl eq_refl eq_refl).
Defined.

(** X4 at a raw value with two spaces in a row. *)
Lemma interpret_then_format_witness :
  exists v,
    interpret (Ext := unit) (flag list_ None) [("reset_on_extinction", "a  b")] tt
      = (Ok v, tt, []) /\
    format (flag list_ None) v = Ok "a  b".
Proof.
  exact (interpret_then_format (Ext := unit) (flag list_ None)
           [("reset_on_extinction", "a  b")] "a  b" tt (or_intror eq_refl) eq_refl).
Defined.

(** X6 at the empty raw value. *)
Lemma list_never_empty_witness :
  exists l,
    interpret (Ext := unit) (flag list_ None) [("reset_on_extinction", "")] tt
      = (Ok (VList l), tt, []) /\ l <> [] /\ ("" = "" -> l = [""]).
Proof.
  exact (list_never_empty (Ext := unit) (flag list_ None)
           [("reset_on_extinction", "")] "" tt eq_refl eq_refl).
Defined.

Lemma sample_sections_are_dicts (neat : list (string * string)) :
  NoDup (Py.keys neat) -> sections_are_dicts (parser_of neat).
Proof.
  intros H. unfold sections_are_dicts. cbn.
  repeat constructor; cbn; try exact H; intuition discriminate.
Defined.

Lemma neat_section_keys : NoDup (Py.keys neat_section).
Proof. cbn. repeat constructor; cbn; intuition discriminate. Defined.

(** X7 at [fitness_criterion] in the sample file. *)
Lemma parse_agrees_with_interpret_witness :
  parse fitness_criterion "NEAT" (parser_of neat_section) = Ok (VStr "max") <->
  interpret (Ext := unit) fitness_criterion (Py.dict neat_section) tt = (Ok (VStr "max"), tt, []).
Proof.
  exact (parse_agrees_with_interpret (Ext := unit) fitness_criterion (parser_of neat_section)
           "NEAT" neat_section "max" tt (VStr "max")
           (or_introl eq_refl) eq_refl eq_refl
           (sample_sections_are_dicts neat_section neat_section_keys)
           (NoDup_nil _) eq_refl eq_refl).
Defined.

(** X8 at [reset_on_extinction = Yes]. *)
Lemma parse_bool_more_permissive_witness :
  parse (flag bool_ None) "NEAT" (parser_of [("reset_on_extinction", "Yes")]) = Ok (VBool true) /\
  exists msg,
    interpret (Ext := unit) (flag bool_ None) (Py.dict [("reset_on_extinction", "Yes")]) tt
      = (Raise (RuntimeError msg), tt, []).
Proof.
  assert (Hk : NoDup (Py.keys [("reset_on_extinction", "Yes")])).
  { cbn. repeat constructor. cbn. tauto. }
  destruct (parse_bool_more_permissive (Ext := unit) (flag bool_ None)
              (parser_of [("reset_on_extinction", "Yes")]) "NEAT"
              [("reset_on_extinction", "Yes")] "Yes" tt
              eq_refl eq_refl eq_refl (sample_sections_are_dicts _ Hk) (NoDup_nil _)
              eq_refl eq_refl) as (H1 & _ & H3).
  split; [exact (H1 eq_refl) | exact (H3 eq_refl)].
Defined.

Lemma schema3_names : NoDup (map name schema3).
Proof. cbn. repeat constructor; cbn; intuition discriminate. Defined.

Lemma schema3_keeps_params : ~ In "_params" (map name schema3).
Proof. cbn. intuition discriminate. Defined.

Lemma schema_params_names : NoDup (map name schema_params).
Proof. cbn. repeat constructor. cbn. tauto. Defined.

(** The schema whose descriptor is named [_params]: the object is built,
    its [_params] is the text of the mapping, and [write_config] fails on
    the first character of that text. *)
Example schema_overwritten :
  DefaultClassConfig_init (Ext := unit) mapping_params schema_params tt =
    (Ok {| _params := Overwritten (VStr "x"); attributes := [("_params", VStr "x")] |}, tt, []) /\
  DefaultClassConfig_write_config (B := builtins) (Ext := unit)
    {| _params := Overwritten (VStr "x"); attributes := [("_params", VStr "x")] |} tt =
    (Raise (AttributeError "name"), tt, []).
Proof. split; reflexivity. Qed.

(** The schema whose first descriptor is named [__class__]: the
    descriptor is interpreted, [setattr] refuses its name, and the missing
    item after it, the first descriptor that cannot be interpreted, is not
    reported. *)
Example reserved_name_refused :
  interpret (B := builtins) (Ext := unit)
    {| name := "__class__"; value_type := str_; default := None |}
    mapping_class tt = (Ok (VStr "x"), tt, []) /\
  interpret (B := builtins) (Ext := unit)
    {| name := "size"; value_type := int_; default := None |}
    mapping_class tt = (Raise (RuntimeError "Missing configuration item: size"), tt, []) /\
  DefaultClassConfig_init (Ext := unit) mapping_class schema_class tt =
    (Raise TypeError, tt, []).
Proof. repeat split. Qed.

(** X10 at the schema of three parameters, which the object keeps, and at
    the schema whose descriptor is named [_params], which it loses. *)
Lemma DefaultClassConfig_init_success_witness :
  NoDup (map name schema3) /\
  (exists v,
     fst (fst (interpret (B := builtins) (Ext := unit)
                 {| name := "tags"; value_type := list_; default := None |} mapping3 tt)) = Ok v /\
     getattr (B := builtins) [("size", VInt 7); ("elitism", VBool true); ("tags", VList ["a"; "b"])]
       "tags" = Ok v) /\
  (exists c t,
     DefaultClassConfig_init (Ext := unit) mapping3 schema3 tt = (Ok c, tt, t) /\
     _params c = Schema schema3) /\
  NoDup (map name schema_params) /\
  (exists c t,
     DefaultClassConfig_init (Ext := unit) mapping_params schema_params tt = (Ok c, tt, t) /\
     _params c = Overwritten (VStr "x")).
Proof.
  destruct (proj1 (DefaultClassConfig_init_success (Ext := unit) mapping3 schema3 tt
                     schema3_names) _ tt _ eq_refl) as (_ & _ & Hp & Hs).
  destruct (proj1 (DefaultClassConfig_init_success (Ext := unit) mapping_params schema_params tt
                     schema_params_names) _ tt _ eq_refl) as (_ & _ & Hq & _).
  split; [exact schema3_names |]. split; [| split; [| split; [exact schema_params_names |]]].
  - destruct (Hp {| name := "tags"; value_type := list_; default := None |}
                (or_intror (or_intror (or_introl eq_refl)))) as (_ & v & Hv & Hg & _).
    exists v. split; [exact Hv | exact Hg].
  - eexists. eexists. split; [reflexivity | exact (Hs schema3_keeps_params)].
  - destruct (Hq {| name := "_params"; value_type := str_; default := None |}
                (or_introl eq_refl)) as (_ & v & Hv & _ & Ho).
    eexists. eexists. split; [reflexivity |].
    cbn in Hv. injection Hv as <-. exact (Ho eq_refl).
Defined.

(** X11 at the same schema and a mapping without [tags]. *)
Lemma DefaultClassConfig_init_first_failure_witness :
  DefaultClassConfig_init (Ext := unit) [("size", "7"); ("typo", "1")] schema3 tt =
    (Raise (RuntimeError "Missing configuration item: tags"), tt,
     [Warned DeprecationWarning "Using default True for 'elitism'"]).
Proof.
  refine (DefaultClassConfig_init_first_failure (Ext := unit) [("size", "7"); ("typo", "1")]
            [ {| name := "size"; value_type := int_; default := None |};
              {| name := "elitism"; value_type := bool_; default := Some (VBool true) |} ]
            {| name := "tags"; value_type := list_; default := None |} [] tt _ _ _ eq_refl).
  - intros q [<- | [<- | []]]; cbn; intuition discriminate.
  - intros q [<- | [<- | []]]; eexists; reflexivity.
Defined.

(** X12 at the same schema, and at the schema whose descriptor is named
    [_params]. *)
Lemma init_then_write_config_witness :
  (exists lines,
     DefaultClassConfig_write_config (Ext := unit)
       {| _params := schema3;
          attributes := [("size", VInt 7); ("elitism", VBool true); ("tags", VList ["a"; "b"])] |}
       tt = (Ok tt, tt, map Wrote lines) /\
     List.length lines = List.length schema3) /\
  (exists e,
     DefaultClassConfig_write_config (B := builtins) (Ext := unit)
       {| _params := Overwritten (VStr "x"); attributes := [("_params", VStr "x")] |}
       tt = (Raise e, tt, []) /\
     (e = ValueError "max() arg is an empty sequence" \/
      e = AttributeError "name" \/ e = TypeError)).
Proof.
  split.
  - refine (init_then_write_config (Ext := unit) mapping3 schema3 tt tt _ _ tt eq_refl _
              schema3_names).
    discriminate.
  - refine (init_then_write_config (Ext := unit) mapping_params schema_params tt tt _ _ tt
              eq_refl _ schema_params_names).
    discriminate.
Defined.

Example write_schema3 :
  DefaultClassConfig_write_config (Ext := unit)
    {| _params := schema3;
       attributes := [("size", VInt 7); ("elitism", VBool true); ("tags", VList ["a"; "b"])] |}
    tt
  = (Ok tt, tt, [Wrote ("elitism = True" ++ nl); Wrote ("size    = 7" ++ nl);
                 Wrote ("tags    = a b" ++ nl)]).
Proof. reflexivity. Qed.

(** X14 at the sample file. *)
Lemma loaded_globals_typed_witness :
  exists n c x b b',
    params loaded = [("pop_size", VInt n); ("fitness_criterion", VStr c);
                     ("fitness_threshold", VFloat x); ("reset_on_extinction", VBool b);
                     ("no_fitness_termination", VBool b')].
Proof.
  exact (loaded_globals_typed (B := builtins) (files_of (parser_of neat_section))
           (simple_type "Genome") (simple_type "Reproduction")
           (simple_type "SpeciesSet") (simple_type "Stagnation") "config"
           tt tt _ loaded eq_refl).
Defined.

(** X16 at a file system without files. *)
Lemma Config_init_early_failures_witness :
  Config_init (B := builtins) no_files (simple_type "Genome") (simple_type "Reproduction")
    (simple_type "SpeciesSet") (simple_type "Stagnation") "config" tt
  = (Raise (Exception_ "No such config file: /config"), tt, []).
Proof.
  exact (proj1 (Config_init_early_failures (B := builtins) no_files
                  (simple_type "Genome") (simple_type "Reproduction")
                  (simple_type "SpeciesSet") (simple_type "Stagnation") "config" tt
                  eq_refl eq_refl eq_refl eq_refl) eq_refl).
Defined.

(** X17 at the sample file. *)
Lemma components_parsed_in_order_witness :
  exists parameters dg ds dt dr s2 s3 s4 t1 tg ts tt' tr,
    read_file (files_of (parser_of neat_section)) "config" = Ok parameters /\
    fst (load_params (B := builtins) parameters Config_params [] [] tt)
      = (Ok (params loaded, map name (Config_params (B := builtins))), tt) /\
    t1 = snd (load_params (B := builtins) parameters Config_params [] [] tt) /\
    items parameters "Genome" = Ok dg /\
    items parameters "SpeciesSet" = Ok ds /\
    items parameters "Stagnation" = Ok dt /\
    items parameters "Reproduction" = Ok dr /\
    call_parse_config (simple_type "Genome") (Py.dict dg) tt = (Ok "Genome", s2, tg) /\
    call_parse_config (simple_type "SpeciesSet") (Py.dict ds) s2 = (Ok "SpeciesSet", s3, ts) /\
    call_parse_config (simple_type "Stagnation") (Py.dict dt) s3 = (Ok "Stagnation", s4, tt') /\
    call_parse_config (simple_type "Reproduction") (Py.dict dr) s4 = (Ok "Reproduction", tt, tr) /\
    [Warned DeprecationWarning "Using default False for 'no_fitness_termination'"]
      = (t1 ++ tg ++ ts ++ tt' ++ tr)%list.
Proof.
  exact (components_parsed_in_order (B := builtins) (files_of (parser_of neat_section))
           (simple_type "Genome") (simple_type "Reproduction")
           (simple_type "SpeciesSet") (simple_type "Stagnation") "config"
           tt tt _ loaded eq_refl).
Defined.


(** X19 at a species set type whose writer raises after one line. *)
Lemma save_stops_at_failing_writer_witness :
  save loaded_failing tt =
    (Raise (Raised "IOError" "disk full"), tt,
     [Wrote ("# The `NEAT` section specifies parameters particular to the NEAT algorithm"
             ++ nl);
      Wrote ("# or the experiment itself.  This is the only required section." ++ nl);
      Wrote ("[NEAT]" ++ nl);
      Wrote ("fitness_criterion      = max" ++ nl);
      Wrote ("fitness_threshold      = 3.0" ++ nl);
      Wrote ("no_fitness_termination = False" ++ nl);
      Wrote ("pop_size               = 150" ++ nl);
      Wrote ("reset_on_extinction    = False" ++ nl);
      Wrote (nl ++ "[Genome]" ++ nl); Wrote ("made_by = Genome" ++ nl);
      Wrote (nl ++ "[SpeciesSet]" ++ nl); Wrote ("made_by = SpeciesSet" ++ nl)]).
Proof.
  destruct (save_stops_at_failing_writer (B := builtins) (files_of (parser_of neat_section))
              (simple_type "Genome") (simple_type "Reproduction")
              (failing_writer_type "SpeciesSet") (simple_type "Stagnation") "config"
              tt tt _ loaded_failing
              (fun c => write ("made_by = " ++ c ++ nl))
              (fun c => write ("made_by = " ++ c ++ nl) ;; raise (Raised "IOError" "disk full"))
              tt tt tt _ _ _
              eq_refl eq_refl eq_refl eq_refl eq_refl)
    as (v1 & v2 & v3 & v4 & v5 & Hparams & Hsave).
  injection Hparams as <- <- <- <- <-. exact Hsave.
Defined.

(** X23 at the function set kept as a list. *)
Lemma init_registers_builtins_witness :
  aggregations.AggregationFunctionSet_init list_function_set
    "product_aggregation" "sum_aggregation" "max_aggregation" "min_aggregation"
    "maxabs_aggregation" tt []
  = (Ok {| aggregations.multiparameterset := list_function_set |}, builtin_store, []) /\
  aggregations.get {| aggregations.multiparameterset := list_function_set |} "sum" builtin_store
    = (Ok "sum_aggregation", builtin_store, []) /\
  aggregations.get {| aggregations.multiparameterset := list_function_set |} "maxabs" builtin_store
    = (Ok "maxabs_aggregation", builtin_store, []).
Proof.
  split; [reflexivity |].
  assert (H1 : forall n f (k : unit) s1 s2 t1,
     aggregations.add_func list_function_set n f "aggregation" k s1 = (Ok tt, s2, t1) ->
     aggregations.get_func list_function_set n "aggregation" s2 = (Ok f, s2, [])).
  { intros n f k s1 s2 t1. cbn.
    destruct (find_func s1 n "aggregation"); intros E; inversion E; subst.
    cbn. rewrite String.eqb_refl. reflexivity. }
  assert (H2 : forall n f (k : unit) s1 s2 t1 n' g,
     aggregations.add_func list_function_set n f "aggregation" k s1 = (Ok tt, s2, t1) ->
     n' <> n ->
     aggregations.get_func list_function_set n' "aggregation" s1 = (Ok g, s1, []) ->
     aggregations.get_func list_function_set n' "aggregation" s2 = (Ok g, s2, [])).
  { intros n f k s1 s2 t1 n' g. cbn.
    destruct (find_func s1 n "aggregation"); intros E; inversion E; subst.
    intros Hn. cbn. apply String.eqb_neq in Hn. rewrite String.eqb_sym, Hn. cbn.
    destruct (find_func s1 n' "aggregation"); intros E'; inversion E'; reflexivity. }
  destruct (init_registers_builtins list_function_set
      "product_aggregation" "sum_aggregation" "max_aggregation" "min_aggregation"
      "maxabs_aggregation" tt [] builtin_store []
      {| aggregations.multiparameterset := list_function_set |} H1 H2 eq_refl)
    as (_ & _ & Hs & _ & _ & Hm).
  split; assumption.
Defined.

(** X9 at [fitness_criterion] in the sample file and at a file without
    it. *)
Lemma parse_outcomes_witness :
  isinstance (B := builtins) (VStr "max") str_ = true /\
  parse fitness_criterion "NEAT" (parser_of [])
    = Raise (Error (NoOptionError "fitness_criterion" "NEAT")).
Proof.
  destruct (parse_outcomes fitness_criterion "NEAT" (parser_of neat_section)) as (H1 & _).
  destruct (parse_outcomes fitness_criterion "NEAT" (parser_of [])) as (_ & H2 & _).
  split.
  - exact (proj1 (H1 (VStr "max") eq_refl)).
  - refine (H2 _ _ eq_refl). discriminate.
Defined.

(** X20 and X21 at the sequence 3, -7, 7, 2. *)
Lemma max_min_aggregation_witness :
  exists hi lo,
    aggregations.max_aggregation [3; -7; 7; 2]%Z = Ok hi /\ In hi [3; -7; 7; 2]%Z /\
    Forall (fun y => (y <= hi)%Z) [3; -7; 7; 2]%Z /\
    aggregations.min_aggregation [3; -7; 7; 2]%Z = Ok lo /\ In lo [3; -7; 7; 2]%Z /\
    Forall (fun y => (lo <= y)%Z) [3; -7; 7; 2]%Z.
Proof.
  refine (proj2 (max_min_aggregation [3; -7; 7; 2]%Z) _). discriminate.
Defined.

Lemma maxabs_aggregation_largest_witness :
  exists m,
    aggregations.maxabs_aggregation [3; -7; 7; 2]%Z = Ok m /\ In m [3; -7; 7; 2]%Z /\
    Forall (fun y => (Z.abs y <= Z.abs m)%Z) [3; -7; 7; 2]%Z /\
    (Forall (fun y => (Z.abs y <= Z.abs 3)%Z) [-7; 7; 2]%Z -> m = 3%Z).
Proof.
  exact (proj2 (maxabs_aggregation_largest [3; -7; 7; 2]%Z) 3%Z [-7; 7; 2]%Z eq_refl).
Defined.

Example maxabs_first_of_ties :
  aggregations.maxabs_aggregation [3; -7; 7; 2]%Z = Ok (-7)%Z /\
  aggregations.sum_aggregation [1; 2; 3]%Z = 6%Z.
Proof. split; reflexivity. Qed.

(** X22 at two orders of the same elements. *)
Lemma sum_aggregation_additive_witness :
  aggregations.sum_aggregation [1; 2; 3]%Z = aggregations.sum_aggregation [3; 1; 2]%Z.
Proof.
  refine (proj2 (proj2 (sum_aggregation_additive [1; 2; 3]%Z [3; 1; 2]%Z)) _).
  apply Permutation_cons_app with (l1 := [3%Z]) (l2 := [2%Z]).
  apply perm_swap.
Defined.

End MoreRuns.
